(** * go_auth: challenge-response client and bearer-token gate

    A shallow embedding of the Go packages [authmiddleware], [authclient]
    and [internal/crypto], and the properties of their specification.

    Layout: Part I holds the definitions (one Module per Go package, the
    Go standard-library calls they make modelled next to them); Part II
    holds the lemmas and theorems. *)

From Stdlib Require Import ZArith String Ascii List Bool Lia.
From Stdlib Require Import DecimalString Strings.Byte.
From stdpp Require Import base option gmap strings list.

Open Scope string_scope.
Open Scope Z_scope.

#[local] Arguments String.append !_ _ : simpl nomatch.

(* ===================================================================== *)
(** * Part I: definitions                                                 *)
(* ===================================================================== *)

(** ** Package [strings] (Go standard library), as far as the code uses it *)
Module strings.

(** [s[:n]] *)
Fixpoint slice_to (n : nat) (s : string) : string :=
  match n, s with
  | O, _ => ""
  | S n', String c s' => String c (slice_to n' s')
  | S _, EmptyString => ""
  end.

(** [s[n:]] *)
Fixpoint slice_from (n : nat) (s : string) : string :=
  match n, s with
  | O, _ => s
  | S n', String _ s' => slice_from n' s'
  | S _, EmptyString => ""
  end.

(** [strings.HasPrefix(s, prefix)]:
    [len(s) >= len(prefix) && s[:len(prefix)] == prefix]. *)
Definition HasPrefix (s prefix : string) : bool :=
  (String.length prefix <=? String.length s)%nat
  && String.eqb (slice_to (String.length prefix) s) prefix.

(** [strings.HasSuffix(s, suffix)]:
    [len(s) >= len(suffix) && s[len(s)-len(suffix):] == suffix]. *)
Definition HasSuffix (s suffix : string) : bool :=
  (String.length suffix <=? String.length s)%nat
  && String.eqb (slice_from (String.length s - String.length suffix) s) suffix.

(** [strings.TrimSuffix(s, suffix)]: one occurrence is removed, if any. *)
Definition TrimSuffix (s suffix : string) : string :=
  if HasSuffix s suffix
  then slice_to (String.length s - String.length suffix) s
  else s.

(** [strings.Index(s, sep)]: the first position at which [sep] occurs. *)
Fixpoint Index (s sep : string) : option nat :=
  if HasPrefix s sep then Some O
  else match s with
       | EmptyString => None
       | String _ s' => S <$> Index s' sep
       end.

(** The loop of [genSplit] for a non-empty separator: at most [cuts]
    cuts, each at the first occurrence of [sep] in what is left. *)
Fixpoint genSplit (s sep : string) (cuts : nat) : list string :=
  match cuts with
  | O => [s]
  | S k =>
      match Index s sep with
      | None => [s]
      | Some m => slice_to m s :: genSplit (slice_from (m + String.length sep) s) sep k
      end
  end.

(** [strings.SplitN(s, sep, n)] for a non-empty [sep]: [n = 0] gives no
    part, [n > 0] at most [n] parts (the last one is the unsplit rest),
    [n < 0] all parts.  A string of length [l] can be cut at most [l]
    times. *)
Definition SplitN (s sep : string) (n : Z) : list string :=
  if n =? 0 then []
  else if n <? 0 then genSplit s sep (String.length s)
  else genSplit s sep (Z.to_nat (n - 1)).

(** [strings.Split(s, sep)] is [SplitN(s, sep, -1)]. *)
Definition Split (s sep : string) : list string := SplitN s sep (-1).

End strings.

(** ** Package [authmiddleware] *)
Module authmiddleware.

(** [net/http]: the status codes and the method name the handler uses. *)
Definition MethodOptions : string := "OPTIONS".
Definition StatusUnauthorized : Z := 401.
Definition StatusForbidden : Z := 403.
Definition StatusInternalServerError : Z := 500.

(** [http.Header] is a [map[string][]string] under canonical keys;
    [Get] returns the first value of the key, or the empty string.  The
    two keys the handler asks for are written in canonical form. *)
Definition Header_Get (h : gmap string (list string)) (key : string) : string :=
  match h !! key with
  | Some (v :: _) => v
  | _ => ""
  end.

(** What the handler reads of an [*http.Request]. *)
Record Request : Type := mkRequest {
  Method : string;
  URL_Path : string;
  Header : gmap string (list string)
}.

(** What the handler does with the request: hand it to [next], or end it
    with [http.Error(w, msg, code)]. *)
Inductive Response : Type :=
| ServeNext
| http_Error (msg : string) (code : Z).

Definition Response_code (o : Response) : option Z :=
  match o with
  | ServeNext => None
  | http_Error _ code => Some code
  end.

Section Gate.

(** The token supplier is a closure over state that lives outside the
    middleware; [Sigma] is that state, read when the handler calls it. *)
Context {Sigma : Type}.

Record Config : Type := mkConfig {
  GetAccessToken : Sigma -> string;
  WhitelistPaths : list string;
  RequireTunnel : bool
}.

(** [isWhitelisted]: the loop over [WhitelistPaths]. *)
Fixpoint isWhitelisted_loop (paths : list string) (path : string) : bool :=
  match paths with
  | [] => false
  | whitelistPath :: rest =>
      if String.eqb path whitelistPath || strings.HasPrefix path whitelistPath
      then true
      else isWhitelisted_loop rest path
  end.

Definition isWhitelisted (m : Config) (path : string) : bool :=
  isWhitelisted_loop (WhitelistPaths m) path.

Definition isFromCloudflare (r : Request) : bool :=
  let cdnLoop := Header_Get (Header r) "Cloudflare-Cdn-Loop" in
  negb (String.eqb cdnLoop "").

(** The handler returned by [Middleware(next)], run on request [r] when
    the supplier's state is [sigma]. *)
Definition Middleware (m : Config) (sigma : Sigma) (r : Request) : Response :=
  if String.eqb (Method r) MethodOptions then ServeNext
  else if isWhitelisted m (URL_Path r) then ServeNext
  else if RequireTunnel m && negb (isFromCloudflare r)
  then http_Error "Access denied: not from Cloudflare Tunnel" StatusForbidden
  else
    let authHeader := Header_Get (Header r) "Authorization" in
    if String.eqb authHeader ""
    then http_Error "Authorization header required" StatusUnauthorized
    else
      let parts := strings.SplitN authHeader " " 2 in
      if negb (length parts =? 2)%nat || negb (String.eqb (nth 0 parts "") "Bearer")
      then http_Error "Invalid authorization header format" StatusUnauthorized
      else
        let token := nth 1 parts "" in
        let expectedToken := GetAccessToken m sigma in
        if String.eqb expectedToken ""
        then http_Error "Server authentication not initialized" StatusInternalServerError
        else if negb (String.eqb token expectedToken)
        then http_Error "Invalid access token" StatusUnauthorized
        else ServeNext.

End Gate.

Arguments Config : clear implicits.

(** The reading "exactly two space-separated parts, the first one the
    literal Bearer": the header cut at every space. *)
Definition two_space_separated_parts (authHeader : string) : bool :=
  match strings.Split authHeader " " with
  | [scheme; _] => String.eqb scheme "Bearer"
  | _ => false
  end.

(** The requests and configurations of the specification's examples: a
    GET request with the given headers, and a gate whose supplier
    always returns [expected]. *)
Definition get (path : string) (headers : list (string * list string)) : Request :=
  mkRequest "GET" path (list_to_map headers).

Definition gate (expected : string) (whitelist : list string) (tunnel : bool) : Config unit :=
  mkConfig (fun _ : unit => expected) whitelist tunnel.

End authmiddleware.

(** ** Go error values *)
Module errors.

(** An error value, by the way the code builds it:
    - [New msg]: a package-level variable made by [errors.New(msg)];
      such a value is only ever equal to itself;
    - [Plain msg]: an error with no wrapped error: [fmt.Errorf] without
      [%w], or the error of another package (net/http, encoding/json,
      crypto/rsa, encoding/base64), of which only the text is used;
    - [Errorf pre w post]: [fmt.Errorf] with one [%w] operand [w], the
      text before it and the text after it;
    - [HTTPError]: a [*authclient.HTTPError]. *)
#[warnings="-register-all"]
Inductive error : Type :=
| New (msg : string)
| Plain (msg : string)
| Errorf (pre : string) (w : error) (post : string)
| HTTPError (StatusCode : Z) (Message : string) (Err : option error).

(** [strconv.Itoa], for the [%d] verb. *)
Definition Itoa (n : Z) : string := NilZero.string_of_int (Z.to_int n).

(** The [Error()] method. *)
Fixpoint Error (e : error) : string :=
  match e with
  | New msg => msg
  | Plain msg => msg
  | Errorf pre w post => pre +:+ Error w +:+ post
  | HTTPError code message (Some w) =>
      "HTTP " +:+ Itoa code +:+ ": " +:+ message +:+ " (" +:+ Error w +:+ ")"
  | HTTPError code message None =>
      "HTTP " +:+ Itoa code +:+ ": " +:+ message
  end.

(** The [Unwrap()] method. *)
Definition Unwrap (e : error) : option error :=
  match e with
  | New _ | Plain _ => None
  | Errorf _ w _ => Some w
  | HTTPError _ _ w => w
  end.

(** [err == target] as [errors.Is] tests it: the targets of this code
    are package-level variables, equal to themselves only. *)
Definition same (err target : error) : bool :=
  match err, target with
  | New a, New b => String.eqb a b
  | _, _ => false
  end.

(** [errors.Is(err, target)]: some error of the [Unwrap] chain is the
    target. *)
Fixpoint Is (err target : error) : bool :=
  same err target ||
  match err with
  | New _ | Plain _ => false
  | Errorf _ w _ => Is w target
  | HTTPError _ _ (Some w) => Is w target
  | HTTPError _ _ None => false
  end.

(** [errors.As(err, &httpErr)] for [httpErr *HTTPError]: the first
    [*HTTPError] of the chain, as its status code and message. *)
Fixpoint As_HTTPError (err : error) : option (Z * string) :=
  match err with
  | New _ | Plain _ => None
  | Errorf _ w _ => As_HTTPError w
  | HTTPError code message _ => Some (code, message)
  end.

(** A call that returns [(value, error)]. *)
Inductive result (A : Type) : Type :=
| Ok (a : A)
| Err (e : error).
Arguments Ok {A} a.
Arguments Err {A} e.

End errors.

(** ** Package [encoding/base64] (Go standard library): [StdEncoding] *)
Module base64.

Definition encodeStd : string :=
  "ABCDEFGHIJKLMNOPQRSTUVWXYZabcdefghijklmnopqrstuvwxyz0123456789+/".

Definition padChar : ascii := "="%char.

(** [enc.encode[v]] *)
Definition encode_map (v : Z) : ascii :=
  match String.get (Z.to_nat v) encodeStd with
  | Some c => c
  | None => padChar
  end.

Fixpoint find_char (c : ascii) (alphabet : string) (i : Z) : option Z :=
  match alphabet with
  | EmptyString => None
  | String d rest => if Ascii.eqb c d then Some i else find_char c rest (i + 1)
  end.

(** [enc.decodeMap[c]], [None] for the 0xff entries. *)
Definition decodeMap (c : ascii) : option Z := find_char c encodeStd 0.

Definition byte_to_Z (b : byte) : Z := Z.of_N (Byte.to_N b).

(** [byte(v)]: the low eight bits. *)
Definition byte_of_Z (v : Z) : byte :=
  match Byte.of_N (Z.to_N (v mod 256)) with
  | Some b => b
  | None => Byte.x00
  end.

(** The [i]-th six-bit group of the 24-bit value [val], from the top:
    [val >> (18 - 6 i) & 0x3F]. *)
Definition sextet (val : Z) (i : Z) : Z := (val / 64 ^ (3 - i)) mod 64.

(** [EncodeToString]: three bytes give four characters; a rest of one
    or two bytes is padded. *)
Fixpoint EncodeToString (src : list byte) : string :=
  match src with
  | [] => ""
  | [b0] =>
      let val := byte_to_Z b0 * 65536 in
      String (encode_map (sextet val 0)) (String (encode_map (sextet val 1))
        (String padChar (String padChar "")))
  | [b0; b1] =>
      let val := byte_to_Z b0 * 65536 + byte_to_Z b1 * 256 in
      String (encode_map (sextet val 0)) (String (encode_map (sextet val 1))
        (String (encode_map (sextet val 2)) (String padChar "")))
  | b0 :: b1 :: b2 :: rest =>
      let val := byte_to_Z b0 * 65536 + byte_to_Z b1 * 256 + byte_to_Z b2 in
      String (encode_map (sextet val 0)) (String (encode_map (sextet val 1))
        (String (encode_map (sextet val 2)) (String (encode_map (sextet val 3))
          (EncodeToString rest))))
  end.

(** The decoder skips carriage returns and line feeds wherever they
    stand. *)
Definition is_newline (c : ascii) : bool :=
  Ascii.eqb c "010"%char || Ascii.eqb c "013"%char.

Fixpoint strip_newlines (s : string) : string :=
  match s with
  | EmptyString => EmptyString
  | String c rest =>
      if is_newline c then strip_newlines rest else String c (strip_newlines rest)
  end.

(** The quanta of four characters. A padded quantum must be the last
    one; the bits of a padded quantum beyond its bytes are not checked
    (the encoding is not strict). *)
Fixpoint decode_quanta (src : string) : option (list byte) :=
  match src with
  | EmptyString => Some []
  | String a (String b (String c (String d rest))) =>
      match decodeMap a, decodeMap b with
      | Some va, Some vb =>
          match decodeMap c, decodeMap d with
          | Some vc, Some vd =>
              let val := va * 262144 + vb * 4096 + vc * 64 + vd in
              match decode_quanta rest with
              | Some out =>
                  Some (byte_of_Z (val / 65536) :: byte_of_Z (val / 256)
                          :: byte_of_Z val :: out)
              | None => None
              end
          | Some vc, None =>
              let val := va * 262144 + vb * 4096 + vc * 64 in
              if Ascii.eqb d padChar && String.eqb rest ""
              then Some [byte_of_Z (val / 65536); byte_of_Z (val / 256)]
              else None
          | None, _ =>
              let val := va * 262144 + vb * 4096 in
              if Ascii.eqb c padChar && Ascii.eqb d padChar && String.eqb rest ""
              then Some [byte_of_Z (val / 65536)]
              else None
          end
      | _, _ => None
      end
  | _ => None
  end.

(** [DecodeString]: [None] stands for a [CorruptInputError]. *)
Definition DecodeString (s : string) : option (list byte) :=
  decode_quanta (strip_newlines s).

End base64.

(** ** Packages [crypto/rsa] and [crypto/sha256] (Go standard library) *)
Module rsa.

Record PublicKey : Type := mkPublicKey { N : Z; E : Z }.

(** [Public] is the embedded [PublicKey] field. *)
Record PrivateKey : Type := mkPrivateKey {
  Public : PublicKey;
  D : Z;
  Primes : list Z
}.

End rsa.

(** The three library calls of [internal/crypto], each with the hash
    fixed to [crypto.SHA256]:
    - [sha256.Sum256([]byte(s))], the digest as a byte slice;
    - [rsa.SignPKCS1v15(rand.Reader, key, crypto.SHA256, hashed)], its
      error text or the signature (the padding of PKCS #1 v1.5 is
      deterministic: the random source does not reach the result);
    - [rsa.VerifyPKCS1v15(key, crypto.SHA256, hashed, sig)], its error
      text, or [None] for a nil error. *)
Class GoCrypto : Type := {
  sha256_Sum256 : string -> list byte;
  rsa_SignPKCS1v15 : rsa.PrivateKey -> list byte -> string + list byte;
  rsa_VerifyPKCS1v15 : rsa.PublicKey -> list byte -> list byte -> option string
}.

(** ** Package [internal/crypto] *)
Module crypto.
Import errors.

Section WithLibrary.
Context `{GoCrypto}.

(** A nil key pointer is [None]. *)
Definition SignChallenge (privateKey : option rsa.PrivateKey) (challenge : string)
  : result string :=
  match privateKey with
  | None => Err (Plain "private key is nil")
  | Some key =>
      if String.eqb challenge "" then Err (Plain "challenge is empty")
      else
        let hashed := sha256_Sum256 challenge in
        match rsa_SignPKCS1v15 key hashed with
        | inl err => Err (Errorf "failed to sign challenge: " (Plain err) "")
        | inr signature => Ok (base64.EncodeToString signature)
        end
  end.

(** The returned error, [None] for nil.  The error of a failed
    [DecodeString] is a [CorruptInputError]; its text stands here
    without the byte offset. *)
Definition VerifySignature (publicKey : option rsa.PublicKey)
    (challenge signatureBase64 : string) : option error :=
  match publicKey with
  | None => Some (Plain "public key is nil")
  | Some key =>
      if String.eqb challenge "" then Some (Plain "challenge is empty")
      else if String.eqb signatureBase64 "" then Some (Plain "signature is empty")
      else
        match base64.DecodeString signatureBase64 with
        | None =>
            Some (Errorf "failed to decode signature: " (Plain "illegal base64 data") "")
        | Some signature =>
            let hashed := sha256_Sum256 challenge in
            match rsa_VerifyPKCS1v15 key hashed signature with
            | Some err => Some (Errorf "signature verification failed: " (Plain err) "")
            | None => None
            end
        end
  end.

(** What the specification calls a valid key pair, on the library
    calls: signing the digest of any challenge succeeds with a signature
    that is not empty, and this signature verifies against the digest of
    a challenge exactly when that digest is the one that was signed (the
    encoding of PKCS #1 v1.5 is a function of the digest, and the
    verifier compares it whole). *)
Definition valid_key_pair (priv : rsa.PrivateKey) (pub : rsa.PublicKey) : Prop :=
  forall challenge : string, exists signature : list byte,
    rsa_SignPKCS1v15 priv (sha256_Sum256 challenge) = inr signature
    /\ signature <> []
    /\ forall challenge' : string,
         rsa_VerifyPKCS1v15 pub (sha256_Sum256 challenge') signature = None
         <-> sha256_Sum256 challenge' = sha256_Sum256 challenge.

End WithLibrary.

(** The specification names the failures of [Sign] and [Verify] by
    class; the code tells them apart by the text of the return site.
    [EmptySignature] is the return site the specification has no name
    for, [SigningFailure] the failed library call of [SignChallenge]. *)
Inductive ErrorClass : Type :=
| InvalidKey
| EmptyInput
| EmptySignature
| MalformedSignature
| SignatureMismatch
| SigningFailure.

Definition class_of (e : error) : option ErrorClass :=
  match e with
  | Plain msg =>
      if String.eqb msg "private key is nil" || String.eqb msg "public key is nil"
      then Some InvalidKey
      else if String.eqb msg "challenge is empty" then Some EmptyInput
      else if String.eqb msg "signature is empty" then Some EmptySignature
      else None
  | Errorf pre _ _ =>
      if String.eqb pre "failed to decode signature: " then Some MalformedSignature
      else if String.eqb pre "signature verification failed: " then Some SignatureMismatch
      else if String.eqb pre "failed to sign challenge: " then Some SigningFailure
      else None
  | _ => None
  end.

(** [SignChallenge] returned an error of class [cls]. *)
Definition Sign_fails_with (r : result string) (cls : ErrorClass) : Prop :=
  match r with
  | Ok _ => False
  | Err e => class_of e = Some cls
  end.

(** [VerifySignature] returned an error of class [cls]. *)
Definition Verify_fails_with (r : option error) (cls : ErrorClass) : Prop :=
  match r with
  | None => False
  | Some e => class_of e = Some cls
  end.

End crypto.

(** ** Packages [time] and [net/http] (Go standard library) *)
Module time.

(** A [time.Duration] counts nanoseconds. *)
Definition Second : Z := 1000000000.

End time.

Module http.

Definition StatusOK : Z := 200.
Definition StatusBadRequest : Z := 400.
Definition StatusUnauthorized : Z := 401.
Definition StatusNotFound : Z := 404.
Definition StatusInternalServerError : Z := 500.

(** The [http.Client] struct; the three interface and function fields
    are kept as opaque handles, [None] for nil. *)
Record Client : Type := mkClient {
  Transport : option positive;
  CheckRedirect : option positive;
  Jar : option positive;
  Timeout : Z
}.

(** [&http.Client{}] *)
Definition zero_Client : Client := mkClient None None None 0.

(** A JSON object as [json.Marshal] writes it: its members in order. *)
Inductive json_value : Type :=
| JString (s : string)
| JBool (b : bool).

(** What the client puts into a request. *)
Record Request : Type := mkRequest {
  Method : string;
  URL : string;
  ContentType : string;
  Body : list (string * json_value)
}.

(** What [io.ReadAll(resp.Body)] returns. *)
Inductive ReadAll : Type :=
| ReadError (msg : string)
| Bytes (body : string).

(** What [httpClient.Do(req)] returns: an error, or a response with
    its status code and its body still to be read. *)
Inductive RoundTrip : Type :=
| DoError (msg : string)
| DoResponse (StatusCode : Z) (body : ReadAll).

End http.

(** ** Packages [encoding/pem], [crypto/x509] and [os] (Go standard
    library), as far as [keygen] uses them *)
Module pem.

(** A [pem.Block]; the code sets and reads no header. *)
Record Block : Type := mkBlock {
  Type_ : string;
  Bytes : list byte
}.

End pem.

Module x509.

(** What [x509.ParsePKCS8PrivateKey] returns: an RSA key, or a key of
    another algorithm, known here by the name of its Go type. *)
Inductive PrivateKey : Type :=
| RSAPrivateKey (key : rsa.PrivateKey)
| OtherPrivateKey (go_type : string).

(** What [x509.ParsePKIXPublicKey] returns. *)
Inductive PublicKey : Type :=
| RSAPublicKey (key : rsa.PublicKey)
| OtherPublicKey (go_type : string).

End x509.

(** The library calls of [keygen]; a call that can fail returns its
    error text on the left.  [pem.Decode] returns the first block it
    finds, [None] for nil (the rest of the input is not used). *)
Class GoKeys : Type := {
  rsa_GenerateKey : Z -> string + rsa.PrivateKey;
  x509_MarshalPKCS8PrivateKey : rsa.PrivateKey -> string + list byte;
  x509_ParsePKCS8PrivateKey : list byte -> string + x509.PrivateKey;
  x509_ParsePKCS1PrivateKey : list byte -> string + rsa.PrivateKey;
  x509_MarshalPKIXPublicKey : rsa.PublicKey -> string + list byte;
  x509_ParsePKIXPublicKey : list byte -> string + x509.PublicKey;
  pem_EncodeToMemory : pem.Block -> list byte;
  pem_Decode : list byte -> option pem.Block
}.

(** ** Package [keygen] *)
Module keygen.
Import errors.

Definition ErrInvalidKeySize : error := New "invalid key size: must be 2048 or 4096".
Definition ErrInvalidPEMBlock : error := New "invalid PEM block".
Definition ErrInvalidKeyType : error := New "invalid key type".

(** One call of [os.WriteFile], with the error it returned. *)
Inductive WriteFile : Type :=
| EvWriteFile (filename : string) (data : list byte) (perm : Z) (err : option string).

(** A function that writes files is a computation over the writes made
    so far. *)
Definition W (A : Type) : Type := list WriteFile -> A * list WriteFile.

Section WithLibrary.
Context `{GoKeys}.

(** The file system, as far as the code can tell: whether the write
    made after [n] earlier ones fails, and what reading a file
    returns. *)
Context (os_WriteFile_error : nat -> string -> list byte -> Z -> option string)
        (os_ReadFile : string -> string + list byte).

Definition os_WriteFile (filename : string) (data : list byte) (perm : Z)
  : W (option string) :=
  fun log =>
    let err := os_WriteFile_error (length log) filename data perm in
    (err, (log ++ [EvWriteFile filename data perm err])%list).

Definition GeneratePrivateKey (bits : Z) : result rsa.PrivateKey :=
  if negb (bits =? 2048) && negb (bits =? 4096)
  then Err (Errorf "" ErrInvalidKeySize (": got " +:+ Itoa bits))
  else
    match rsa_GenerateKey bits with
    | inl err => Err (Errorf "failed to generate private key: " (Plain err) "")
    | inr privateKey => Ok privateKey
    end.

Definition EncodePrivateKeyToPEM (privateKey : option rsa.PrivateKey)
  : result (list byte) :=
  match privateKey with
  | None => Err (Plain "private key is nil")
  | Some key =>
      match x509_MarshalPKCS8PrivateKey key with
      | inl err => Err (Errorf "failed to marshal private key: " (Plain err) "")
      | inr privateKeyBytes =>
          Ok (pem_EncodeToMemory (pem.mkBlock "PRIVATE KEY" privateKeyBytes))
      end
  end.

Definition EncodePublicKeyToPEM (publicKey : option rsa.PublicKey)
  : result (list byte) :=
  match publicKey with
  | None => Err (Plain "public key is nil")
  | Some key =>
      match x509_MarshalPKIXPublicKey key with
      | inl err => Err (Errorf "failed to marshal public key: " (Plain err) "")
      | inr publicKeyBytes =>
          Ok (pem_EncodeToMemory (pem.mkBlock "PUBLIC KEY" publicKeyBytes))
      end
  end.

(** The returned error, [None] for nil; [384] is [0600]. *)
Definition SavePrivateKey (filename : string) (privateKey : option rsa.PrivateKey)
  : W (option error) :=
  match EncodePrivateKeyToPEM privateKey with
  | Err err => fun log => (Some err, log)
  | Ok privateKeyPEM =>
      fun log =>
        let (werr, log') := os_WriteFile filename privateKeyPEM 384 log in
        (match werr with
         | Some err => Some (Errorf "failed to write private key file: " (Plain err) "")
         | None => None
         end, log')
  end.

(** [420] is [0644]. *)
Definition SavePublicKey (filename : string) (publicKey : option rsa.PublicKey)
  : W (option error) :=
  match EncodePublicKeyToPEM publicKey with
  | Err err => fun log => (Some err, log)
  | Ok publicKeyPEM =>
      fun log =>
        let (werr, log') := os_WriteFile filename publicKeyPEM 420 log in
        (match werr with
         | Some err => Some (Errorf "failed to write public key file: " (Plain err) "")
         | None => None
         end, log')
  end.

Definition GenerateAndSaveKeyPair (privateKeyFile publicKeyFile : string) (bits : Z)
  : W (option error) :=
  match GeneratePrivateKey bits with
  | Err err => fun log => (Some err, log)
  | Ok privateKey =>
      fun log =>
        let (err1, log1) := SavePrivateKey privateKeyFile (Some privateKey) log in
        match err1 with
        | Some err => (Some err, log1)
        | None =>
            let (err2, log2) :=
              SavePublicKey publicKeyFile (Some (rsa.Public privateKey)) log1 in
            match err2 with
            | Some err => (Some err, log2)
            | None => (None, log2)
            end
        end
  end.

(** The error of the fallback to PKCS #1 is returned as it is. *)
Definition ParsePrivateKeyPEM (pemData : list byte) : result rsa.PrivateKey :=
  match pem_Decode pemData with
  | None => Err ErrInvalidPEMBlock
  | Some block =>
      match x509_ParsePKCS8PrivateKey (pem.Bytes block) with
      | inl _ =>
          match x509_ParsePKCS1PrivateKey (pem.Bytes block) with
          | inl err => Err (Plain err)
          | inr key => Ok key
          end
      | inr (x509.RSAPrivateKey rsaKey) => Ok rsaKey
      | inr (x509.OtherPrivateKey go_type) =>
          Err (Errorf "" ErrInvalidKeyType
                 (": expected *rsa.PrivateKey, got " +:+ go_type))
      end
  end.

Definition ParsePublicKeyPEM (pemData : list byte) : result rsa.PublicKey :=
  match pem_Decode pemData with
  | None => Err ErrInvalidPEMBlock
  | Some block =>
      match x509_ParsePKIXPublicKey (pem.Bytes block) with
      | inl err => Err (Errorf "failed to parse public key: " (Plain err) "")
      | inr (x509.RSAPublicKey rsaPub) => Ok rsaPub
      | inr (x509.OtherPublicKey go_type) =>
          Err (Errorf "" ErrInvalidKeyType
                 (": expected *rsa.PublicKey, got " +:+ go_type))
      end
  end.


Definition LoadPublicKey (filename : string) : result rsa.PublicKey :=
  match os_ReadFile filename with
  | inl err => Err (Errorf "failed to read public key file: " (Plain err) "")
  | inr pemData => ParsePublicKeyPEM pemData
  end.

End WithLibrary.

(** What the round trips through PEM ask of the libraries: a marshalled
    key parses back to itself, and an encoded block of one of the two
    types the code writes decodes to itself. *)
Definition codecs_round_trip `{GoKeys} : Prop :=
  (forall key der, x509_MarshalPKCS8PrivateKey key = inr der ->
                   x509_ParsePKCS8PrivateKey der = inr (x509.RSAPrivateKey key))
  /\ (forall key der, x509_MarshalPKIXPublicKey key = inr der ->
                      x509_ParsePKIXPublicKey der = inr (x509.RSAPublicKey key))
  /\ (forall type_ bytes,
        type_ = "PRIVATE KEY" \/ type_ = "PUBLIC KEY" ->
        pem_Decode (pem_EncodeToMemory (pem.mkBlock type_ bytes))
        = Some (pem.mkBlock type_ bytes)).

End keygen.

(** ** Package [authclient] *)
Module authclient.
Import errors.

(** *** errors.go *)
Definition ErrUnauthorized : error := New "authentication failed: unauthorized".
Definition ErrBadRequest : error := New "bad request: invalid parameters".
Definition ErrNotFound : error := New "endpoint not found".
Definition ErrInternalServer : error := New "internal server error".
Definition ErrChallengeExpired : error := New "challenge expired".
Definition ErrInvalidSignature : error := New "invalid signature".
Definition ErrInvalidConfig : error := New "invalid client configuration".
Definition ErrInvalidPrivateKey : error := New "invalid private key".
Definition ErrNetworkError : error := New "network error".

Definition NewHTTPError (statusCode : Z) (message : string) (err : option error) : error :=
  HTTPError statusCode message err.

(** *** types.go *)
Module ClientConfig.
Record t : Type := mk {
  BaseURL : string;
  ClientID : string;
  PrivateKey : option rsa.PrivateKey;
  HTTPClient : option positive;
  Timeout : Z;
  SecretKeys : list string;
  RepoUrl : string;
  GrpcEndpoint : string;
  IncludeRepoList : bool;
  TunnelUrl : string
}.
End ClientConfig.

Module ChallengeResponse.
Record t : Type := mk {
  Challenge : string;
  ExpiresAt : Z
}.
End ChallengeResponse.

Module VerifyRequest.
Record t : Type := mk {
  ClientID : string;
  Challenge : string;
  Signature : string;
  RepoUrl : string;
  GrpcEndpoint : string;
  IncludeRepoList : bool;
  TunnelUrl : string
}.
End VerifyRequest.

Module VerifyResponse.
Record t : Type := mk {
  Success : bool;
  Token : string;
  SecretData : gmap string string;
  RepoList : list string;
  Error : string
}.
End VerifyResponse.

Module ErrorResponse.
Record t : Type := mk {
  Error : string;
  Success : bool
}.
End ErrorResponse.

(** [json.Marshal] of a [VerifyRequest], by its field tags: the three
    plain members, then each [omitempty] member whose value is not the
    zero value. *)
Definition json_Marshal_VerifyRequest (v : VerifyRequest.t)
  : list (string * http.json_value) :=
  [("clientId", http.JString (VerifyRequest.ClientID v));
   ("challenge", http.JString (VerifyRequest.Challenge v));
   ("signature", http.JString (VerifyRequest.Signature v))]
  ++ (if String.eqb (VerifyRequest.RepoUrl v) "" then []
      else [("repoUrl", http.JString (VerifyRequest.RepoUrl v))])
  ++ (if String.eqb (VerifyRequest.GrpcEndpoint v) "" then []
      else [("grpcEndpoint", http.JString (VerifyRequest.GrpcEndpoint v))])
  ++ (if VerifyRequest.IncludeRepoList v
      then [("includeRepoList", http.JBool true)] else [])
  ++ (if String.eqb (VerifyRequest.TunnelUrl v) "" then []
      else [("tunnelUrl", http.JString (VerifyRequest.TunnelUrl v))]).

(** The library calls of auth.go whose result depends on text this
    model does not parse:
    - [http.NewRequest(method, url, body)]: its error text when the
      method or the URL is refused, [None] otherwise;
    - [json.Unmarshal(body, &v)] into a zero value of each of the three
      response types: its error text, or the value read. *)
Class GoNet : Type := {
  http_NewRequest_error : string -> string -> option string;
  json_Unmarshal_ChallengeResponse : string -> string + ChallengeResponse.t;
  json_Unmarshal_VerifyResponse : string -> string + VerifyResponse.t;
  json_Unmarshal_ErrorResponse : string -> string + ErrorResponse.t
}.

(** *** auth.go *)
Record Client : Type := mkClient {
  baseURL : string;
  clientID : string;
  privateKey : option rsa.PrivateKey;
  httpClient : positive;
  timeout : Z;
  maxRetries : Z;
  retryBackoff : Z;
  secretKeys : list string;
  repoUrl : string;
  grpcEndpoint : string
}.

(** [fmt.Fprintf(io.Discard, ...)]: the text goes nowhere. *)
Definition Fprintf_Discard (text : string) : unit := tt.

(** [NewClient] reads and writes [http.Client] objects through
    pointers: [heap] holds the objects by address.  A caller's
    [config.HTTPClient] is an address of [heap]; [&http.Client{}] is a
    fresh one. *)
Definition NewClient (config : ClientConfig.t) (heap : gmap positive http.Client)
  : result Client * gmap positive http.Client :=
  if String.eqb (ClientConfig.BaseURL config) ""
  then (Err (Errorf "" ErrInvalidConfig ": baseURL is required"), heap)
  else if String.eqb (ClientConfig.ClientID config) ""
  then (Err (Errorf "" ErrInvalidConfig ": clientID is required"), heap)
  else
    match ClientConfig.PrivateKey config with
    | None => (Err (Errorf "" ErrInvalidConfig ": privateKey is required"), heap)
    | Some _ =>
        let '(httpClient, heap) :=
          match ClientConfig.HTTPClient config with
          | Some p => (p, heap)
          | None =>
              let p := fresh (dom heap) in
              (p, <[p := http.zero_Client]> heap)
          end in
        let timeout :=
          if ClientConfig.Timeout config =? 0 then 30 * time.Second
          else ClientConfig.Timeout config in
        let heap :=
          alter (fun hc => http.mkClient (http.Transport hc) (http.CheckRedirect hc)
                             (http.Jar hc) timeout) httpClient heap in
        let _ :=
          if negb (strings.HasPrefix (ClientConfig.BaseURL config) "https://")
             && negb (strings.HasPrefix (ClientConfig.BaseURL config) "http://localhost")
          then Fprintf_Discard ("WARNING: BaseURL is not HTTPS: "
                                +:+ ClientConfig.BaseURL config)
          else tt in
        (Ok {| baseURL := strings.TrimSuffix (ClientConfig.BaseURL config) "/";
               clientID := ClientConfig.ClientID config;
               privateKey := ClientConfig.PrivateKey config;
               httpClient := httpClient;
               timeout := timeout;
               maxRetries := 0;
               retryBackoff := 2 * time.Second;
               secretKeys := ClientConfig.SecretKeys config;
               repoUrl := ClientConfig.RepoUrl config;
               grpcEndpoint := ClientConfig.GrpcEndpoint config |},
         heap)
    end.

Definition SetRetry (c : Client) (maxRetries backoff : Z) : Client :=
  {| baseURL := baseURL c; clientID := clientID c; privateKey := privateKey c;
     httpClient := httpClient c; timeout := timeout c;
     maxRetries := maxRetries; retryBackoff := backoff;
     secretKeys := secretKeys c; repoUrl := repoUrl c;
     grpcEndpoint := grpcEndpoint c |}.

(** What a run does to the world outside, in order: a request sent
    with what came back, or a sleep of the given duration. *)
Inductive Event : Type :=
| EvRoundTrip (req : http.Request) (resp : http.RoundTrip)
| EvSleep (d : Z).

Definition is_round_trip (e : Event) : bool :=
  match e with
  | EvRoundTrip _ _ => true
  | EvSleep _ => false
  end.

Definition is_sleep (e : Event) : bool :=
  match e with
  | EvRoundTrip _ _ => false
  | EvSleep _ => true
  end.

Definition is_request_to (url : string) (e : Event) : bool :=
  match e with
  | EvRoundTrip req _ => String.eqb (http.URL req) url
  | EvSleep _ => false
  end.

(** The number of requests sent so far. *)
Definition requests_sent (tr : list Event) : nat :=
  length (List.filter is_round_trip tr).

(** A method of the client is a computation over the trace of the run
    so far. *)
Definition M (A : Type) : Type := list Event -> A * list Event.

Definition ret {A : Type} (a : A) : M A := fun tr => (a, tr).

Definition bind {A B : Type} (m : M A) (k : A -> M B) : M B :=
  fun tr => let (a, tr') := m tr in k a tr'.

Notation "x <~ m ;; k" := (bind m (fun x => k))
  (at level 100, m at next level, right associativity).

(** [handleHTTPError] does not use its receiver. *)
Definition handleHTTPError `{GoNet} (statusCode : Z) (body : string) : error :=
  match json_Unmarshal_ErrorResponse body with
  | inl _ => NewHTTPError statusCode body None
  | inr errResp =>
      let baseErr :=
        if statusCode =? http.StatusBadRequest then ErrBadRequest
        else if statusCode =? http.StatusUnauthorized then ErrUnauthorized
        else if statusCode =? http.StatusNotFound then ErrNotFound
        else if statusCode =? http.StatusInternalServerError then ErrInternalServer
        else Plain ("HTTP error " +:+ Itoa statusCode) in
      NewHTTPError statusCode (ErrorResponse.Error errResp) (Some baseErr)
  end.

(** [isRetryable] does not use its receiver. *)
Definition isRetryable (err : error) : bool :=
  if Is err ErrNetworkError then true
  else
    match As_HTTPError err with
    | Some (StatusCode, _) =>
        if (500 <=? StatusCode) && (StatusCode <? 600) then true
        else if StatusCode =? 429 then true
        else false
    | None => false
    end.

(** The loop of [VerifySignature] over [c.secretKeys]. *)
Fixpoint filter_loop (keys : list string) (SecretData filteredData : gmap string string)
  : gmap string string :=
  match keys with
  | [] => filteredData
  | key :: rest =>
      filter_loop rest SecretData
        match SecretData !! key with
        | Some value => <[key := value]> filteredData
        | None => filteredData
        end
  end.

Section Run.

(** The verifier: what comes back for the request sent after [n]
    earlier ones. *)
Context `{GoNet} `{GoCrypto} (server : nat -> http.Request -> http.RoundTrip).

(** [c.httpClient.Do(req)] *)
Definition Do (req : http.Request) : M http.RoundTrip :=
  fun tr =>
    let resp := server (requests_sent tr) req in
    (resp, (tr ++ [EvRoundTrip req resp])%list).

(** [time.Sleep(d)] *)
Definition Sleep (d : Z) : M unit := fun tr => (tt, (tr ++ [EvSleep d])%list).

(** [json.Marshal] cannot fail on a map of strings or on a
    [VerifyRequest]; that error branch is left out. *)
Definition RequestChallenge (c : Client) : M (result ChallengeResponse.t) :=
  let url := baseURL c +:+ "/challenge" in
  let jsonData := [("clientId", http.JString (clientID c))] in
  match http_NewRequest_error "POST" url with
  | Some err => ret (Err (Errorf "failed to create request: " (Plain err) ""))
  | None =>
      resp <~ Do (http.mkRequest "POST" url "application/json" jsonData) ;;
      ret match resp with
          | http.DoError err => Err (Errorf "" ErrNetworkError (": " +:+ err))
          | http.DoResponse _ (http.ReadError err) =>
              Err (Errorf "failed to read response: " (Plain err) "")
          | http.DoResponse StatusCode (http.Bytes body) =>
              if negb (StatusCode =? http.StatusOK)
              then Err (handleHTTPError StatusCode body)
              else
                match json_Unmarshal_ChallengeResponse body with
                | inl err => Err (Errorf "failed to parse response: " (Plain err) "")
                | inr challengeResp => Ok challengeResp
                end
          end
  end.

Definition signChallenge (c : Client) (challenge : string) : result string :=
  match privateKey c with
  | None => Err ErrInvalidPrivateKey
  | Some _ =>
      match crypto.SignChallenge (privateKey c) challenge with
      | Err err => Err (Errorf "failed to sign challenge: " err "")
      | Ok signature => Ok signature
      end
  end.

(** The composite literal of [reqBody] names five fields; the other two
    keep their zero value. *)
Definition VerifySignature (c : Client) (challenge signature : string)
  : M (result VerifyResponse.t) :=
  let url := baseURL c +:+ "/verify" in
  let reqBody :=
    {| VerifyRequest.ClientID := clientID c;
       VerifyRequest.Challenge := challenge;
       VerifyRequest.Signature := signature;
       VerifyRequest.RepoUrl := repoUrl c;
       VerifyRequest.GrpcEndpoint := grpcEndpoint c;
       VerifyRequest.IncludeRepoList := false;
       VerifyRequest.TunnelUrl := "" |} in
  let jsonData := json_Marshal_VerifyRequest reqBody in
  match http_NewRequest_error "POST" url with
  | Some err => ret (Err (Errorf "failed to create request: " (Plain err) ""))
  | None =>
      resp <~ Do (http.mkRequest "POST" url "application/json" jsonData) ;;
      ret match resp with
          | http.DoError err => Err (Errorf "" ErrNetworkError (": " +:+ err))
          | http.DoResponse _ (http.ReadError err) =>
              Err (Errorf "failed to read response: " (Plain err) "")
          | http.DoResponse StatusCode (http.Bytes body) =>
              if negb (StatusCode =? http.StatusOK)
              then Err (handleHTTPError StatusCode body)
              else
                match json_Unmarshal_VerifyResponse body with
                | inl err => Err (Errorf "failed to parse response: " (Plain err) "")
                | inr verifyResp =>
                    if negb (VerifyResponse.Success verifyResp)
                    then Err (Errorf "" ErrUnauthorized
                                (": " +:+ VerifyResponse.Error verifyResp))
                    else if (0 <? length (secretKeys c))%nat
                    then
                      let filteredData :=
                        filter_loop (secretKeys c)
                          (VerifyResponse.SecretData verifyResp) ∅ in
                      Ok {| VerifyResponse.Success := VerifyResponse.Success verifyResp;
                            VerifyResponse.Token := VerifyResponse.Token verifyResp;
                            VerifyResponse.SecretData := filteredData;
                            VerifyResponse.RepoList := VerifyResponse.RepoList verifyResp;
                            VerifyResponse.Error := VerifyResponse.Error verifyResp |}
                    else Ok verifyResp
                end
          end
  end.

(** [authenticateWithRetry] calls itself with [retriesLeft - 1] and only
    under [retriesLeft > 0]: [fuel] bounds the depth of the calls, and
    [Z.to_nat retriesLeft] is always enough (lemma
    [authenticateWithRetry_eq] of Part II is the function as the
    source writes it). *)
Fixpoint authenticateWithRetry_fuel (fuel : nat) (c : Client) (retriesLeft : Z)
  : M (result VerifyResponse.t) :=
  let again : M (result VerifyResponse.t) :=
    match fuel with
    | S fuel' =>
        _ <~ Sleep (retryBackoff c) ;;
        authenticateWithRetry_fuel fuel' c (retriesLeft - 1)
    | O => ret (Err (Plain "call depth exceeded"))
    end in
  r <~ RequestChallenge c ;;
  match r with
  | Err err =>
      if (0 <? retriesLeft) && isRetryable err then again
      else ret (Err (Errorf "failed to request challenge: " err ""))
  | Ok challengeResp =>
      match signChallenge c (ChallengeResponse.Challenge challengeResp) with
      | Err err => ret (Err (Errorf "failed to sign challenge: " err ""))
      | Ok signature =>
          v <~ VerifySignature c (ChallengeResponse.Challenge challengeResp) signature ;;
          match v with
          | Err err =>
              if (0 <? retriesLeft) && isRetryable err then again
              else ret (Err (Errorf "failed to verify signature: " err ""))
          | Ok verifyResp => ret (Ok verifyResp)
          end
      end
  end.

Definition authenticateWithRetry (c : Client) (retriesLeft : Z)
  : M (result VerifyResponse.t) :=
  authenticateWithRetry_fuel (Z.to_nat retriesLeft) c retriesLeft.

Definition Authenticate (c : Client) : M (result VerifyResponse.t) :=
  authenticateWithRetry c (maxRetries c).

End Run.

(** *** Notions the properties of Part II are stated with *)

(** The timeout [NewClient] settles on. *)
Definition effective_timeout (config : ClientConfig.t) : Z :=
  if ClientConfig.Timeout config =? 0 then 30 * time.Second
  else ClientConfig.Timeout config.

(** The request [RequestChallenge] sends. *)
Definition challenge_request (c : Client) : http.Request :=
  http.mkRequest "POST" (baseURL c +:+ "/challenge") "application/json"
    [("clientId", http.JString (clientID c))].

(** The [VerifyRequest] a specification-conforming client would send:
    the configured optional fields included. *)
Definition configured_VerifyRequest (config : ClientConfig.t)
    (challenge signature : string) : VerifyRequest.t :=
  {| VerifyRequest.ClientID := ClientConfig.ClientID config;
     VerifyRequest.Challenge := challenge;
     VerifyRequest.Signature := signature;
     VerifyRequest.RepoUrl := ClientConfig.RepoUrl config;
     VerifyRequest.GrpcEndpoint := ClientConfig.GrpcEndpoint config;
     VerifyRequest.IncludeRepoList := ClientConfig.IncludeRepoList config;
     VerifyRequest.TunnelUrl := "" |}.

(** The [VerifyRequest] that [VerifySignature] builds. *)
Definition sent_VerifyRequest (c : Client) (challenge signature : string)
  : VerifyRequest.t :=
  {| VerifyRequest.ClientID := clientID c;
     VerifyRequest.Challenge := challenge;
     VerifyRequest.Signature := signature;
     VerifyRequest.RepoUrl := repoUrl c;
     VerifyRequest.GrpcEndpoint := grpcEndpoint c;
     VerifyRequest.IncludeRepoList := false;
     VerifyRequest.TunnelUrl := "" |}.

(** The request [VerifySignature] sends. *)
Definition verify_request (c : Client) (challenge signature : string) : http.Request :=
  http.mkRequest "POST" (baseURL c +:+ "/verify") "application/json"
    (json_Marshal_VerifyRequest (sent_VerifyRequest c challenge signature)).

(** The three steps of one attempt. *)
Inductive Step : Type := ChallengeStep | SignStep | VerifyStep.

(** The text [authenticateWithRetry] puts before the error of a step. *)
Definition step_prefix (s : Step) : string :=
  match s with
  | ChallengeStep => "failed to request challenge: "
  | SignStep => "failed to sign challenge: "
  | VerifyStep => "failed to verify signature: "
  end.

(** The steps at which a failure may be retried. *)
Definition retried_step (s : Step) : bool :=
  match s with
  | ChallengeStep | VerifyStep => true
  | SignStep => false
  end.

Section Attempt.
Context `{GoNet} `{GoCrypto} (server : nat -> http.Request -> http.RoundTrip).

(** One pass through the three-step sequence, from [RequestChallenge]:
    the session, or the step that failed and its error. *)
Definition attempt (c : Client) : M (VerifyResponse.t + Step * error) :=
  r <~ RequestChallenge server c ;;
  match r with
  | Err err => ret (inr (ChallengeStep, err))
  | Ok challengeResp =>
      match signChallenge c (ChallengeResponse.Challenge challengeResp) with
      | Err err => ret (inr (SignStep, err))
      | Ok signature =>
          v <~ VerifySignature server c
                 (ChallengeResponse.Challenge challengeResp) signature ;;
          ret match v with
              | Err err => inr (VerifyStep, err)
              | Ok verifyResp => inl verifyResp
              end
      end
  end.

(** The events of one attempt: no request at all (the request could not
    be built), a challenge request alone, or a challenge request
    answered with a challenge and, right after it, a verify request
    that carries this very challenge. *)
Inductive attempt_events (c : Client) : list Event -> Prop :=
| attempt_no_request : attempt_events c []
| attempt_challenge_only (resp : http.RoundTrip) :
    attempt_events c [EvRoundTrip (challenge_request c) resp]
| attempt_challenge_verify (body : string) (challengeResp : ChallengeResponse.t)
    (signature : string) (resp : http.RoundTrip) :
    json_Unmarshal_ChallengeResponse body = inr challengeResp ->
    attempt_events c
      [EvRoundTrip (challenge_request c)
         (http.DoResponse http.StatusOK (http.Bytes body));
       EvRoundTrip
         (verify_request c (ChallengeResponse.Challenge challengeResp) signature)
         resp].

(** The events of a run with [budget] retries: attempts, with one sleep
    of the configured backoff between two of them, and at most [budget]
    sleeps. *)
Inductive run_events (c : Client) : nat -> list Event -> Prop :=
| run_last (budget : nat) (evs : list Event) :
    attempt_events c evs -> run_events c budget evs
| run_retry (budget : nat) (evs rest : list Event) :
    attempt_events c evs -> run_events c budget rest ->
    run_events c (S budget) (evs ++ EvSleep (retryBackoff c) :: rest)%list.

End Attempt.

(** The failures the specification calls retryable: the error is
    [ErrNetworkError], or an [HTTPError] of status 500 to 599 or 429. *)
Definition retryable_class (err : error) : Prop :=
  Is err ErrNetworkError = true
  \/ exists StatusCode Message,
       As_HTTPError err = Some (StatusCode, Message)
       /\ (500 <= StatusCode < 600 \/ StatusCode = 429).

(** The session [VerifySignature] returns for a successful response:
    the secret map cut down to the configured keys, when there are
    any. *)
Definition session_of (c : Client) (verifyResp : VerifyResponse.t) : VerifyResponse.t :=
  if (0 <? length (secretKeys c))%nat
  then {| VerifyResponse.Success := VerifyResponse.Success verifyResp;
          VerifyResponse.Token := VerifyResponse.Token verifyResp;
          VerifyResponse.SecretData :=
            filter_loop (secretKeys c) (VerifyResponse.SecretData verifyResp) ∅;
          VerifyResponse.RepoList := VerifyResponse.RepoList verifyResp;
          VerifyResponse.Error := VerifyResponse.Error verifyResp |}
  else verifyResp.

Section Scenario.
Context `{GoNet} `{GoCrypto} (server : nat -> http.Request -> http.RoundTrip).

(** Both requests of the client can be built. *)
Definition requests_can_be_built (c : Client) : Prop :=
  http_NewRequest_error "POST" (baseURL c +:+ "/challenge") = None
  /\ http_NewRequest_error "POST" (baseURL c +:+ "/verify") = None.

(** From the trace [tr] on, the verifier answers the challenge request
    with a challenge the client can sign. *)
Definition challenge_served (c : Client) (tr : list Event)
    (challengeResp : ChallengeResponse.t) (signature : string) : Prop :=
  exists body,
    server (requests_sent tr) (challenge_request c)
    = http.DoResponse http.StatusOK (http.Bytes body)
    /\ json_Unmarshal_ChallengeResponse body = inr challengeResp
    /\ signChallenge c (ChallengeResponse.Challenge challengeResp) = Ok signature.

(** The verifier answers its first two requests with 503, whatever
    they are. *)
Definition unavailable_twice (c : Client) : Prop :=
  forall req, exists body0 body1,
    server 0%nat req = http.DoResponse 503 (http.Bytes body0)
    /\ server 1%nat req = http.DoResponse 503 (http.Bytes body1).

(** ... and its third and fourth with 200: a challenge, and a
    successful verify response. *)
Definition then_ok (c : Client) : Prop :=
  exists bodyc challengeResp signature bodyv verifyResp,
    server 2%nat (challenge_request c) = http.DoResponse http.StatusOK (http.Bytes bodyc)
    /\ json_Unmarshal_ChallengeResponse bodyc = inr challengeResp
    /\ signChallenge c (ChallengeResponse.Challenge challengeResp) = Ok signature
    /\ server 3%nat
         (verify_request c (ChallengeResponse.Challenge challengeResp) signature)
       = http.DoResponse http.StatusOK (http.Bytes bodyv)
    /\ json_Unmarshal_VerifyResponse bodyv = inr verifyResp
    /\ VerifyResponse.Success verifyResp = true.

End Scenario.

(** *** The rest of auth.go *)

Module HealthResponse.
Record t : Type := mk {
  Status : string
}.
End HealthResponse.

Section Health.
Context `{GoNet} (json_Unmarshal_HealthResponse : string -> string + HealthResponse.t)
        (server : nat -> http.Request -> http.RoundTrip).

(** [c.httpClient.Get(url)]: [http.NewRequest("GET", url, nil)], whose
    error is returned before anything is sent, then [Do]. *)
Definition Get (url : string) : M http.RoundTrip :=
  match http_NewRequest_error "GET" url with
  | Some err => ret (http.DoError err)
  | None => Do server (http.mkRequest "GET" url "" [])
  end.

Definition Health (c : Client) : M (result HealthResponse.t) :=
  let url := baseURL c +:+ "/health" in
  resp <~ Get url ;;
  ret match resp with
      | http.DoError err => Err (Errorf "" ErrNetworkError (": " +:+ err))
      | http.DoResponse _ (http.ReadError err) =>
          Err (Errorf "failed to read response: " (Plain err) "")
      | http.DoResponse StatusCode (http.Bytes body) =>
          if negb (StatusCode =? http.StatusOK)
          then Err (handleHTTPError StatusCode body)
          else
            match json_Unmarshal_HealthResponse body with
            | inl err => Err (Errorf "failed to parse response: " (Plain err) "")
            | inr healthResp => Ok healthResp
            end
      end.

End Health.


(** A configuration with another base URL. *)
Definition with_BaseURL (config : ClientConfig.t) (url : string) : ClientConfig.t :=
  {| ClientConfig.BaseURL := url;
     ClientConfig.ClientID := ClientConfig.ClientID config;
     ClientConfig.PrivateKey := ClientConfig.PrivateKey config;
     ClientConfig.HTTPClient := ClientConfig.HTTPClient config;
     ClientConfig.Timeout := ClientConfig.Timeout config;
     ClientConfig.SecretKeys := ClientConfig.SecretKeys config;
     ClientConfig.RepoUrl := ClientConfig.RepoUrl config;
     ClientConfig.GrpcEndpoint := ClientConfig.GrpcEndpoint config;
     ClientConfig.IncludeRepoList := ClientConfig.IncludeRepoList config;
     ClientConfig.TunnelUrl := ClientConfig.TunnelUrl config |}.

(** The time slept in a trace. *)
Definition slept (tr : list Event) : Z :=
  fold_right (fun e acc => match e with
                           | EvSleep d => d + acc
                           | EvRoundTrip _ _ => acc
                           end) 0 tr.

End authclient.

(** ** Doubles for the examples: a verifier and a small RSA *)
Module mock.
Import errors authclient.

(** The doubles of the JSON decoders read bodies of plain words:
    [challenge:<nonce>], [granted], [denied:<reason>], [error:<text>]. *)
Definition unmarshal_challenge (body : string) : string + ChallengeResponse.t :=
  if strings.HasPrefix body "challenge:"
  then inr (ChallengeResponse.mk (strings.slice_from 10 body) 1893456000)
  else inl "invalid character".

Definition unmarshal_verify (body : string) : string + VerifyResponse.t :=
  if String.eqb body "granted"
  then inr (VerifyResponse.mk true "jwt" {[ "API_KEY" := "a"; "OTHER" := "b" ]} [] "")
  else if strings.HasPrefix body "denied:"
  then inr (VerifyResponse.mk false "" ∅ [] (strings.slice_from 7 body))
  else inl "invalid character".

Definition unmarshal_error (body : string) : string + ErrorResponse.t :=
  if strings.HasPrefix body "error:"
  then inr (ErrorResponse.mk (strings.slice_from 6 body) false)
  else inl "invalid character".

Definition net : GoNet :=
  {| http_NewRequest_error := fun _ _ => None;
     json_Unmarshal_ChallengeResponse := unmarshal_challenge;
     json_Unmarshal_VerifyResponse := unmarshal_verify;
     json_Unmarshal_ErrorResponse := unmarshal_error |}.

(** [b ^ e mod m] by repeated squaring. *)
Fixpoint powmod_pos (b : Z) (e : positive) (m : Z) : Z :=
  match e with
  | xH => b mod m
  | xO e' => let r := powmod_pos b e' m in (r * r) mod m
  | xI e' => let r := powmod_pos b e' m in (r * r * b) mod m
  end.

Definition powmod (b e m : Z) : Z :=
  match e with
  | Zpos p => powmod_pos b p m
  | Z0 => 1 mod m
  | Zneg _ => 0
  end.

(** Textbook RSA on one-byte digests, the signature on two bytes. *)
Definition digest (s : string) : list byte :=
  [base64.byte_of_Z
     (fold_right (fun ch acc => Z.of_nat (nat_of_ascii ch) + acc) 0
        (list_ascii_of_string s))].

Definition sign (key : rsa.PrivateKey) (hashed : list byte) : string + list byte :=
  match hashed with
  | [b] =>
      let s := powmod (base64.byte_to_Z b) (rsa.D key) (rsa.N (rsa.Public key)) in
      inr [base64.byte_of_Z (s / 256); base64.byte_of_Z s]
  | _ => inl "crypto/rsa: input must be hashed message"
  end.

Definition verify (key : rsa.PublicKey) (hashed sig : list byte) : option string :=
  match hashed, sig with
  | [b], [s1; s0] =>
      let s := base64.byte_to_Z s1 * 256 + base64.byte_to_Z s0 in
      if powmod s (rsa.E key) (rsa.N key) =? base64.byte_to_Z b then None
      else Some "crypto/rsa: verification error"
  | _, _ => Some "crypto/rsa: verification error"
  end.

Definition small_rsa : GoCrypto :=
  {| sha256_Sum256 := digest;
     rsa_SignPKCS1v15 := sign;
     rsa_VerifyPKCS1v15 := verify |}.

(** [3233 = 61 * 53], [17 * 2753 = 1 (mod 3120)]. *)
Definition publicKey : rsa.PublicKey := rsa.mkPublicKey 3233 17.
Definition privateKey : rsa.PrivateKey := rsa.mkPrivateKey publicKey 2753 [61; 53].

(** A verifier that answers its first two requests with 503 and every
    later one with 200. *)
Definition unavailable_twice (n : nat) (req : http.Request) : http.RoundTrip :=
  if (n <? 2)%nat then http.DoResponse 503 (http.Bytes "error:unavailable")
  else if strings.HasSuffix (http.URL req) "/challenge"
  then http.DoResponse 200 (http.Bytes "challenge:nonce")
  else http.DoResponse 200 (http.Bytes "granted").

(** A verifier that answers every request with 200: a challenge, or a
    successful verify response. *)
Definition granting (n : nat) (req : http.Request) : http.RoundTrip :=
  if strings.HasSuffix (http.URL req) "/challenge"
  then http.DoResponse 200 (http.Bytes "challenge:nonce")
  else http.DoResponse 200 (http.Bytes "granted").

(** A verifier that answers every verify request with 401 and a body
    whose [success] is false, as the test server of the repository
    does. *)
Definition rejecting (n : nat) (req : http.Request) : http.RoundTrip :=
  if strings.HasSuffix (http.URL req) "/challenge"
  then http.DoResponse 200 (http.Bytes "challenge:nonce")
  else http.DoResponse 401 (http.Bytes "error:Invalid signature").

(** A verifier that answers every verify request with 200 and
    [success: false]. *)
Definition denying (n : nat) (req : http.Request) : http.RoundTrip :=
  if strings.HasSuffix (http.URL req) "/challenge"
  then http.DoResponse 200 (http.Bytes "challenge:nonce")
  else http.DoResponse 200 (http.Bytes "denied:Invalid signature").

(** A verifier that answers every verify request with 503 and a body
    whose [success] is false. *)
Definition denying_unavailable (n : nat) (req : http.Request) : http.RoundTrip :=
  if strings.HasSuffix (http.URL req) "/challenge"
  then http.DoResponse 200 (http.Bytes "challenge:nonce")
  else http.DoResponse 503 (http.Bytes "error:Invalid signature").

(** A client as [NewClient] and [SetRetry] leave it. *)
Definition client (retries : Z) (keys : list string) : Client :=
  {| baseURL := "https://verifier.example";
     clientID := "client-1";
     authclient.privateKey := Some privateKey;
     httpClient := 1%positive;
     timeout := 30 * time.Second;
     maxRetries := retries;
     retryBackoff := 2 * time.Second;
     secretKeys := keys;
     repoUrl := "";
     grpcEndpoint := "" |}.

(** A configuration that asks for the repository list. *)
Definition config : ClientConfig.t :=
  {| ClientConfig.BaseURL := "http://verifier.example/";
     ClientConfig.ClientID := "client-1";
     ClientConfig.PrivateKey := Some privateKey;
     ClientConfig.HTTPClient := Some 1%positive;
     ClientConfig.Timeout := 0;
     ClientConfig.SecretKeys := ["API_KEY"];
     ClientConfig.RepoUrl := "https://github.com/o/r";
     ClientConfig.GrpcEndpoint := "grpc.example:443";
     ClientConfig.IncludeRepoList := true;
     ClientConfig.TunnelUrl := "" |}.

(** The caller's own [http.Client], at address 1, with a timeout of
    five seconds, a transport and a cookie jar. *)
Definition caller_heap : gmap positive http.Client :=
  {[ 1%positive := http.mkClient (Some 7%positive) None (Some 9%positive) (5 * time.Second) ]}.

(** Doubles for the key files: the DER of the one key pair is two
    bytes, and a PEM block is its bytes after a byte for its type. *)
Definition publicKey_eqb (a b : rsa.PublicKey) : bool :=
  (rsa.N a =? rsa.N b) && (rsa.E a =? rsa.E b).

Definition privateKey_eqb (a b : rsa.PrivateKey) : bool :=
  publicKey_eqb (rsa.Public a) (rsa.Public b) && (rsa.D a =? rsa.D b)
  && forallb (fun pq => fst pq =? snd pq) (combine (rsa.Primes a) (rsa.Primes b))
  && (length (rsa.Primes a) =? length (rsa.Primes b))%nat.

Definition keys : GoKeys :=
  {| rsa_GenerateKey := fun _ => inr privateKey;
     x509_MarshalPKCS8PrivateKey := fun key =>
       if privateKey_eqb key privateKey then inr [Byte.x30; Byte.x82]
       else inl "x509: unsupported key";
     x509_ParsePKCS8PrivateKey := fun der =>
       match der with
       | [Byte.x30; Byte.x82] => inr (x509.RSAPrivateKey privateKey)
       | [Byte.x30; Byte.x81] => inr (x509.OtherPrivateKey "*ecdsa.PrivateKey")
       | _ => inl "asn1: structure error"
       end;
     x509_ParsePKCS1PrivateKey := fun _ => inl "asn1: structure error";
     x509_MarshalPKIXPublicKey := fun key =>
       if publicKey_eqb key publicKey then inr [Byte.x30; Byte.x59]
       else inl "x509: unsupported key";
     x509_ParsePKIXPublicKey := fun der =>
       match der with
       | [Byte.x30; Byte.x59] => inr (x509.RSAPublicKey publicKey)
       | _ => inl "asn1: structure error"
       end;
     pem_EncodeToMemory := fun block =>
       (if String.eqb (pem.Type_ block) "PRIVATE KEY" then Byte.x01 else Byte.x02)
       :: pem.Bytes block;
     pem_Decode := fun data =>
       match data with
       | Byte.x01 :: rest => Some (pem.mkBlock "PRIVATE KEY" rest)
       | Byte.x02 :: rest => Some (pem.mkBlock "PUBLIC KEY" rest)
       | _ => None
       end |}.

(** A file system in which every write succeeds. *)
Definition writable (n : nat) (filename : string) (data : list byte) (perm : Z)
  : option string := None.

(** A file system that refuses every write. *)
Definition read_only (n : nat) (filename : string) (data : list byte) (perm : Z)
  : option string := Some "read-only file system".


(** The double of the decoder of health responses reads [status:<text>],
    and the verifier double answers every request with [status:ok]. *)
Definition unmarshal_health (body : string) : string + HealthResponse.t :=
  if strings.HasPrefix body "status:"
  then inr (HealthResponse.mk (strings.slice_from 7 body))
  else inl "invalid character".

Definition healthy (n : nat) (req : http.Request) : http.RoundTrip :=
  http.DoResponse 200 (http.Bytes "status:ok").

(** A verifier that cannot be reached. *)
Definition unreachable (n : nat) (req : http.Request) : http.RoundTrip :=
  http.DoError "dial tcp: connection refused".


End mock.

(* ===================================================================== *)
(** * Part II: lemmas and theorems                                        *)
(* ===================================================================== *)

(** ** Strings *)
Module strings_facts.
Import strings.

Lemma slice_to_from (n : nat) (s : string) : slice_to n s +:+ slice_from n s = s.
Proof.
  revert s; induction n as [|n IH]; intros [|c s]; simpl; try reflexivity.
  now rewrite IH.
Qed.

Lemma slice_to_app (p r : string) : slice_to (String.length p) (p +:+ r) = p.
Proof. induction p as [|c p IH]; simpl; [reflexivity | now rewrite IH]. Qed.

Lemma slice_from_app (p r : string) : slice_from (String.length p) (p +:+ r) = r.
Proof. induction p as [|c p IH]; simpl; [reflexivity | exact IH]. Qed.

Lemma length_app (p r : string) :
  String.length (p +:+ r) = (String.length p + String.length r)%nat.
Proof. induction p as [|c p IH]; simpl; [reflexivity | now rewrite IH]. Qed.

Lemma slice_to_length (n : nat) (s : string) :
  (n <= String.length s)%nat -> String.length (slice_to n s) = n.
Proof.
  revert s; induction n as [|n IH]; intros [|c s] Hn; simpl in *; try lia.
  rewrite IH; lia.
Qed.

Lemma HasPrefix_spec (s p : string) :
  HasPrefix s p = true <-> exists rest, s = p +:+ rest.
Proof.
  unfold HasPrefix. rewrite andb_true_iff, Nat.leb_le, String.eqb_eq. split.
  - intros [_ Heq]. exists (slice_from (String.length p) s).
    transitivity (slice_to (String.length p) s +:+ slice_from (String.length p) s).
    + symmetry. apply slice_to_from.
    + now rewrite Heq.
  - intros [rest ->]. rewrite length_app, slice_to_app. split; [lia | reflexivity].
Qed.

Lemma HasSuffix_spec (s suf : string) :
  HasSuffix s suf = true <-> exists p, s = p +:+ suf.
Proof.
  unfold HasSuffix. rewrite andb_true_iff, Nat.leb_le, String.eqb_eq. split.
  - intros [_ Heq]. exists (slice_to (String.length s - String.length suf) s).
    set (k := (String.length s - String.length suf)%nat) in *.
    transitivity (slice_to k s +:+ slice_from k s).
    + symmetry. apply slice_to_from.
    + now rewrite Heq.
  - intros [p ->]. rewrite length_app.
    replace (String.length p + String.length suf - String.length suf)%nat
      with (String.length p) by lia.
    rewrite slice_from_app. split; [lia | reflexivity].
Qed.

Lemma TrimSuffix_spec (s suf : string) :
  (exists p, s = p +:+ suf /\ TrimSuffix s suf = p)
  \/ (HasSuffix s suf = false /\ TrimSuffix s suf = s).
Proof.
  unfold TrimSuffix. destruct (HasSuffix s suf) eqn:E; [left | right; auto].
  apply HasSuffix_spec in E as [p ->]. exists p. split; [reflexivity |].
  rewrite length_app.
  replace (String.length p + String.length suf - String.length suf)%nat
    with (String.length p) by lia.
  apply slice_to_app.
Qed.

Lemma Index_Some (s sep : string) (m : nat) :
  Index s sep = Some m ->
  s = slice_to m s +:+ sep +:+ slice_from (m + String.length sep) s.
Proof.
  revert m; induction s as [|c s IH]; intros m; simpl.
  - destruct (HasPrefix "" sep) eqn:E; [|discriminate].
    intros [= <-]. apply HasPrefix_spec in E as [rest E].
    destruct sep; [reflexivity | discriminate].
  - destruct (HasPrefix (String c s) sep) eqn:E.
    + intros [= <-]. apply HasPrefix_spec in E as [rest E].
      simpl. rewrite E at 2. rewrite slice_from_app. exact E.
    + destruct (Index s sep) as [m'|] eqn:Ei; [|discriminate].
      intros [= <-]. simpl. f_equal. now apply IH.
Qed.

(** The part before the first occurrence holds no earlier occurrence. *)
Lemma Index_first (s sep : string) (m k : nat) :
  Index s sep = Some m -> (k < m)%nat -> HasPrefix (slice_from k s) sep = false.
Proof.
  revert m k; induction s as [|c s IH]; intros m k; simpl.
  - destruct (HasPrefix "" sep); [intros [= <-]; lia | discriminate].
  - destruct (HasPrefix (String c s) sep) eqn:E; [intros [= <-]; lia |].
    destruct (Index s sep) as [m'|] eqn:Ei; [|discriminate].
    intros [= <-] Hk. destruct k as [|k]; [exact E |].
    simpl. apply (IH m'); [reflexivity | lia].
Qed.

Lemma Index_bearer (token : string) : Index ("Bearer " +:+ token) " " = Some 6%nat.
Proof. reflexivity. Qed.

(** [SplitN(h, " ", 2)] and the shape [Bearer <token>]: the header passes
    the format test exactly when it is ["Bearer "] followed by a token,
    and the token is then everything after the first space. *)
Lemma SplitN_bearer (h : string) :
  (exists token, h = "Bearer " +:+ token /\ SplitN h " " 2 = ["Bearer"; token])
  \/ ((forall token, h <> "Bearer " +:+ token)
      /\ (negb (length (SplitN h " " 2) =? 2)%nat
          || negb (String.eqb (nth 0 (SplitN h " " 2) "") "Bearer")) = true).
Proof.
  unfold SplitN. simpl. destruct (Index h " ") as [m|] eqn:Ei.
  - pose proof (Index_Some _ _ _ Ei) as Hh. simpl.
    destruct (String.eqb (slice_to m h) "Bearer") eqn:Eb.
    + left. apply String.eqb_eq in Eb. rewrite Eb in Hh.
      exists (slice_from (m + 1) h). split; [exact Hh |].
      now rewrite Eb.
    + right. split; [| reflexivity].
      intros token ->.
      assert (Hm : Some m = Some 6%nat) by (rewrite <- Ei; reflexivity).
      injection Hm as ->. discriminate.
  - right. split; [| reflexivity].
    intros token ->.
    assert (Hm : @None nat = Some 6%nat) by (rewrite <- Ei; reflexivity).
    discriminate.
Qed.

End strings_facts.

(** ** The access gate *)
Module gate_facts.
Import strings strings_facts authmiddleware.

Section Gate.
Context {Sigma : Type}.
Implicit Types (m : Config Sigma) (sigma : Sigma) (r : Request).

Lemma isWhitelisted_spec m (path : string) :
  isWhitelisted m path = true
  <-> exists w, In w (WhitelistPaths m) /\ (path = w \/ exists rest, path = w +:+ rest).
Proof.
  unfold isWhitelisted. induction (WhitelistPaths m) as [|w ws IH]; simpl.
  - split; [discriminate | intros (w & [] & _)].
  - destruct (String.eqb path w || HasPrefix path w) eqn:E.
    + split; [intros _ | reflexivity]. exists w. split; [now left |].
      apply orb_true_iff in E as [E|E].
      * left. now apply String.eqb_eq.
      * right. now apply HasPrefix_spec.
    + rewrite IH. apply orb_false_iff in E as [E1 E2].
      split; intros (w' & Hin & Hw'); exists w'.
      * split; [now right | exact Hw'].
      * split; [| exact Hw']. destruct Hin as [<- | Hin]; [| exact Hin].
        exfalso. destruct Hw' as [-> | Hp].
        -- rewrite String.eqb_refl in E1. discriminate.
        -- apply HasPrefix_spec in Hp. congruence.
Qed.


(** The origin check passes exactly when the first value of the marker
    header is not empty. *)
Lemma isFromCloudflare_true r :
  isFromCloudflare r = true <-> Header_Get (Header r) "Cloudflare-Cdn-Loop" <> "".
Proof.
  unfold isFromCloudflare.
  destruct (String.eqb_spec (Header_Get (Header r) "Cloudflare-Cdn-Loop") "") as [-> | Hne];
    cbn [negb]; split; try easy.
Qed.

Lemma isFromCloudflare_false r :
  isFromCloudflare r = false <-> Header_Get (Header r) "Cloudflare-Cdn-Loop" = "".
Proof.
  unfold isFromCloudflare.
  destruct (String.eqb_spec (Header_Get (Header r) "Cloudflare-Cdn-Loop") "") as [-> | Hne];
    cbn [negb]; split; try easy.
Qed.

(** The tunnel rule lets a request through when the tunnel is not
    required or the marker header has a value. *)
Lemma tunnel_check_passed m r :
  RequireTunnel m = false \/ Header_Get (Header r) "Cloudflare-Cdn-Loop" <> "" ->
  RequireTunnel m && negb (isFromCloudflare r) = false.
Proof.
  intros [-> | Hmark]; [reflexivity |].
  apply isFromCloudflare_true in Hmark. rewrite Hmark. apply andb_false_r.
Qed.

(** Past the first three rules, a header [Bearer <token>] is settled by
    the supplier's token alone. *)
Lemma Middleware_bearer m sigma r (token : string) :
  Method r <> MethodOptions ->
  isWhitelisted m (URL_Path r) = false ->
  RequireTunnel m && negb (isFromCloudflare r) = false ->
  Header_Get (Header r) "Authorization" = "Bearer " +:+ token ->
  Middleware m sigma r =
    if String.eqb (GetAccessToken m sigma) ""
    then http_Error "Server authentication not initialized" StatusInternalServerError
    else if negb (String.eqb token (GetAccessToken m sigma))
    then http_Error "Invalid access token" StatusUnauthorized
    else ServeNext.
Proof.
  intros Hm Hw Ht Hh. unfold Middleware.
  apply String.eqb_neq in Hm. rewrite Hm, Hw, Ht, Hh.
  destruct (SplitN_bearer ("Bearer " +:+ token)) as [(t & Heq & ->) | [Hno _]].
  - injection Heq as <-. reflexivity.
  - now destruct (Hno token).
Qed.

(** Past the first three rules, any other non-empty header is refused
    for its format. *)
Lemma Middleware_bad_format m sigma r :
  Method r <> MethodOptions ->
  isWhitelisted m (URL_Path r) = false ->
  RequireTunnel m && negb (isFromCloudflare r) = false ->
  Header_Get (Header r) "Authorization" <> "" ->
  (forall token, Header_Get (Header r) "Authorization" <> "Bearer " +:+ token) ->
  Middleware m sigma r = http_Error "Invalid authorization header format" StatusUnauthorized.
Proof.
  intros Hm Hw Ht Hne Hh. unfold Middleware.
  apply String.eqb_neq in Hm, Hne. rewrite Hm, Hw, Ht, Hne.
  destruct (SplitN_bearer (Header_Get (Header r) "Authorization"))
    as [(t & Heq & _) | [_ ->]]; [| reflexivity].
  now destruct (Hh t).
Qed.

Lemma Middleware_no_header m sigma r :
  Method r <> MethodOptions ->
  isWhitelisted m (URL_Path r) = false ->
  RequireTunnel m && negb (isFromCloudflare r) = false ->
  Header_Get (Header r) "Authorization" = "" ->
  Middleware m sigma r = http_Error "Authorization header required" StatusUnauthorized.
Proof.
  intros Hm Hw Ht Hh. unfold Middleware.
  apply String.eqb_neq in Hm. now rewrite Hm, Hw, Ht, Hh.
Qed.


(** C3 as amended. For a request that is neither OPTIONS nor
    whitelisted and that passes the trusted-origin check, an
    Authorization header that is not [Bearer ] followed by a token (the
    token being everything after the first space, spaces included) is
    answered with 401. *)
Theorem gate_rejects_malformed_bearer m sigma r :
  Method r <> MethodOptions ->
  isWhitelisted m (URL_Path r) = false ->
  RequireTunnel m = false \/ isFromCloudflare r = true ->
  (forall token, Header_Get (Header r) "Authorization" <> "Bearer " +:+ token) ->
  Response_code (Middleware m sigma r) = Some StatusUnauthorized.
Proof.
  intros Hm Hw Ht Hh.
  assert (Ht' : RequireTunnel m && negb (isFromCloudflare r) = false)
    by (destruct Ht as [-> | ->]; [reflexivity | apply andb_false_r]).
  destruct (String.eqb_spec (Header_Get (Header r) "Authorization") "") as [He | He].
  - now rewrite (Middleware_no_header _ sigma _ Hm Hw Ht' He).
  - now rewrite (Middleware_bad_format _ sigma _ Hm Hw Ht' He Hh).
Qed.

End Gate.

Example whitelisted_health_no_header :
  Middleware (gate "right" ["/health"] false) tt (get "/health" []) = ServeNext.
Proof. reflexivity. Qed.

Example whitelisted_prefix :
  Middleware (gate "right" ["/public"] true) tt (get "/public/x" []) = ServeNext.
Proof. reflexivity. Qed.

Example wrong_bearer_401 :
  Middleware (gate "right" [] false) tt
    (get "/api/x" [("Authorization", ["Bearer wrong"])])
  = http_Error "Invalid access token" 401.
Proof. reflexivity. Qed.

Example tunnel_marker_missing_403 :
  Middleware (gate "right" [] true) tt
    (get "/api/x" [("Authorization", ["Bearer right"])])
  = http_Error "Access denied: not from Cloudflare Tunnel" 403.
Proof. reflexivity. Qed.

Example empty_supplier_500 :
  Middleware (gate "" [] false) tt
    (get "/api/x" [("Authorization", ["Bearer right"])])
  = http_Error "Server authentication not initialized" 500.
Proof. reflexivity. Qed.

Example options_forwarded :
  Middleware (gate "right" [] true) tt (mkRequest "OPTIONS" "/api/x" ∅) = ServeNext.
Proof. reflexivity. Qed.


(** Counterexample to C3 as stated: the header [Bearer a b] has three
    space-separated parts, yet the request is not answered with 401: it
    is forwarded when the supplier's token is [a b], and answered with
    500 when the supplier has no token. *)
Lemma gate_three_part_bearer_not_401 :
  two_space_separated_parts "Bearer a b" = false
  /\ Middleware (gate "a b" [] false) tt
       (get "/api/x" [("Authorization", ["Bearer a b"])]) = ServeNext
  /\ Middleware (gate "" [] false) tt
       (get "/api/x" [("Authorization", ["Bearer a b"])])
     = http_Error "Server authentication not initialized" StatusInternalServerError.
Proof. repeat split. Qed.

(** Witness of C3 as amended: a Basic header. *)
Lemma gate_rejects_malformed_bearer_witness :
  Response_code
    (Middleware (gate "right" [] false) tt
       (get "/api/x" [("Authorization", ["Basic right"])]))
  = Some StatusUnauthorized.
Proof.
  apply gate_rejects_malformed_bearer.
  - discriminate.
  - reflexivity.
  - now left.
  - intros token. vm_compute. discriminate.
Defined.

End gate_facts.

(** ** The client: construction *)
Module construct_facts.
Import strings strings_facts errors authclient.

Implicit Types (config : ClientConfig.t) (heap : gmap positive http.Client).

Lemma NewClient_invalid config heap :
  ClientConfig.BaseURL config = "" \/ ClientConfig.ClientID config = ""
  \/ ClientConfig.PrivateKey config = None ->
  exists e, NewClient config heap = (Err e, heap) /\ Is e ErrInvalidConfig = true.
Proof.
  intros Hbad. unfold NewClient.
  destruct (String.eqb_spec (ClientConfig.BaseURL config) "") as [Hb | Hb];
    [eexists; split; reflexivity |].
  destruct (String.eqb_spec (ClientConfig.ClientID config) "") as [Hc | Hc];
    [eexists; split; reflexivity |].
  destruct (ClientConfig.PrivateKey config) as [key |];
    [| eexists; split; reflexivity].
  destruct Hbad as [? | [? | ?]]; congruence.
Qed.

Lemma NewClient_valid config heap key :
  ClientConfig.BaseURL config <> "" -> ClientConfig.ClientID config <> "" ->
  ClientConfig.PrivateKey config = Some key ->
  exists c heap',
    NewClient config heap = (Ok c, heap')
    /\ baseURL c = TrimSuffix (ClientConfig.BaseURL config) "/"
    /\ clientID c = ClientConfig.ClientID config
    /\ privateKey c = Some key
    /\ timeout c = effective_timeout config
    /\ maxRetries c = 0
    /\ retryBackoff c = 2 * time.Second
    /\ secretKeys c = ClientConfig.SecretKeys config
    /\ repoUrl c = ClientConfig.RepoUrl config
    /\ grpcEndpoint c = ClientConfig.GrpcEndpoint config.
Proof.
  intros Hb Hc Hk. unfold NewClient.
  apply String.eqb_neq in Hb, Hc. rewrite Hb, Hc, Hk.
  destruct (ClientConfig.HTTPClient config) as [p |];
    (eexists; eexists; split; [reflexivity |]); simpl; repeat split; auto.
Qed.

(** C7. [NewClient] fails exactly when the base URL is empty, the client
    identifier is empty or the private key is nil, and then with an
    error that is [ErrInvalidConfig]; otherwise it returns a client
    whose base URL is the configured one without its final ["/"] (if it
    has one), whose timeout is 30 seconds when the configured one is 0
    and the configured one otherwise, and whose retry count is 0.  The
    scheme of the URL plays no part in this. *)
Theorem NewClient_contract config heap :
  ((exists e, fst (NewClient config heap) = Err e)
   <-> ClientConfig.BaseURL config = "" \/ ClientConfig.ClientID config = ""
       \/ ClientConfig.PrivateKey config = None)
  /\ (forall e, fst (NewClient config heap) = Err e -> Is e ErrInvalidConfig = true)
  /\ (forall c, fst (NewClient config heap) = Ok c ->
      ((exists p, ClientConfig.BaseURL config = p +:+ "/" /\ baseURL c = p)
       \/ (HasSuffix (ClientConfig.BaseURL config) "/" = false
           /\ baseURL c = ClientConfig.BaseURL config))
      /\ (ClientConfig.Timeout config = 0 -> timeout c = 30 * time.Second)
      /\ (ClientConfig.Timeout config <> 0 -> timeout c = ClientConfig.Timeout config)
      /\ maxRetries c = 0).
Proof.
  assert (Hinvalid :
    ClientConfig.BaseURL config = "" \/ ClientConfig.ClientID config = ""
    \/ ClientConfig.PrivateKey config = None ->
    ((exists e, fst (NewClient config heap) = Err e)
     <-> ClientConfig.BaseURL config = "" \/ ClientConfig.ClientID config = ""
         \/ ClientConfig.PrivateKey config = None)
    /\ (forall e, fst (NewClient config heap) = Err e -> Is e ErrInvalidConfig = true)
    /\ (forall c, fst (NewClient config heap) = Ok c ->
        ((exists p, ClientConfig.BaseURL config = p +:+ "/" /\ baseURL c = p)
         \/ (HasSuffix (ClientConfig.BaseURL config) "/" = false
             /\ baseURL c = ClientConfig.BaseURL config))
        /\ (ClientConfig.Timeout config = 0 -> timeout c = 30 * time.Second)
        /\ (ClientConfig.Timeout config <> 0 -> timeout c = ClientConfig.Timeout config)
        /\ maxRetries c = 0)).
  { intros Hbad. destruct (NewClient_invalid config heap Hbad) as (e & Heq & He).
    rewrite Heq; simpl. split; [| split].
    - split; [intros _; exact Hbad | intros _; now exists e].
    - intros e' [= <-]. exact He.
    - intros c [=]. }
  destruct (String.eqb_spec (ClientConfig.BaseURL config) "") as [Hb | Hb];
    [apply Hinvalid; tauto |].
  destruct (String.eqb_spec (ClientConfig.ClientID config) "") as [Hc | Hc];
    [apply Hinvalid; tauto |].
  destruct (ClientConfig.PrivateKey config) as [key |] eqn:Hk;
    [clear Hinvalid | apply Hinvalid; tauto].
  destruct (NewClient_valid config heap key Hb Hc Hk)
    as (c & heap' & Heq & Hbase & _ & _ & Ht & Hr & _).
  rewrite Heq; simpl. split; [| split].
  - split; [intros [e [=]] | intros [? | [? | ?]]; congruence].
  - intros e [=].
  - intros c' [= <-]. repeat split.
    + rewrite Hbase. apply TrimSuffix_spec.
    + intros Hz. rewrite Ht. unfold effective_timeout. now rewrite Hz.
    + intros Hz. rewrite Ht. unfold effective_timeout.
      apply Z.eqb_neq in Hz. now rewrite Hz.
    + exact Hr.
Qed.

(** C10. When the configuration is valid and names the caller's own
    [http.Client], [NewClient] stores the timeout it settles on in the
    [Timeout] field of that very object and uses the object as its own;
    the other fields of the object, and every other object, stay as they
    were. *)
Theorem NewClient_writes_caller_timeout config heap (p : positive) (hc : http.Client) key :
  ClientConfig.BaseURL config <> "" -> ClientConfig.ClientID config <> "" ->
  ClientConfig.PrivateKey config = Some key ->
  ClientConfig.HTTPClient config = Some p ->
  heap !! p = Some hc ->
  exists c heap' hc',
    NewClient config heap = (Ok c, heap')
    /\ httpClient c = p
    /\ heap' !! p = Some hc'
    /\ http.Timeout hc' = effective_timeout config
    /\ http.Transport hc' = http.Transport hc
    /\ http.CheckRedirect hc' = http.CheckRedirect hc
    /\ http.Jar hc' = http.Jar hc
    /\ (forall q, q <> p -> heap' !! q = heap !! q).
Proof.
  intros Hb Hc Hk Hp Hhc. unfold NewClient.
  apply String.eqb_neq in Hb, Hc. rewrite Hb, Hc, Hk, Hp.
  eexists; eexists; eexists. split; [reflexivity |]. split; [reflexivity |].
  split; [rewrite lookup_alter_eq, Hhc; reflexivity |].
  simpl. repeat split; auto.
  intros q Hq. now rewrite lookup_alter_ne.
Qed.

(** A failed construction leaves every object as it was. *)
Lemma NewClient_failure_frame config heap e :
  fst (NewClient config heap) = Err e -> snd (NewClient config heap) = heap.
Proof.
  unfold NewClient.
  destruct (String.eqb (ClientConfig.BaseURL config) ""); [reflexivity |].
  destruct (String.eqb (ClientConfig.ClientID config) ""); [reflexivity |].
  destruct (ClientConfig.PrivateKey config); [| reflexivity].
  destruct (ClientConfig.HTTPClient config); discriminate.
Qed.

(** Witness of C7: a plain-http base URL with a final slash, and no
    timeout given. *)
Lemma NewClient_contract_witness :
  exists c,
    fst (NewClient mock.config mock.caller_heap) = Ok c
    /\ baseURL c = "http://verifier.example"
    /\ timeout c = 30 * time.Second
    /\ maxRetries c = 0.
Proof.
  destruct (NewClient_contract mock.config mock.caller_heap) as (_ & _ & Hok).
  eexists. split; [reflexivity |].
  destruct (Hok _ eq_refl) as (_ & Ht & _ & Hr).
  split; [reflexivity |]. split; [apply Ht; reflexivity | exact Hr].
Defined.

(** Witness of C10: the caller's client had a timeout of five seconds,
    a transport and a cookie jar. *)
Lemma NewClient_writes_caller_timeout_witness :
  exists c heap' hc',
    NewClient mock.config mock.caller_heap = (Ok c, heap')
    /\ httpClient c = 1%positive
    /\ heap' !! 1%positive = Some hc'
    /\ http.Timeout hc' = 30 * time.Second
    /\ http.Transport hc' = Some 7%positive
    /\ http.Jar hc' = Some 9%positive.
Proof.
  destruct (NewClient_writes_caller_timeout mock.config mock.caller_heap 1%positive
              (http.mkClient (Some 7%positive) None (Some 9%positive) (5 * time.Second))
              mock.privateKey)
    as (c & heap' & hc' & Heq & Hp & Hl & Ht & Htr & _ & Hj & _);
    [discriminate | discriminate | reflexivity | reflexivity | reflexivity |].
  exists c, heap', hc'.
  split; [exact Heq |]. split; [exact Hp |]. split; [exact Hl |].
  split; [exact Ht |]. split; [exact Htr | exact Hj].
Defined.

End construct_facts.

(** ** The client: one run of [Authenticate] *)
Module run_facts.
Import strings strings_facts errors authclient.

Lemma requests_sent_round_trip (tr : list Event) req resp :
  requests_sent (tr ++ [EvRoundTrip req resp]) = S (requests_sent tr).
Proof.
  unfold requests_sent. rewrite List.filter_app, List.length_app. simpl. lia.
Qed.

Lemma requests_sent_sleep (tr : list Event) d :
  requests_sent (tr ++ [EvSleep d]) = requests_sent tr.
Proof.
  unfold requests_sent. rewrite List.filter_app, List.length_app. simpl. lia.
Qed.

(** *** Which failures are retried *)

Lemma isRetryable_spec (err : error) : isRetryable err = true <-> retryable_class err.
Proof.
  unfold isRetryable, retryable_class.
  destruct (Is err ErrNetworkError); [split; auto |].
  destruct (As_HTTPError err) as [[code message] |].
  - destruct ((500 <=? code) && (code <? 600)) eqn:E5.
    + apply andb_true_iff in E5 as [?%Z.leb_le ?%Z.ltb_lt].
      split; [intros _ | reflexivity]. right. exists code, message. split; [reflexivity | lia].
    + destruct (Z.eqb_spec code 429) as [-> | Hne].
      * split; [intros _ | reflexivity]. right. exists 429, message. split; [reflexivity | lia].
      * split; [discriminate |].
        intros [[=] | (code' & message' & [= <- <-] & Hc)].
        apply andb_false_iff in E5 as [?%Z.leb_gt | ?%Z.ltb_ge]; lia.
  - split; [discriminate | intros [[=] | (? & ? & [=] & _)]].
Qed.

Section Run.
Context `{GoNet} `{GoCrypto} (server : nat -> http.Request -> http.RoundTrip).
Implicit Types (c : Client) (tr : list Event) (n : Z).

(** A response that is not 200 is retried by its status alone. *)
Lemma isRetryable_handleHTTPError (StatusCode : Z) (body : string) :
  isRetryable (handleHTTPError StatusCode body)
  = (500 <=? StatusCode) && (StatusCode <? 600) || (StatusCode =? 429).
Proof.
  unfold handleHTTPError.
  destruct (json_Unmarshal_ErrorResponse body) as [msg | errResp].
  - unfold isRetryable; simpl.
    destruct ((500 <=? StatusCode) && (StatusCode <? 600)); [reflexivity |].
    now destruct (StatusCode =? 429).
  - assert (Hnet : Is (NewHTTPError StatusCode (ErrorResponse.Error errResp)
                         (Some (if StatusCode =? http.StatusBadRequest then ErrBadRequest
                                else if StatusCode =? http.StatusUnauthorized then ErrUnauthorized
                                else if StatusCode =? http.StatusNotFound then ErrNotFound
                                else if StatusCode =? http.StatusInternalServerError
                                     then ErrInternalServer
                                else Plain ("HTTP error " +:+ Itoa StatusCode))))
                     ErrNetworkError = false).
    { simpl. destruct (StatusCode =? http.StatusBadRequest); [reflexivity |].
      destruct (StatusCode =? http.StatusUnauthorized); [reflexivity |].
      destruct (StatusCode =? http.StatusNotFound); [reflexivity |].
      destruct (StatusCode =? http.StatusInternalServerError); reflexivity. }
    unfold isRetryable. rewrite Hnet. simpl.
    destruct ((500 <=? StatusCode) && (StatusCode <? 600)); [reflexivity |].
    now destruct (StatusCode =? 429).
Qed.

(** *** The steps *)

(** [RequestChallenge] sends at most one request, the challenge
    request; a challenge it returns was read from a 200 response. *)
Lemma RequestChallenge_run c tr :
  (exists e, RequestChallenge server c tr = (Err e, tr))
  \/ exists resp,
       snd (RequestChallenge server c tr) = (tr ++ [EvRoundTrip (challenge_request c) resp])%list
       /\ resp = server (requests_sent tr) (challenge_request c)
       /\ forall challengeResp,
            fst (RequestChallenge server c tr) = Ok challengeResp ->
            exists body, resp = http.DoResponse http.StatusOK (http.Bytes body)
                         /\ json_Unmarshal_ChallengeResponse body = inr challengeResp.
Proof.
  unfold RequestChallenge.
  destruct (http_NewRequest_error "POST" (baseURL c +:+ "/challenge")) as [err |];
    [left; eexists; reflexivity | right].
  unfold bind, Do, ret. fold (challenge_request c).
  exists (server (requests_sent tr) (challenge_request c)).
  split; [reflexivity |]. split; [reflexivity |]. simpl.
  destruct (server (requests_sent tr) (challenge_request c))
    as [msg | StatusCode [msg | body]]; try discriminate.
  destruct (Z.eqb_spec StatusCode http.StatusOK) as [-> | Hne]; simpl; [| discriminate].
  destruct (json_Unmarshal_ChallengeResponse body) as [msg | cr] eqn:Ej; [discriminate |].
  intros cr' [= <-]. now exists body.
Qed.

(** [VerifySignature] sends at most one request, the verify request
    for the challenge and the signature it was given. *)
Lemma VerifySignature_run c tr (challenge signature : string) :
  (exists e, VerifySignature server c challenge signature tr = (Err e, tr))
  \/ snd (VerifySignature server c challenge signature tr)
     = (tr ++ [EvRoundTrip (verify_request c challenge signature)
                 (server (requests_sent tr) (verify_request c challenge signature))])%list.
Proof.
  unfold VerifySignature.
  destruct (http_NewRequest_error "POST" (baseURL c +:+ "/verify")) as [err |];
    [left; eexists; reflexivity | right].
  reflexivity.
Qed.

(** One attempt appends the events of one attempt. *)
Lemma attempt_run c tr :
  exists evs, snd (attempt server c tr) = (tr ++ evs)%list /\ attempt_events c evs.
Proof.
  unfold attempt, bind.
  destruct (RequestChallenge_run c tr) as [[e Heq] | (resp & Htr & _ & Hok)].
  - rewrite Heq. exists []. split; [simpl; now rewrite List.app_nil_r | constructor].
  - destruct (RequestChallenge server c tr) as [[cr | e] tr1] eqn:Hrc; simpl in *; subst tr1.
    2: { exists [EvRoundTrip (challenge_request c) resp]. split; [reflexivity | constructor]. }
    destruct (Hok cr eq_refl) as (body & -> & Hbody).
    destruct (signChallenge c (ChallengeResponse.Challenge cr)) as [signature | e].
    2: { eexists. split; [reflexivity | constructor]. }
    set (tr1 := (tr ++ _)%list).
    destruct (VerifySignature_run c tr1 (ChallengeResponse.Challenge cr) signature)
      as [[e Heq] | Htr].
    + rewrite Heq. simpl. eexists. split; [reflexivity | constructor].
    + destruct (VerifySignature server c _ signature tr1) as [v tr2]; simpl in *; subst tr2.
      subst tr1. rewrite <- List.app_assoc. simpl.
      eexists. split; [reflexivity |]. now apply attempt_challenge_verify.
Qed.

(** *** The retry law *)

(** [authenticateWithRetry] as the source writes it: one attempt; a
    failure of the challenge step or of the verify step that is
    retryable, with [retriesLeft > 0], is followed by a sleep of the
    backoff and by [authenticateWithRetry(retriesLeft - 1)], which starts
    with [RequestChallenge] again; any other failure is returned. *)
Lemma authenticateWithRetry_eq c n tr :
  authenticateWithRetry server c n tr =
  let (a, tr1) := attempt server c tr in
  match a with
  | inl verifyResp => (Ok verifyResp, tr1)
  | inr (s, err) =>
      if retried_step s && (0 <? n) && isRetryable err
      then authenticateWithRetry server c (n - 1) (tr1 ++ [EvSleep (retryBackoff c)])%list
      else (Err (Errorf (step_prefix s) err ""), tr1)
  end.
Proof.
  unfold authenticateWithRetry, attempt.
  destruct (Z.to_nat n) as [| fuel] eqn:Hfuel; simpl; unfold bind.
  - assert (Hn : (0 <? n) = false) by (apply Z.ltb_ge; lia).
    rewrite Hn. simpl.
    destruct (RequestChallenge server c tr) as [[cr | e] tr1]; [| reflexivity].
    destruct (signChallenge c _) as [signature | e]; [| reflexivity].
    destruct (VerifySignature server c _ signature tr1) as [[v | e] tr2]; reflexivity.
  - assert (Hn : (0 <? n) = true) by (apply Z.ltb_lt; lia).
    assert (Hf : Z.to_nat (n - 1) = fuel) by lia.
    rewrite Hn, Hf. simpl.
    destruct (RequestChallenge server c tr) as [[cr | e] tr1].
    2: { simpl. destruct (isRetryable e); reflexivity. }
    destruct (signChallenge c _) as [signature | e]; [| reflexivity].
    destruct (VerifySignature server c _ signature tr1) as [[v | e] tr2]; [reflexivity |].
    simpl. destruct (isRetryable e); reflexivity.
Qed.

(** A run appends attempts separated by sleeps of the backoff, with at
    most [retriesLeft] sleeps. *)
Lemma authenticateWithRetry_events c n tr :
  exists evs,
    snd (authenticateWithRetry server c n tr) = (tr ++ evs)%list
    /\ run_events c (Z.to_nat n) evs.
Proof.
  remember (Z.to_nat n) as budget eqn:Hb.
  revert n tr Hb; induction budget as [| budget IH]; intros n tr Hb;
    rewrite authenticateWithRetry_eq;
    destruct (attempt_run c tr) as (evs & Htr & Hevs);
    destruct (attempt server c tr) as [[v | [s e]] tr1]; simpl in Htr; subst tr1;
    try (exists evs; split; [reflexivity | now apply run_last]).
  - assert (Hn : (0 <? n) = false) by (apply Z.ltb_ge; lia).
    rewrite Hn, andb_false_r. simpl.
    exists evs; split; [reflexivity | now apply run_last].
  - destruct (retried_step s && (0 <? n) && isRetryable e);
      [| exists evs; split; [reflexivity | now apply run_last]].
    destruct (IH (n - 1) ((tr ++ evs) ++ [EvSleep (retryBackoff c)])%list ltac:(lia))
      as (rest & Hrest & Hrun).
    exists (evs ++ EvSleep (retryBackoff c) :: rest)%list. split.
    + rewrite Hrest. rewrite <- !List.app_assoc. reflexivity.
    + now apply run_retry.
Qed.

Lemma attempt_events_no_sleep c (evs : list Event) :
  attempt_events c evs -> List.filter is_sleep evs = [].
Proof. now intros []. Qed.

(** The sleeps of a run are at most the budget, and each lasts the
    configured backoff. *)
Lemma run_events_sleeps c (budget : nat) (evs : list Event) :
  run_events c budget evs ->
  List.filter is_sleep evs = repeat (EvSleep (retryBackoff c)) (length (List.filter is_sleep evs))
  /\ (length (List.filter is_sleep evs) <= budget)%nat.
Proof.
  induction 1 as [budget evs Ha | budget evs rest Ha Hrun [IH1 IH2]].
  - rewrite (attempt_events_no_sleep _ _ Ha). simpl. split; [reflexivity | lia].
  - rewrite List.filter_app, (attempt_events_no_sleep _ _ Ha). simpl.
    split; [now f_equal | lia].
Qed.

(** *** Attempts, by what the verifier answers *)

(** The challenge request is answered with a status other than 200. *)
Lemma attempt_challenge_refused c tr (StatusCode : Z) (body : string) :
  requests_can_be_built c ->
  server (requests_sent tr) (challenge_request c)
  = http.DoResponse StatusCode (http.Bytes body) ->
  StatusCode <> http.StatusOK ->
  attempt server c tr
  = (inr (ChallengeStep, handleHTTPError StatusCode body),
     (tr ++ [EvRoundTrip (challenge_request c)
               (http.DoResponse StatusCode (http.Bytes body))])%list).
Proof.
  intros [Hc _] Hs Hne. unfold attempt, bind, RequestChallenge.
  rewrite Hc. unfold bind, Do, ret. fold (challenge_request c). rewrite Hs.
  apply Z.eqb_neq in Hne. now rewrite Hne.
Qed.

(** The challenge request is answered with a challenge, which the
    client signs: the attempt goes on to the verify request, and ends
    with what [VerifySignature] makes of the answer. *)
Lemma attempt_challenge_served c tr challengeResp (signature : string) :
  requests_can_be_built c ->
  challenge_served server c tr challengeResp signature ->
  attempt server c tr
  = let (v, tr2) :=
      VerifySignature server c (ChallengeResponse.Challenge challengeResp) signature
        (tr ++ [EvRoundTrip (challenge_request c)
                  (server (requests_sent tr) (challenge_request c))])%list in
    (match v with
     | Err err => inr (VerifyStep, err)
     | Ok verifyResp => inl verifyResp
     end, tr2).
Proof.
  intros [Hc _] (body & Hs & Hj & Hsig). unfold attempt, bind, RequestChallenge.
  rewrite Hc. unfold bind, Do, ret. fold (challenge_request c). rewrite Hs.
  simpl. now rewrite Hj, Hsig.
Qed.

(** [VerifySignature] on a 200 response that decodes. *)
Lemma VerifySignature_200 c tr (challenge signature body : string) verifyResp :
  requests_can_be_built c ->
  server (requests_sent tr) (verify_request c challenge signature)
  = http.DoResponse http.StatusOK (http.Bytes body) ->
  json_Unmarshal_VerifyResponse body = inr verifyResp ->
  VerifySignature server c challenge signature tr
  = (if VerifyResponse.Success verifyResp
     then Ok (session_of c verifyResp)
     else Err (Errorf "" ErrUnauthorized (": " +:+ VerifyResponse.Error verifyResp)),
     (tr ++ [EvRoundTrip (verify_request c challenge signature)
               (http.DoResponse http.StatusOK (http.Bytes body))])%list).
Proof.
  intros [_ Hv] Hs Hj. unfold VerifySignature.
  rewrite Hv. unfold bind, Do, ret.
  fold (sent_VerifyRequest c challenge signature).
  fold (verify_request c challenge signature). rewrite Hs. simpl. rewrite Hj.
  unfold session_of.
  destruct (VerifyResponse.Success verifyResp); simpl; [| reflexivity].
  now destruct (0 <? length (secretKeys c))%nat.
Qed.

(** [VerifySignature] on a response whose status is not 200. *)
Lemma VerifySignature_refused c tr (challenge signature body : string) (StatusCode : Z) :
  requests_can_be_built c ->
  server (requests_sent tr) (verify_request c challenge signature)
  = http.DoResponse StatusCode (http.Bytes body) ->
  StatusCode <> http.StatusOK ->
  VerifySignature server c challenge signature tr
  = (Err (handleHTTPError StatusCode body),
     (tr ++ [EvRoundTrip (verify_request c challenge signature)
               (http.DoResponse StatusCode (http.Bytes body))])%list).
Proof.
  intros [_ Hv] Hs Hne. unfold VerifySignature.
  rewrite Hv. unfold bind, Do, ret.
  fold (sent_VerifyRequest c challenge signature).
  fold (verify_request c challenge signature). rewrite Hs.
  apply Z.eqb_neq in Hne. now rewrite Hne.
Qed.

(** The error of a [success: false] response is [ErrUnauthorized] with
    the server's text, and is not retryable. *)
Lemma unauthorized_not_retryable (text : string) :
  Is (Errorf "" ErrUnauthorized (": " +:+ text)) ErrUnauthorized = true
  /\ isRetryable (Errorf "" ErrUnauthorized (": " +:+ text)) = false.
Proof. split; reflexivity. Qed.

(** *** The example of the specification *)

Lemma unavailable_twice_two_retries c :
  requests_can_be_built c -> unavailable_twice server c -> then_ok server c ->
  exists session tr',
    authenticateWithRetry server c 2 [] = (Ok session, tr')
    /\ length (List.filter (is_request_to (baseURL c +:+ "/challenge")) tr') = 3%nat
    /\ requests_sent tr' = 4%nat.
Proof.
  intros Hb Hun (bodyc & cr & signature & bodyv & vr & Hs2 & Hj2 & Hsig & Hs3 & Hj3 & Hok).
  destruct (Hun (challenge_request c)) as (body0 & body1 & Hs0 & Hs1).
  rewrite authenticateWithRetry_eq.
  rewrite (attempt_challenge_refused c [] 503 body0 Hb Hs0 ltac:(discriminate)).
  rewrite isRetryable_handleHTTPError. simpl.
  rewrite authenticateWithRetry_eq.
  match goal with
  | |- context [attempt server c ?t] =>
      rewrite (attempt_challenge_refused c t 503 body1 Hb Hs1 ltac:(discriminate))
  end.
  rewrite isRetryable_handleHTTPError. simpl.
  rewrite authenticateWithRetry_eq.
  match goal with
  | |- context [attempt server c ?t] =>
      rewrite (attempt_challenge_served c t cr signature Hb);
      [| exists bodyc; split; [exact Hs2 | split; [exact Hj2 | exact Hsig]]]
  end.
  match goal with
  | |- context [VerifySignature server c ?ch ?sg ?t] =>
      rewrite (VerifySignature_200 c t ch sg bodyv vr Hb Hs3 Hj3)
  end.
  rewrite Hok. eexists; eexists. split; [reflexivity |].
  unfold requests_sent. simpl. rewrite !String.eqb_refl.
  destruct (String.eqb_spec (baseURL c +:+ "/verify") (baseURL c +:+ "/challenge")) as [E | _];
    [| split; reflexivity].
  exfalso. induction (baseURL c); simpl in E; [discriminate | injection E; auto].
Qed.

Lemma unavailable_twice_one_retry c :
  requests_can_be_built c -> unavailable_twice server c ->
  exists err tr',
    authenticateWithRetry server c 1 [] = (Err err, tr')
    /\ requests_sent tr' = 2%nat.
Proof.
  intros Hb Hun.
  destruct (Hun (challenge_request c)) as (body0 & body1 & Hs0 & Hs1).
  rewrite authenticateWithRetry_eq.
  rewrite (attempt_challenge_refused c [] 503 body0 Hb Hs0 ltac:(discriminate)).
  rewrite isRetryable_handleHTTPError. simpl.
  rewrite authenticateWithRetry_eq.
  match goal with
  | |- context [attempt server c ?t] =>
      rewrite (attempt_challenge_refused c t 503 body1 Hb Hs1 ltac:(discriminate))
  end.
  simpl. eexists; eexists. split; reflexivity.
Qed.

(** *** [Authenticate] under the configured count *)

(** [Authenticate] runs [authenticateWithRetry] with the [maxRetries]
    that [SetRetry] stored. *)
Lemma Authenticate_SetRetry c n (backoff : Z) tr :
  Authenticate server (SetRetry c n backoff) tr
  = authenticateWithRetry server (SetRetry c n backoff) n tr.
Proof. reflexivity. Qed.

(** A run reads its count from its argument, never from the field
    [maxRetries] of the client. *)
Lemma run_ignores_maxRetries c (m m' backoff n : Z) tr :
  authenticateWithRetry server (SetRetry c m backoff) n tr
  = authenticateWithRetry server (SetRetry c m' backoff) n tr.
Proof.
  remember (Z.to_nat n) as budget eqn:Hb.
  revert n tr Hb; induction budget as [| budget IH]; intros n tr Hb;
    rewrite !authenticateWithRetry_eq;
    change (attempt server (SetRetry c m backoff) tr)
      with (attempt server (SetRetry c m' backoff) tr);
    destruct (attempt server (SetRetry c m' backoff) tr) as [[v | [s e]] tr1];
    try reflexivity.
  - assert (H0n : (0 <? n) = false) by (apply Z.ltb_ge; lia).
    rewrite H0n, andb_false_r. reflexivity.
  - destruct (retried_step s && (0 <? n) && isRetryable e); [| reflexivity].
    cbn [retryBackoff SetRetry]. apply IH. lia.
Qed.

(** [Authenticate] as the source writes it, on a client configured by
    [SetRetry]. *)
Lemma Authenticate_eq c n (backoff : Z) tr :
  Authenticate server (SetRetry c n backoff) tr
  = (let (a, tr1) := attempt server c tr in
     match a with
     | inl verifyResp => (Ok verifyResp, tr1)
     | inr (s, err) =>
         if retried_step s && (0 <? n) && isRetryable err
         then Authenticate server (SetRetry c (n - 1) backoff)
                (tr1 ++ [EvSleep backoff])%list
         else (Err (Errorf (step_prefix s) err ""), tr1)
     end).
Proof.
  rewrite Authenticate_SetRetry, authenticateWithRetry_eq.
  change (attempt server (SetRetry c n backoff) tr) with (attempt server c tr).
  destruct (attempt server c tr) as [[v | [s e]] tr1]; [reflexivity |].
  destruct (retried_step s && (0 <? n) && isRetryable e); [| reflexivity].
  rewrite Authenticate_SetRetry. cbn [retryBackoff SetRetry].
  apply run_ignores_maxRetries.
Qed.

(** Every client is as [SetRetry] with its own count and backoff
    leaves it. *)
Lemma SetRetry_own c : SetRetry c (maxRetries c) (retryBackoff c) = c.
Proof. now destruct c. Qed.

(** C1. Whatever the verifier answers, whatever the retry count [n] and
    the backoff that [SetRetry] configured (and every client is so
    configured, by its own count and backoff):
    (1) [isRetryable] holds exactly of [ErrNetworkError] and of an
    [HTTPError] of status 500 to 599 or 429;
    (2) [Authenticate] is one attempt, followed, only when the challenge
    step or the verify step failed with a retryable error and the count
    is positive, by a sleep of the configured backoff and
    [Authenticate] under the count lowered by one, which starts at
    [RequestChallenge] again;
    (3) the events of [Authenticate] are attempts separated by such
    sleeps, at most as many sleeps as the count, and a verify request
    always carries the challenge that the request right before it
    obtained;
    (4) against a verifier that answers 503 twice and then 200,
    [Authenticate] under a count of 2 gives a session after exactly 3
    challenge requests, and under a count of 1 gives an error after 2
    requests in all. *)
Theorem authenticate_retry_policy c n (backoff : Z) tr :
  (forall err, isRetryable err = true <-> retryable_class err)
  /\ Authenticate server c tr
     = Authenticate server (SetRetry c (maxRetries c) (retryBackoff c)) tr
  /\ Authenticate server (SetRetry c n backoff) tr
     = (let (a, tr1) := attempt server c tr in
        match a with
        | inl verifyResp => (Ok verifyResp, tr1)
        | inr (s, err) =>
            if retried_step s && (0 <? n) && isRetryable err
            then Authenticate server (SetRetry c (n - 1) backoff)
                   (tr1 ++ [EvSleep backoff])%list
            else (Err (Errorf (step_prefix s) err ""), tr1)
        end)
  /\ (exists evs,
        snd (Authenticate server (SetRetry c n backoff) tr) = (tr ++ evs)%list
        /\ run_events (SetRetry c n backoff) (Z.to_nat n) evs
        /\ List.filter is_sleep evs
           = repeat (EvSleep backoff) (length (List.filter is_sleep evs))
        /\ (length (List.filter is_sleep evs) <= Z.to_nat n)%nat)
  /\ (requests_can_be_built c -> unavailable_twice server c ->
      (then_ok server c ->
       exists session tr',
         Authenticate server (SetRetry c 2 backoff) [] = (Ok session, tr')
         /\ length (List.filter (is_request_to (baseURL c +:+ "/challenge")) tr') = 3%nat)
      /\ (exists err tr',
            Authenticate server (SetRetry c 1 backoff) [] = (Err err, tr')
            /\ requests_sent tr' = 2%nat)).
Proof.
  split; [exact isRetryable_spec |].
  split; [now rewrite SetRetry_own |].
  split; [apply Authenticate_eq |].
  split.
  - rewrite Authenticate_SetRetry.
    destruct (authenticateWithRetry_events (SetRetry c n backoff) n tr)
      as (evs & Htr & Hrun).
    exists evs. split; [exact Htr |]. split; [exact Hrun |].
    exact (run_events_sleeps (SetRetry c n backoff) _ _ Hrun).
  - intros Hb Hun. split.
    + intros Hok. rewrite Authenticate_SetRetry.
      destruct (unavailable_twice_two_retries (SetRetry c 2 backoff) Hb Hun Hok)
        as (s & tr' & Heq & Hc & _).
      now exists s, tr'.
    + rewrite Authenticate_SetRetry.
      exact (unavailable_twice_one_retry (SetRetry c 1 backoff) Hb Hun).
Qed.

(** A [success: false] answer to the verify request of a run, under
    status 200 or 401, ends the run under any count. *)
Lemma success_false_ends_run c n tr challengeResp (signature : string) :
  requests_can_be_built c ->
  challenge_served server c tr challengeResp signature ->
  let vreq := verify_request c (ChallengeResponse.Challenge challengeResp) signature in
  let sent :=
    (tr ++ [EvRoundTrip (challenge_request c)
              (server (requests_sent tr) (challenge_request c))])%list in
  (forall body verifyResp,
     server (S (requests_sent tr)) vreq = http.DoResponse http.StatusOK (http.Bytes body) ->
     json_Unmarshal_VerifyResponse body = inr verifyResp ->
     VerifyResponse.Success verifyResp = false ->
     let err := Errorf "" ErrUnauthorized (": " +:+ VerifyResponse.Error verifyResp) in
     authenticateWithRetry server c n tr
     = (Err (Errorf "failed to verify signature: " err ""),
        (sent ++ [EvRoundTrip vreq (http.DoResponse http.StatusOK (http.Bytes body))])%list))
  /\ (forall body errResp,
        server (S (requests_sent tr)) vreq
        = http.DoResponse http.StatusUnauthorized (http.Bytes body) ->
        json_Unmarshal_ErrorResponse body = inr errResp ->
        let err :=
          HTTPError http.StatusUnauthorized (ErrorResponse.Error errResp)
            (Some ErrUnauthorized) in
        authenticateWithRetry server c n tr
        = (Err (Errorf "failed to verify signature: " err ""),
           (sent ++ [EvRoundTrip vreq
                       (http.DoResponse http.StatusUnauthorized (http.Bytes body))])%list)).
Proof.
  intros Hb Hc vreq sent. split.
  - intros body verifyResp Hs Hj Hfalse err.
    rewrite authenticateWithRetry_eq.
    rewrite (attempt_challenge_served c tr challengeResp signature Hb Hc).
    fold sent. fold vreq.
    rewrite (VerifySignature_200 c sent _ signature body verifyResp Hb); [| | exact Hj].
    2: { unfold sent. rewrite requests_sent_round_trip. exact Hs. }
    rewrite Hfalse. cbn [retried_step isRetryable]. fold err.
    replace (isRetryable err) with false by reflexivity.
    now rewrite andb_false_r.
  - intros body errResp Hs Hj err.
    rewrite authenticateWithRetry_eq.
    rewrite (attempt_challenge_served c tr challengeResp signature Hb Hc).
    fold sent. fold vreq.
    rewrite (VerifySignature_refused c sent _ signature body http.StatusUnauthorized Hb);
      [| | discriminate].
    2: { unfold sent. rewrite requests_sent_round_trip. exact Hs. }
    unfold handleHTTPError. rewrite Hj. cbn [Z.eqb http.StatusUnauthorized
      http.StatusBadRequest Pos.eqb NewHTTPError]. fold err.
    replace (isRetryable err) with false by reflexivity.
    now rewrite andb_false_r.
Qed.

(** C4 as amended. Whatever the retry count and the backoff that
    [SetRetry] configured: when the challenge step and the signing step
    of the first attempt succeed and the verify request is answered with
    a body whose [success] is false, under status 200 (the body is read
    as a verify response) or under status 401 (the body is read as an
    error response, as the repository's test server sends it),
    [Authenticate] ends there, with an error that is [ErrUnauthorized]
    and carries the server's text; nothing is sent and no sleep is
    taken after that answer, and the error is not retryable. *)
Theorem success_false_fails_at_once c n (backoff : Z) tr challengeResp
    (signature : string) :
  requests_can_be_built c ->
  challenge_served server c tr challengeResp signature ->
  let vreq := verify_request c (ChallengeResponse.Challenge challengeResp) signature in
  let sent :=
    (tr ++ [EvRoundTrip (challenge_request c)
              (server (requests_sent tr) (challenge_request c))])%list in
  (forall body verifyResp,
     server (S (requests_sent tr)) vreq = http.DoResponse http.StatusOK (http.Bytes body) ->
     json_Unmarshal_VerifyResponse body = inr verifyResp ->
     VerifyResponse.Success verifyResp = false ->
     let err := Errorf "" ErrUnauthorized (": " +:+ VerifyResponse.Error verifyResp) in
     Authenticate server (SetRetry c n backoff) tr
     = (Err (Errorf "failed to verify signature: " err ""),
        (sent ++ [EvRoundTrip vreq (http.DoResponse http.StatusOK (http.Bytes body))])%list)
     /\ Is (Errorf "failed to verify signature: " err "") ErrUnauthorized = true
     /\ isRetryable err = false)
  /\ (forall body errResp,
        server (S (requests_sent tr)) vreq
        = http.DoResponse http.StatusUnauthorized (http.Bytes body) ->
        json_Unmarshal_ErrorResponse body = inr errResp ->
        ErrorResponse.Success errResp = false ->
        let err :=
          HTTPError http.StatusUnauthorized (ErrorResponse.Error errResp)
            (Some ErrUnauthorized) in
        Authenticate server (SetRetry c n backoff) tr
        = (Err (Errorf "failed to verify signature: " err ""),
           (sent ++ [EvRoundTrip vreq
                       (http.DoResponse http.StatusUnauthorized (http.Bytes body))])%list)
        /\ Is (Errorf "failed to verify signature: " err "") ErrUnauthorized = true
        /\ isRetryable err = false).
Proof.
  intros Hb Hc vreq sent.
  destruct (success_false_ends_run (SetRetry c n backoff) n tr challengeResp signature
              Hb Hc) as [H200 H401].
  split.
  - intros body verifyResp Hs Hj Hfalse err. split; [| split; reflexivity].
    rewrite Authenticate_SetRetry. exact (H200 body verifyResp Hs Hj Hfalse).
  - intros body errResp Hs Hj _ err. split; [| split; reflexivity].
    rewrite Authenticate_SetRetry. exact (H401 body errResp Hs Hj).
Qed.

End Run.

(** *** The doubles of the examples *)

Lemma mock_requests_can_be_built (c : Client) : requests_can_be_built (H := mock.net) c.
Proof. split; reflexivity. Qed.

Lemma mock_unavailable_twice (c : Client) : unavailable_twice mock.unavailable_twice c.
Proof. intros req. exists "error:unavailable", "error:unavailable". split; reflexivity. Qed.

Lemma mock_then_ok :
  then_ok (H := mock.net) (H0 := mock.small_rsa) mock.unavailable_twice (mock.client 2 []).
Proof.
  exists "challenge:nonce", (ChallengeResponse.mk "nonce" 1893456000), "AZw=", "granted",
    (VerifyResponse.mk true "jwt" {[ "API_KEY" := "a"; "OTHER" := "b" ]} [] "").
  repeat split.
Qed.

Lemma mock_challenge_served (server : nat -> http.Request -> http.RoundTrip)
    (retries : Z) (keys : list string) :
  server 0%nat (challenge_request (mock.client retries keys))
  = http.DoResponse 200 (http.Bytes "challenge:nonce") ->
  challenge_served (H := mock.net) (H0 := mock.small_rsa) server
    (mock.client retries keys) [] (ChallengeResponse.mk "nonce" 1893456000) "AZw=".
Proof. intros Hs. exists "challenge:nonce". repeat split. exact Hs. Qed.

(** Witness of C1: the verifier double that answers 503 twice. *)
Lemma authenticate_retry_policy_witness :
  (exists session tr',
     Authenticate (H := mock.net) (H0 := mock.small_rsa) mock.unavailable_twice
       (SetRetry (mock.client 0 []) 2 (2 * time.Second)) [] = (Ok session, tr')
     /\ length (List.filter (is_request_to "https://verifier.example/challenge") tr')
        = 3%nat)
  /\ (exists err tr',
        Authenticate (H := mock.net) (H0 := mock.small_rsa) mock.unavailable_twice
          (SetRetry (mock.client 0 []) 1 (2 * time.Second)) [] = (Err err, tr')
        /\ requests_sent tr' = 2%nat).
Proof.
  destruct (authenticate_retry_policy (H := mock.net) (H0 := mock.small_rsa)
              mock.unavailable_twice (mock.client 0 []) 2 (2 * time.Second) [])
    as (_ & _ & _ & _ & Hexample).
  destruct (Hexample (mock_requests_can_be_built _) (mock_unavailable_twice _))
    as [Htwo Hone].
  split; [exact (Htwo mock_then_ok) | exact Hone].
Defined.

(** Witness of C4 as amended: the verifier double that answers the
    verify request with 200 and [success: false], under a retry count
    of 3. *)
Lemma success_false_fails_at_once_witness :
  fst (Authenticate (H := mock.net) (H0 := mock.small_rsa) mock.denying
         (SetRetry (mock.client 0 []) 3 (2 * time.Second)) [])
  = Err (Errorf "failed to verify signature: "
           (Errorf "" ErrUnauthorized ": Invalid signature") "")
  /\ List.filter is_sleep
       (snd (Authenticate (H := mock.net) (H0 := mock.small_rsa) mock.denying
               (SetRetry (mock.client 0 []) 3 (2 * time.Second)) [])) = [].
Proof.
  destruct (success_false_fails_at_once (H := mock.net) (H0 := mock.small_rsa)
              mock.denying (mock.client 0 []) 3 (2 * time.Second) []
              (ChallengeResponse.mk "nonce" 1893456000) "AZw="
              (mock_requests_can_be_built _)
              (mock_challenge_served mock.denying 0 [] eq_refl))
    as [H200 _].
  destruct (H200 "denied:Invalid signature"
              (VerifyResponse.mk false "" ∅ [] "Invalid signature")
              eq_refl eq_refl eq_refl) as [Heq _].
  rewrite Heq. split; reflexivity.
Defined.

(** Counterexample to C4 as stated: the verify endpoint answers with a
    body whose [success] is false, under status 503.  [Authenticate]
    under a retry count of 1 does not fail at once: it sleeps the
    backoff, uses its one retry, sends four requests in all, and the
    error it returns at the end is not [ErrUnauthorized]. *)
Lemma success_false_under_503_uses_a_retry :
  mock.denying_unavailable 1%nat (verify_request (mock.client 0 []) "nonce" "AZw=")
  = http.DoResponse 503 (http.Bytes "error:Invalid signature")
  /\ json_Unmarshal_ErrorResponse (GoNet := mock.net) "error:Invalid signature"
     = inr (ErrorResponse.mk "Invalid signature" false)
  /\ List.filter is_sleep
       (snd (Authenticate (H := mock.net) (H0 := mock.small_rsa) mock.denying_unavailable
               (SetRetry (mock.client 0 []) 1 (2 * time.Second)) []))
     = [EvSleep (2 * time.Second)]
  /\ requests_sent
       (snd (Authenticate (H := mock.net) (H0 := mock.small_rsa) mock.denying_unavailable
               (SetRetry (mock.client 0 []) 1 (2 * time.Second)) [])) = 4%nat
  /\ exists err,
       fst (Authenticate (H := mock.net) (H0 := mock.small_rsa) mock.denying_unavailable
              (SetRetry (mock.client 0 []) 1 (2 * time.Second)) []) = Err err
       /\ As_HTTPError err = Some (503, "Invalid signature")
       /\ isRetryable err = true
       /\ Is err ErrUnauthorized = false.
Proof.
  split; [reflexivity |]. split; [reflexivity |].
  split; [vm_compute; reflexivity |]. split; [vm_compute; reflexivity |].
  eexists. split; [vm_compute; reflexivity |]. repeat split.
Qed.

(** With status 503 the same body is an [HTTPError] of a retryable
    status: the run sleeps and starts again. *)
Example success_false_under_503_is_retried :
  List.filter is_sleep
    (snd (authenticateWithRetry (H := mock.net) (H0 := mock.small_rsa)
            mock.denying_unavailable (mock.client 1 []) 1 []))
  = [EvSleep (2 * time.Second)].
Proof. reflexivity. Qed.

End run_facts.

(** ** The client: the verify request and the secret filter *)
Module verify_facts.
Import strings errors authclient run_facts.

(** What the loop over the configured keys leaves in the map it
    fills. *)
Lemma filter_loop_lookup (keys : list string) (data acc : gmap string string) (k : string) :
  filter_loop keys data acc !! k
  = if decide (k ∈ keys)
    then match data !! k with
         | Some v => Some v
         | None => acc !! k
         end
    else acc !! k.
Proof.
  revert acc; induction keys as [| key rest IH]; intros acc; cbn [filter_loop].
  - destruct (decide (k ∈ [])) as [Hin | _]; [| reflexivity].
    now apply not_elem_of_nil in Hin.
  - rewrite IH.
    assert (Hacc : k <> key ->
                   match data !! key with
                   | Some value => <[key:=value]> acc
                   | None => acc
                   end !! k = acc !! k).
    { intros Hne. destruct (data !! key); [now rewrite lookup_insert_ne | reflexivity]. }
    destruct (decide (k ∈ rest)) as [Hin | Hnin];
      destruct (decide (k ∈ key :: rest)) as [Hin' | Hnin'].
    + destruct (data !! k) as [v |] eqn:Hv; [reflexivity |].
      destruct (decide (k = key)) as [-> | Hne]; [now rewrite Hv | now apply Hacc].
    + exfalso. apply Hnin'. now apply list_elem_of_further.
    + apply elem_of_cons in Hin' as [-> | Hin']; [| contradiction].
      destruct (data !! key) as [v |] eqn:Hv; [apply lookup_insert_eq | reflexivity].
    + apply Hacc. intros ->. apply Hnin'. apply list_elem_of_here.
Qed.

(** The filtered map is the server's map restricted to the configured
    keys. *)
Lemma filter_loop_restrict (keys : list string) (data : gmap string string) :
  filter_loop keys data ∅ = filter (fun kv => kv.1 ∈ keys) data.
Proof.
  apply map_eq; intros k. rewrite filter_loop_lookup, lookup_empty.
  rewrite map_lookup_filter.
  destruct (data !! k) as [v |] eqn:Hv; simpl.
  - destruct (decide (k ∈ keys)) as [Hin | Hnin].
    + now rewrite option_guard_True.
    + now rewrite option_guard_False.
  - now destruct (decide (k ∈ keys)).
Qed.

Example filter_API_KEY :
  filter_loop ["API_KEY"] {[ "API_KEY" := "a"; "OTHER" := "b" ]} ∅
  = ({[ "API_KEY" := "a" ]} : gmap string string).
Proof. reflexivity. Qed.

Section Verify.
Context `{GoNet} `{GoCrypto} (server : nat -> http.Request -> http.RoundTrip).

(** C6. For a successful verify response: with a non-empty key filter
    the session's secret map is the server's map restricted to the
    filter keys, so that a filter key the server did not send is simply
    not there and a key outside the filter is removed; with an empty
    filter the session is the server's response as it is.  One key
    [API_KEY] against [API_KEY: a, OTHER: b] leaves [API_KEY: a]. *)
Theorem secret_filter c (tr : list Event) (challenge signature body : string) verifyResp :
  requests_can_be_built c ->
  server (requests_sent tr) (verify_request c challenge signature)
  = http.DoResponse http.StatusOK (http.Bytes body) ->
  json_Unmarshal_VerifyResponse body = inr verifyResp ->
  VerifyResponse.Success verifyResp = true ->
  exists session,
    fst (VerifySignature server c challenge signature tr) = Ok session
    /\ (secretKeys c <> [] ->
        VerifyResponse.SecretData session
        = filter (fun kv => kv.1 ∈ secretKeys c) (VerifyResponse.SecretData verifyResp)
        /\ (forall k, k ∈ secretKeys c ->
              VerifyResponse.SecretData session !! k
              = VerifyResponse.SecretData verifyResp !! k)
        /\ (forall k, k ∉ secretKeys c -> VerifyResponse.SecretData session !! k = None))
    /\ (secretKeys c = [] -> session = verifyResp)
    /\ VerifyResponse.Token session = VerifyResponse.Token verifyResp
    /\ VerifyResponse.RepoList session = VerifyResponse.RepoList verifyResp
    /\ (secretKeys c = ["API_KEY"] ->
        VerifyResponse.SecretData verifyResp = {[ "API_KEY" := "a"; "OTHER" := "b" ]} ->
        VerifyResponse.SecretData session = {[ "API_KEY" := "a" ]}).
Proof.
  intros Hb Hs Hj Hok.
  rewrite (VerifySignature_200 server c tr challenge signature body verifyResp Hb Hs Hj).
  rewrite Hok. simpl. exists (session_of c verifyResp). split; [reflexivity |].
  unfold session_of. destruct (secretKeys c) as [| key rest] eqn:Hkeys.
  - change (0 <? length (@nil string))%nat with false. cbv iota.
    split; [intros Hne; now destruct Hne |].
    split; [reflexivity |]. split; [reflexivity |]. split; [reflexivity |].
    intros [=].
  - change (0 <? length (key :: rest))%nat with true. cbv iota.
    cbn [VerifyResponse.SecretData VerifyResponse.Token VerifyResponse.RepoList].
    split; [intros _; split; [apply filter_loop_restrict | split] |].
    + intros k Hin. rewrite filter_loop_lookup, lookup_empty.
      rewrite decide_True by exact Hin. now destruct (_ !! k).
    + intros k Hnin. rewrite filter_loop_lookup, lookup_empty.
      now rewrite decide_False by exact Hnin.
    + split; [intros [=] |]. split; [reflexivity |]. split; [reflexivity |].
      intros [= -> ->] ->. reflexivity.
Qed.

(** The request that [VerifySignature] sends carries the client
    identifier, the challenge, the signature, and the repository URL
    and gRPC endpoint of the configuration when they are not empty. *)
Lemma verify_request_members config heap c (challenge signature : string) :
  fst (NewClient config heap) = Ok c ->
  let members := http.Body (verify_request c challenge signature) in
  In ("clientId", http.JString (ClientConfig.ClientID config)) members
  /\ In ("challenge", http.JString challenge) members
  /\ In ("signature", http.JString signature) members
  /\ (ClientConfig.RepoUrl config <> "" ->
      In ("repoUrl", http.JString (ClientConfig.RepoUrl config)) members)
  /\ (ClientConfig.GrpcEndpoint config <> "" ->
      In ("grpcEndpoint", http.JString (ClientConfig.GrpcEndpoint config)) members).
Proof.
  unfold NewClient.
  destruct (String.eqb (ClientConfig.BaseURL config) ""); [discriminate |].
  destruct (String.eqb (ClientConfig.ClientID config) ""); [discriminate |].
  destruct (ClientConfig.PrivateKey config); [| discriminate].
  intros Hc.
  assert (Hfields : clientID c = ClientConfig.ClientID config
                    /\ repoUrl c = ClientConfig.RepoUrl config
                    /\ grpcEndpoint c = ClientConfig.GrpcEndpoint config)
    by (destruct (ClientConfig.HTTPClient config); injection Hc as <-; auto).
  destruct Hfields as (Hid & Hrepo & Hgrpc).
  unfold verify_request, json_Marshal_VerifyRequest.
  cbn [http.Body sent_VerifyRequest VerifyRequest.ClientID VerifyRequest.Challenge
       VerifyRequest.Signature VerifyRequest.RepoUrl VerifyRequest.GrpcEndpoint].
  rewrite Hid, Hrepo, Hgrpc. rewrite !List.in_app_iff.
  split; [left; simpl; tauto |]. split; [left; simpl; tauto |].
  split; [left; simpl; tauto |]. split; intros Hne; apply String.eqb_neq in Hne;
    rewrite Hne; simpl; tauto.
Qed.

(** ... and never the [includeRepoList] member, whatever the
    configuration asks for. *)
Lemma verify_request_no_repo_list_flag c (challenge signature : string) :
  forall v, ~ In ("includeRepoList", v) (http.Body (verify_request c challenge signature)).
Proof.
  intros v. simpl.
  destruct (String.eqb (repoUrl c) ""), (String.eqb (grpcEndpoint c) ""); simpl;
    intros Hin; repeat (destruct Hin as [[=] | Hin]); exact Hin.
Qed.

End Verify.

(** Witness of C6: the filter [API_KEY] against the response of the
    verifier double. *)
Lemma secret_filter_witness :
  exists session,
    fst (VerifySignature (H := mock.net) mock.granting (mock.client 0 ["API_KEY"])
           "nonce" "AZw=" []) = Ok session
    /\ VerifyResponse.SecretData session = {[ "API_KEY" := "a" ]}.
Proof.
  destruct (secret_filter (H := mock.net) mock.granting (mock.client 0 ["API_KEY"]) []
              "nonce" "AZw=" "granted"
              (VerifyResponse.mk true "jwt" {[ "API_KEY" := "a"; "OTHER" := "b" ]} [] "")
              (mock_requests_can_be_built _) eq_refl eq_refl eq_refl)
    as (session & Heq & _ & _ & _ & _ & Hexample).
  exists session. split; [exact Heq | exact (Hexample eq_refl eq_refl)].
Defined.

(** C5, the code at the failing input: a configuration with
    [IncludeRepoList] set. The client built from it sends the five other
    members and no [includeRepoList]; the request of the wire protocol
    for this configuration ends with [includeRepoList: true]. *)
Theorem include_repo_list_is_not_sent :
  ClientConfig.IncludeRepoList mock.config = true
  /\ exists c heap',
       NewClient mock.config mock.caller_heap = (Ok c, heap')
       /\ http.Body (verify_request c "nonce" "AZw=")
          = [("clientId", http.JString "client-1");
             ("challenge", http.JString "nonce");
             ("signature", http.JString "AZw=");
             ("repoUrl", http.JString "https://github.com/o/r");
             ("grpcEndpoint", http.JString "grpc.example:443")]
       /\ json_Marshal_VerifyRequest (configured_VerifyRequest mock.config "nonce" "AZw=")
          = [("clientId", http.JString "client-1");
             ("challenge", http.JString "nonce");
             ("signature", http.JString "AZw=");
             ("repoUrl", http.JString "https://github.com/o/r");
             ("grpcEndpoint", http.JString "grpc.example:443");
             ("includeRepoList", http.JBool true)].
Proof.
  split; [reflexivity |]. eexists; eexists. split; [reflexivity |].
  split; reflexivity.
Qed.

End verify_facts.

(** ** Base64: decoding what was encoded *)
Module base64_facts.
Import base64.

Lemma byte_to_Z_range (b : byte) : 0 <= byte_to_Z b < 256.
Proof.
  unfold byte_to_Z. pose proof (Byte.to_N_bounded b) as Hb.
  apply N.lt_succ_r in Hb. change (N.succ 255) with 256%N in Hb. lia.
Qed.

(** [byte(v)] only looks at [v] modulo 256. *)
Lemma byte_of_Z_to_Z (b : byte) (k : Z) : byte_of_Z (byte_to_Z b + 256 * k) = b.
Proof.
  unfold byte_of_Z. pose proof (byte_to_Z_range b) as Hb.
  assert (E : (byte_to_Z b + 256 * k) mod 256 = byte_to_Z b)
    by (Z.div_mod_to_equations; lia).
  rewrite E. unfold byte_to_Z. now rewrite N2Z.id, Byte.of_to_N.
Qed.

(** The 64 characters of the alphabet decode to their index, and none
    of them is a line break. *)
Lemma alphabet (v : Z) :
  0 <= v < 64 ->
  decodeMap (encode_map v) = Some v /\ is_newline (encode_map v) = false.
Proof.
  intros Hv. rewrite <- (Z2Nat.id v) by lia.
  assert (Hk : (Z.to_nat v < 64)%nat) by lia.
  generalize dependent (Z.to_nat v). intros k Hk.
  do 64 (destruct k as [| k]; [split; reflexivity |]). lia.
Qed.

Lemma sextet_range (val i : Z) : 0 <= sextet val i < 64.
Proof. unfold sextet. apply Z.mod_pos_bound. lia. Qed.

Lemma decodeMap_sextet (val i : Z) : decodeMap (encode_map (sextet val i)) = Some (sextet val i).
Proof. apply alphabet, sextet_range. Qed.

Lemma newline_sextet (val i : Z) : is_newline (encode_map (sextet val i)) = false.
Proof. apply alphabet, sextet_range. Qed.

(** Lists, three elements at a time. *)
Lemma list_ind3 {A : Type} (P : list A -> Prop) :
  P [] -> (forall a, P [a]) -> (forall a b, P [a; b]) ->
  (forall a b c l, P l -> P (a :: b :: c :: l)) ->
  forall l, P l.
Proof.
  intros H0 H1 H2 H3 l.
  assert (Hall : P l /\ (forall a, P (a :: l)) /\ (forall a b, P (a :: b :: l))).
  { induction l as [| x l (IH0 & IH1 & IH2)]; [auto |].
    split; [apply IH1 |]. split; [intros a; apply IH2 |].
    intros a b. apply H3, IH0. }
  apply Hall.
Qed.

(** The encoder writes no line break. *)
Lemma strip_newlines_encode (src : list byte) :
  strip_newlines (EncodeToString src) = EncodeToString src.
Proof.
  induction src as [| b0 | b0 b1 | b0 b1 b2 rest IH] using list_ind3;
    cbn [EncodeToString strip_newlines]; rewrite ?newline_sextet; try reflexivity.
  now rewrite IH.
Qed.

(** The four six-bit groups of a 24-bit value give the value back. *)
Lemma sextets_value (val : Z) :
  0 <= val < 16777216 ->
  sextet val 0 * 262144 + sextet val 1 * 4096 + sextet val 2 * 64 + sextet val 3 = val.
Proof.
  intros Hval. unfold sextet.
  change (64 ^ (3 - 0)) with 262144. change (64 ^ (3 - 1)) with 4096.
  change (64 ^ (3 - 2)) with 64. change (64 ^ (3 - 3)) with 1.
  Z.div_mod_to_equations. lia.
Qed.

Lemma decode_quanta_encode (src : list byte) :
  decode_quanta (EncodeToString src) = Some src.
Proof.
  induction src as [| b0 | b0 b1 | b0 b1 b2 rest IH] using list_ind3;
    cbn [EncodeToString decode_quanta].
  - reflexivity.
  - rewrite !decodeMap_sextet. change (decodeMap padChar) with (@None Z).
    rewrite !Ascii.eqb_refl. cbn [andb String.eqb]. do 2 f_equal.
    pose proof (byte_to_Z_range b0) as H0.
    pose proof (sextets_value (byte_to_Z b0 * 65536) ltac:(lia)) as Hs.
    assert (H2 : sextet (byte_to_Z b0 * 65536) 2 = 0)
      by (unfold sextet; change (64 ^ (3 - 2)) with 64; Z.div_mod_to_equations; lia).
    assert (H3 : sextet (byte_to_Z b0 * 65536) 3 = 0)
      by (unfold sextet; change (64 ^ (3 - 3)) with 1; Z.div_mod_to_equations; lia).
    replace (sextet (byte_to_Z b0 * 65536) 0 * 262144
             + sextet (byte_to_Z b0 * 65536) 1 * 4096)
      with (byte_to_Z b0 * 65536) by lia.
    rewrite Z.div_mul by lia.
    rewrite <- (byte_of_Z_to_Z b0 0) at 2. f_equal. lia.
  - rewrite !decodeMap_sextet. change (decodeMap padChar) with (@None Z).
    rewrite !Ascii.eqb_refl. cbn [andb String.eqb].
    pose proof (byte_to_Z_range b0) as H0. pose proof (byte_to_Z_range b1) as H1.
    set (val := byte_to_Z b0 * 65536 + byte_to_Z b1 * 256).
    pose proof (sextets_value val ltac:(unfold val; lia)) as Hs.
    assert (H3 : sextet val 3 = 0)
      by (unfold sextet, val; change (64 ^ (3 - 3)) with 1; Z.div_mod_to_equations; lia).
    replace (sextet val 0 * 262144 + sextet val 1 * 4096 + sextet val 2 * 64)
      with val by lia.
    replace (val / 65536) with (byte_to_Z b0 + 256 * 0)
      by (unfold val; Z.div_mod_to_equations; lia).
    replace (val / 256) with (byte_to_Z b1 + 256 * byte_to_Z b0)
      by (unfold val; Z.div_mod_to_equations; lia).
    now rewrite !byte_of_Z_to_Z.
  - rewrite !decodeMap_sextet. rewrite IH.
    pose proof (byte_to_Z_range b0) as H0. pose proof (byte_to_Z_range b1) as H1.
    pose proof (byte_to_Z_range b2) as H2.
    set (val := byte_to_Z b0 * 65536 + byte_to_Z b1 * 256 + byte_to_Z b2).
    rewrite (sextets_value val ltac:(unfold val; lia)).
    replace (val / 65536) with (byte_to_Z b0 + 256 * 0)
      by (unfold val; Z.div_mod_to_equations; lia).
    replace (val / 256) with (byte_to_Z b1 + 256 * byte_to_Z b0)
      by (unfold val; Z.div_mod_to_equations; lia).
    replace (byte_of_Z val)
      with (byte_of_Z (byte_to_Z b2 + 256 * (byte_to_Z b0 * 256 + byte_to_Z b1)))
      by (f_equal; unfold val; lia).
    now rewrite !byte_of_Z_to_Z.
Qed.

(** [DecodeString(EncodeToString(src))] gives [src] back. *)
Lemma DecodeString_EncodeToString (src : list byte) :
  DecodeString (EncodeToString src) = Some src.
Proof. unfold DecodeString. rewrite strip_newlines_encode. apply decode_quanta_encode. Qed.

(** Only the empty slice is encoded as the empty string. *)
Lemma EncodeToString_empty (src : list byte) : EncodeToString src = "" -> src = [].
Proof. destruct src as [| b0 [| b1 [| b2 rest]]]; [reflexivity | discriminate ..]. Qed.

End base64_facts.

(** ** Signing and verifying *)
Module crypto_facts.
Import errors crypto base64_facts.

Section WithLibrary.
Context `{GoCrypto}.

Lemma SignChallenge_nil_key (challenge : string) :
  SignChallenge None challenge = Err (Plain "private key is nil").
Proof. reflexivity. Qed.

Lemma VerifySignature_nil_key (challenge signatureBase64 : string) :
  VerifySignature None challenge signatureBase64 = Some (Plain "public key is nil").
Proof. reflexivity. Qed.

Lemma VerifySignature_empty_challenge (key : rsa.PublicKey) (signatureBase64 : string) :
  VerifySignature (Some key) "" signatureBase64 = Some (Plain "challenge is empty").
Proof. reflexivity. Qed.

(** Past the three guards, [VerifySignature] is the library's verdict
    on the decoded signature. *)
Lemma VerifySignature_decoded (key : rsa.PublicKey) (challenge signatureBase64 : string)
    (signature : list byte) :
  challenge <> "" -> signatureBase64 <> "" ->
  base64.DecodeString signatureBase64 = Some signature ->
  VerifySignature (Some key) challenge signatureBase64
  = match rsa_VerifyPKCS1v15 key (sha256_Sum256 challenge) signature with
    | Some err => Some (Errorf "signature verification failed: " (Plain err) "")
    | None => None
    end.
Proof.
  intros Hc Hs Hd. unfold VerifySignature.
  apply String.eqb_neq in Hc, Hs. now rewrite Hc, Hs, Hd.
Qed.

(** C8 as amended. The guards come in a fixed order, the key first:
    [Sign] fails with InvalidKey whenever the key is nil, and with
    EmptyInput whenever the key is present and the challenge is empty;
    [Verify] fails with InvalidKey whenever the key is nil, with
    EmptyInput whenever the key is present and the challenge is empty,
    with the empty-signature error when key and challenge are present
    and the signature is empty, and with MalformedSignature when key and
    challenge are present and the signature does not decode as
    base64. *)
Theorem guards_in_order :
  (forall challenge, Sign_fails_with (SignChallenge None challenge) InvalidKey)
  /\ (forall key, Sign_fails_with (SignChallenge (Some key) "") EmptyInput)
  /\ (forall challenge signatureBase64,
        Verify_fails_with (VerifySignature None challenge signatureBase64) InvalidKey)
  /\ (forall key signatureBase64,
        Verify_fails_with (VerifySignature (Some key) "" signatureBase64) EmptyInput)
  /\ (forall key challenge,
        challenge <> "" ->
        Verify_fails_with (VerifySignature (Some key) challenge "") EmptySignature)
  /\ (forall key challenge signatureBase64,
        challenge <> "" ->
        base64.DecodeString signatureBase64 = None ->
        Verify_fails_with (VerifySignature (Some key) challenge signatureBase64)
          MalformedSignature).
Proof.
  repeat split; try reflexivity.
  - intros key challenge Hc. unfold VerifySignature.
    apply String.eqb_neq in Hc. now rewrite Hc.
  - intros key challenge signatureBase64 Hc Hd. unfold VerifySignature.
    apply String.eqb_neq in Hc. rewrite Hc.
    destruct (String.eqb_spec signatureBase64 "") as [-> | _]; [discriminate Hd |].
    now rewrite Hd.
Qed.

(** C9 as amended. For a valid key pair and a non-empty challenge,
    [Sign] returns a signature and [Verify] accepts it for that
    challenge; for another challenge, [Verify] fails with EmptyInput
    when that challenge is empty, fails with SignatureMismatch when it
    is not empty and its SHA-256 digest differs from the signed one,
    and accepts when the digests are equal. *)
Theorem sign_then_verify (priv : rsa.PrivateKey) (pub : rsa.PublicKey) (challenge : string) :
  valid_key_pair priv pub ->
  challenge <> "" ->
  exists signatureBase64,
    SignChallenge (Some priv) challenge = Ok signatureBase64
    /\ VerifySignature (Some pub) challenge signatureBase64 = None
    /\ forall challenge',
         (challenge' = "" ->
          Verify_fails_with (VerifySignature (Some pub) challenge' signatureBase64)
            EmptyInput)
         /\ (challenge' <> "" ->
             sha256_Sum256 challenge' <> sha256_Sum256 challenge ->
             Verify_fails_with (VerifySignature (Some pub) challenge' signatureBase64)
               SignatureMismatch)
         /\ (challenge' <> "" ->
             sha256_Sum256 challenge' = sha256_Sum256 challenge ->
             VerifySignature (Some pub) challenge' signatureBase64 = None).
Proof.
  intros Hvalid Hc.
  destruct (Hvalid challenge) as (signature & Hsign & Hne & Hverify).
  exists (base64.EncodeToString signature).
  assert (Hs : base64.EncodeToString signature <> "")
    by (intros E; now apply EncodeToString_empty in E).
  pose proof (DecodeString_EncodeToString signature) as Hd.
  split; [| split].
  - unfold SignChallenge. apply String.eqb_neq in Hc. now rewrite Hc, Hsign.
  - rewrite (VerifySignature_decoded pub challenge _ signature Hc Hs Hd).
    now rewrite (proj2 (Hverify challenge) eq_refl).
  - intros challenge'. split; [| split].
    + now intros ->.
    + intros Hc' Hdiff.
      rewrite (VerifySignature_decoded pub challenge' _ signature Hc' Hs Hd).
      destruct (rsa_VerifyPKCS1v15 pub (sha256_Sum256 challenge') signature) eqn:Hv;
        [reflexivity |].
      now apply Hverify in Hv.
    + intros Hc' Hsame.
      rewrite (VerifySignature_decoded pub challenge' _ signature Hc' Hs Hd).
      now rewrite (proj2 (Hverify challenge') Hsame).
Qed.

End WithLibrary.

(** *** The small RSA of the examples is a valid key pair *)

Lemma byte_to_Z_inj (a b : byte) : base64.byte_to_Z a = base64.byte_to_Z b -> a = b.
Proof.
  unfold base64.byte_to_Z. intros E%N2Z.inj.
  apply (f_equal Byte.of_N) in E. rewrite !Byte.of_to_N in E. now injection E.
Qed.

Lemma small_rsa_inverse (b : byte) :
  let s := mock.powmod (base64.byte_to_Z b) 2753 3233 in
  mock.powmod
    (base64.byte_to_Z (base64.byte_of_Z (s / 256)) * 256
     + base64.byte_to_Z (base64.byte_of_Z s)) 17 3233
  = base64.byte_to_Z b.
Proof. destruct b; vm_compute; reflexivity. Qed.

Lemma small_rsa_valid :
  valid_key_pair (H := mock.small_rsa) mock.privateKey mock.publicKey.
Proof.
  intros challenge.
  cbn [sha256_Sum256 rsa_SignPKCS1v15 rsa_VerifyPKCS1v15 mock.small_rsa].
  unfold mock.digest.
  set (b := base64.byte_of_Z _).
  eexists. split; [reflexivity |]. split; [discriminate |].
  intros challenge'. set (b' := base64.byte_of_Z _).
  unfold mock.verify.
  cbn [rsa.E rsa.N rsa.D rsa.Public mock.publicKey mock.privateKey].
  rewrite (small_rsa_inverse b).
  destruct (Z.eqb_spec (base64.byte_to_Z b) (base64.byte_to_Z b')) as [E | E].
  - apply byte_to_Z_inj in E. rewrite E. split; reflexivity.
  - split; [discriminate |]. intros [= E']. now rewrite E' in E.
Qed.

(** Witness of C8 as amended: a signature that is not base64. *)
Lemma guards_in_order_witness :
  Verify_fails_with
    (VerifySignature (H := mock.small_rsa) (Some mock.publicKey) "nonce" "not base64!")
    MalformedSignature.
Proof.
  apply (guards_in_order (H := mock.small_rsa)); [discriminate | reflexivity].
Defined.

(** Counterexample to C8 as stated: with a nil key and an empty
    challenge, [Sign] and [Verify] fail with InvalidKey, not with
    EmptyInput, whatever the library and the signature. *)
Lemma nil_key_wins_over_empty_challenge :
  (forall lib : GoCrypto,
     SignChallenge (H := lib) None "" = Err (Plain "private key is nil")
     /\ VerifySignature (H := lib) None "" "AZw=" = Some (Plain "public key is nil"))
  /\ class_of (Plain "private key is nil") = Some InvalidKey
  /\ class_of (Plain "public key is nil") = Some InvalidKey
  /\ ~ Sign_fails_with (SignChallenge (H := mock.small_rsa) None "") EmptyInput
  /\ ~ Verify_fails_with (VerifySignature (H := mock.small_rsa) None "" "AZw=") EmptyInput.
Proof.
  split; [intros lib; split; reflexivity |].
  split; [reflexivity |]. split; [reflexivity |].
  split; discriminate.
Qed.

(** Witness of C9 as amended: the small RSA key pair and the challenge
    [nonce]. *)
Lemma sign_then_verify_witness :
  exists signatureBase64,
    SignChallenge (H := mock.small_rsa) (Some mock.privateKey) "nonce" = Ok signatureBase64
    /\ VerifySignature (H := mock.small_rsa) (Some mock.publicKey) "nonce" signatureBase64
       = None.
Proof.
  destruct (sign_then_verify (H := mock.small_rsa) mock.privateKey mock.publicKey "nonce"
              small_rsa_valid ltac:(discriminate))
    as (signatureBase64 & Hsign & Hverify & _).
  exists signatureBase64. split; [exact Hsign | exact Hverify].
Defined.

(** Counterexample to C9 as stated: the empty challenge differs from
    the signed challenge [nonce], and [Verify] fails on it with
    EmptyInput, not with SignatureMismatch; so it does for every
    library, key and signature. *)
Lemma empty_challenge_is_not_a_mismatch :
  (forall (lib : GoCrypto) (pub : rsa.PublicKey) (signatureBase64 : string),
     VerifySignature (H := lib) (Some pub) "" signatureBase64
     = Some (Plain "challenge is empty"))
  /\ class_of (Plain "challenge is empty") = Some EmptyInput
  /\ SignChallenge (H := mock.small_rsa) (Some mock.privateKey) "nonce" = Ok "AZw="
  /\ "" <> "nonce"
  /\ ~ Verify_fails_with
         (VerifySignature (H := mock.small_rsa) (Some mock.publicKey) "" "AZw=")
         SignatureMismatch.
Proof.
  split; [reflexivity |]. split; [reflexivity |]. split; [reflexivity |].
  split; discriminate.
Qed.

End crypto_facts.

(** ** More on the access gate *)
Module gate_more.
Import strings strings_facts authmiddleware gate_facts.

Section Gate.
Context {Sigma : Type}.
Implicit Types (m : Config Sigma) (sigma : Sigma) (r : Request).

(** X1. A path is whitelisted exactly when some entry of the whitelist
    is a prefix of it, character by character: no separator is asked
    for after the entry.  So an empty entry whitelists every path, and
    an empty whitelist none. *)
Theorem whitelist_is_string_prefix m (path : string) :
  (isWhitelisted m path = true
   <-> exists w rest, In w (WhitelistPaths m) /\ path = w +:+ rest)
  /\ (In "" (WhitelistPaths m) -> isWhitelisted m path = true)
  /\ (WhitelistPaths m = [] -> isWhitelisted m path = false).
Proof.
  assert (Hiff : isWhitelisted m path = true
                 <-> exists w rest, In w (WhitelistPaths m) /\ path = w +:+ rest).
  { rewrite isWhitelisted_spec. split.
    - intros (w & Hin & [-> | [rest ->]]).
      + exists w, "". split; [exact Hin |]. clear. induction w; simpl; congruence.
      + now exists w, rest.
    - intros (w & rest & Hin & ->). exists w. split; [exact Hin |]. right. now exists rest. }
  split; [exact Hiff |]. split.
  - intros Hin. apply Hiff. now exists "", path.
  - intros Hnil. unfold isWhitelisted. now rewrite Hnil.
Qed.

(** X2. A request reaches the next handler exactly when it is an
    OPTIONS request, or its path is whitelisted, or the tunnel is not
    required or the marker header [Cloudflare-Cdn-Loop] has a value,
    and its Authorization header is [Bearer ] followed by the
    supplier's current token, which is not empty. *)
Theorem forwarded_exactly_when m sigma r :
  Middleware m sigma r = ServeNext
  <-> Method r = MethodOptions
      \/ isWhitelisted m (URL_Path r) = true
      \/ ((RequireTunnel m = false
           \/ Header_Get (Header r) "Cloudflare-Cdn-Loop" <> "")
          /\ GetAccessToken m sigma <> ""
          /\ Header_Get (Header r) "Authorization"
             = "Bearer " +:+ GetAccessToken m sigma).
Proof.
  split; [| intros Hcases;
            destruct (String.eqb_spec (Method r) MethodOptions) as [Hm | Hm];
            [unfold Middleware; apply String.eqb_eq in Hm; now rewrite Hm |];
            destruct (isWhitelisted m (URL_Path r)) eqn:Hw;
            [unfold Middleware; apply String.eqb_neq in Hm; now rewrite Hm, Hw |];
            destruct Hcases as [Hopt | [Hwl | (Ht & Hx & Hh)]];
            [contradiction | discriminate |];
            pose proof (tunnel_check_passed m r Ht) as Ht';
            rewrite (Middleware_bearer _ sigma _ _ Hm Hw Ht' Hh);
            apply String.eqb_neq in Hx; rewrite Hx, String.eqb_refl; reflexivity].
  intros Hnext.
  destruct (String.eqb_spec (Method r) MethodOptions) as [Hm | Hm]; [now left |].
  destruct (isWhitelisted m (URL_Path r)) eqn:Hw; [right; now left |].
  right; right.
  destruct (RequireTunnel m && negb (isFromCloudflare r)) eqn:Ht.
  { unfold Middleware in Hnext. apply String.eqb_neq in Hm.
    rewrite Hm, Hw, Ht in Hnext. discriminate. }
  assert (Ht' : RequireTunnel m = false
                \/ Header_Get (Header r) "Cloudflare-Cdn-Loop" <> "").
  { destruct (RequireTunnel m); [right | now left].
    apply isFromCloudflare_true. simpl in Ht. now destruct (isFromCloudflare r). }
  split; [exact Ht' |].
  destruct (String.eqb_spec (Header_Get (Header r) "Authorization") "") as [He | He].
  { rewrite (Middleware_no_header _ sigma _ Hm Hw Ht He) in Hnext. discriminate. }
  destruct (SplitN_bearer (Header_Get (Header r) "Authorization"))
    as [(token & Hh & _) | [Hno _]].
  2: { rewrite (Middleware_bad_format _ sigma _ Hm Hw Ht He Hno) in Hnext. discriminate. }
  rewrite (Middleware_bearer _ sigma _ token Hm Hw Ht Hh) in Hnext.
  destruct (String.eqb_spec (GetAccessToken m sigma) "") as [Hx | Hx]; [discriminate |].
  split; [exact Hx |].
  destruct (String.eqb_spec token (GetAccessToken m sigma)) as [<- | Hne];
    [exact Hh | discriminate].
Qed.

(** X3. A request that is refused is answered with 401, 403 or 500 and
    nothing else: with 403 only when the tunnel is required and the
    marker header [Cloudflare-Cdn-Loop] is missing or empty, with 500
    only when the supplier returns the empty string. *)
Theorem refusal_codes m sigma r (msg : string) (code : Z) :
  Middleware m sigma r = http_Error msg code ->
  (code = StatusForbidden /\ RequireTunnel m = true
   /\ Header_Get (Header r) "Cloudflare-Cdn-Loop" = "")
  \/ (code = StatusInternalServerError /\ GetAccessToken m sigma = "")
  \/ code = StatusUnauthorized.
Proof.
  unfold Middleware.
  destruct (String.eqb (Method r) MethodOptions); [discriminate |].
  destruct (isWhitelisted m (URL_Path r)); [discriminate |].
  destruct (RequireTunnel m) eqn:Ht, (isFromCloudflare r) eqn:Hc; simpl;
    try (apply isFromCloudflare_false in Hc; intros [= <- <-]; left; auto; fail).
  all: destruct (String.eqb (Header_Get (Header r) "Authorization") "");
    [intros [= <- <-]; auto |].
  all: destruct (negb _ || negb _); [intros [= <- <-]; auto |].
  all: destruct (String.eqb_spec (GetAccessToken m sigma) "");
    [intros [= <- <-]; auto |].
  all: destruct (negb _); [intros [= <- <-]; auto | discriminate].
Qed.

End Gate.

(** Witness of X2, the tunnel required: the request with the marker
    header and the right token is forwarded. *)
Lemma forwarded_exactly_when_witness :
  Middleware (gate "right" [] true) tt
    (get "/api/x" [("Authorization", ["Bearer right"]);
                   ("Cloudflare-Cdn-Loop", ["cloudflare"])])
  = ServeNext.
Proof.
  apply (forwarded_exactly_when (gate "right" [] true) tt
           (get "/api/x" [("Authorization", ["Bearer right"]);
                          ("Cloudflare-Cdn-Loop", ["cloudflare"])])).
  right; right. split; [| split; [discriminate | reflexivity]].
  right. intros E. vm_compute in E. discriminate E.
Defined.

(** Witness of X3: the request with no token, the tunnel required. *)
Lemma refusal_codes_witness :
  (StatusForbidden = StatusForbidden /\ true = true
   /\ Header_Get (Header (get "/api/x" [])) "Cloudflare-Cdn-Loop" = "")
  \/ (StatusForbidden = StatusInternalServerError /\ "right" = "")
  \/ StatusForbidden = StatusUnauthorized.
Proof.
  exact (refusal_codes (gate "right" [] true) tt (get "/api/x" [])
           "Access denied: not from Cloudflare Tunnel" StatusForbidden eq_refl).
Defined.

(** Witness of X1: a whitelist entry without a final slash, and the
    empty entry. *)
Lemma whitelist_is_string_prefix_witness :
  isWhitelisted (gate "right" ["/health"] false) "/healthcheck" = true
  /\ isWhitelisted (gate "right" [""] false) "/api/x" = true.
Proof.
  split.
  - destruct (whitelist_is_string_prefix (gate "right" ["/health"] false) "/healthcheck")
      as (Hiff & _).
    apply Hiff. exists "/health", "check". split; [left; reflexivity | reflexivity].
  - destruct (whitelist_is_string_prefix (gate "right" [""] false) "/api/x")
      as (_ & Hempty & _).
    apply Hempty. left; reflexivity.
Defined.

End gate_more.

(** ** More on the client: errors and single requests *)
Module request_facts.
Import strings strings_facts errors authclient run_facts.

Section Requests.
Context `{GoNet} `{GoCrypto} (server : nat -> http.Request -> http.RoundTrip).
Implicit Types (c : Client) (tr : list Event).

(** X4. The error made of a response that is not 200 is an [HTTPError]
    with the status of the response.  When the body is a JSON error
    response, its message is the server's text and it is
    [ErrBadRequest], [ErrUnauthorized], [ErrNotFound] or
    [ErrInternalServer] exactly for status 400, 401, 404 or 500; when
    the body is not JSON, its message is the body and it is none of
    the package's errors, whatever the status. *)
Theorem http_error_classes (StatusCode : Z) (body : string) :
  (forall errResp,
     json_Unmarshal_ErrorResponse body = inr errResp ->
     As_HTTPError (handleHTTPError StatusCode body)
     = Some (StatusCode, ErrorResponse.Error errResp)
     /\ Is (handleHTTPError StatusCode body) ErrBadRequest = (StatusCode =? 400)
     /\ Is (handleHTTPError StatusCode body) ErrUnauthorized = (StatusCode =? 401)
     /\ Is (handleHTTPError StatusCode body) ErrNotFound = (StatusCode =? 404)
     /\ Is (handleHTTPError StatusCode body) ErrInternalServer = (StatusCode =? 500)
     /\ Is (handleHTTPError StatusCode body) ErrNetworkError = false)
  /\ (forall msg,
        json_Unmarshal_ErrorResponse body = inl msg ->
        As_HTTPError (handleHTTPError StatusCode body) = Some (StatusCode, body)
        /\ forall target, Is (handleHTTPError StatusCode body) target = false).
Proof.
  unfold handleHTTPError. split.
  - intros errResp ->. split; [reflexivity |].
    unfold http.StatusBadRequest, http.StatusUnauthorized, http.StatusNotFound,
      http.StatusInternalServerError.
    destruct (Z.eqb_spec StatusCode 400) as [-> | H400]; [repeat split |].
    destruct (Z.eqb_spec StatusCode 401) as [-> | H401]; [repeat split |].
    destruct (Z.eqb_spec StatusCode 404) as [-> | H404]; [repeat split |].
    destruct (Z.eqb_spec StatusCode 500) as [-> | H500]; repeat split.
  - intros msg ->. split; [reflexivity |]. intros target. reflexivity.
Qed.

(** X5. Whether a response that is not 200 is retried depends on its
    status alone, not on its body: [RequestChallenge] and
    [VerifySignature] return a retryable error for it exactly when the
    status is 500 to 599 or 429. *)
Theorem retried_by_status_alone c tr (challenge signature body : string) (StatusCode : Z) :
  requests_can_be_built c ->
  StatusCode <> http.StatusOK ->
  (server (requests_sent tr) (challenge_request c)
   = http.DoResponse StatusCode (http.Bytes body) ->
   exists err,
     fst (RequestChallenge server c tr) = Err err
     /\ isRetryable err = (500 <=? StatusCode) && (StatusCode <? 600) || (StatusCode =? 429))
  /\ (server (requests_sent tr) (verify_request c challenge signature)
      = http.DoResponse StatusCode (http.Bytes body) ->
      exists err,
        fst (VerifySignature server c challenge signature tr) = Err err
        /\ isRetryable err
           = (500 <=? StatusCode) && (StatusCode <? 600) || (StatusCode =? 429)).
Proof.
  intros Hb Hne. split.
  - intros Hs. exists (handleHTTPError StatusCode body). split.
    + destruct Hb as [Hc _]. unfold RequestChallenge. rewrite Hc.
      unfold bind, Do, ret. fold (challenge_request c). rewrite Hs.
      apply Z.eqb_neq in Hne. now rewrite Hne.
    + apply isRetryable_handleHTTPError.
  - intros Hs. exists (handleHTTPError StatusCode body). split.
    + now rewrite (VerifySignature_refused server c tr challenge signature body
                     StatusCode Hb Hs Hne).
    + apply isRetryable_handleHTTPError.
Qed.

(** X6. [RequestChallenge] returns a challenge exactly when the request
    can be built and is answered with status 200 and a body that decodes
    to that challenge; and it sends one request when the request can be
    built, none otherwise. *)
Theorem RequestChallenge_ok_iff c tr challengeResp :
  (fst (RequestChallenge server c tr) = Ok challengeResp
   <-> http_NewRequest_error "POST" (baseURL c +:+ "/challenge") = None
       /\ exists body,
            server (requests_sent tr) (challenge_request c)
            = http.DoResponse http.StatusOK (http.Bytes body)
            /\ json_Unmarshal_ChallengeResponse body = inr challengeResp)
  /\ (http_NewRequest_error "POST" (baseURL c +:+ "/challenge") = None ->
      snd (RequestChallenge server c tr)
      = (tr ++ [EvRoundTrip (challenge_request c)
                  (server (requests_sent tr) (challenge_request c))])%list)
  /\ (http_NewRequest_error "POST" (baseURL c +:+ "/challenge") <> None ->
      snd (RequestChallenge server c tr) = tr).
Proof.
  unfold RequestChallenge.
  destruct (http_NewRequest_error "POST" (baseURL c +:+ "/challenge")) as [err |] eqn:Hn.
  - split; [| split].
    + split; [discriminate | intros [[=] _]].
    + discriminate.
    + reflexivity.
  - unfold bind, Do, ret. fold (challenge_request c). cbn [fst snd].
    split; [| split; [reflexivity | congruence]].
    destruct (server (requests_sent tr) (challenge_request c))
      as [msg | StatusCode [msg | body]].
    + split; [discriminate | intros [_ (b & [=] & _)]].
    + split; [discriminate | intros [_ (b & [=] & _)]].
    + destruct (Z.eqb_spec StatusCode http.StatusOK) as [-> | Hne]; cbn [negb].
      * destruct (json_Unmarshal_ChallengeResponse body) as [msg | cr] eqn:Hj.
        -- split; [discriminate | intros [_ (b & [= <-] & Hb)]; congruence].
        -- split.
           ++ intros [= <-]. split; [reflexivity |]. now exists body.
           ++ intros [_ (b & [= <-] & Hb)]. congruence.
      * split; [discriminate | intros [_ (b & [= -> _] & _)]; contradiction].
Qed.

(** X7. A failure of [RequestChallenge] that is neither a transport
    error nor a response with a retryable status is not retryable: a
    request that cannot be built, a body that cannot be read (even under
    status 503), and a body of a 200 response that does not decode.  A
    transport error is [ErrNetworkError] and retryable. *)
Theorem RequestChallenge_failures c tr :
  (forall msg,
     http_NewRequest_error "POST" (baseURL c +:+ "/challenge") = Some msg ->
     exists err, RequestChallenge server c tr = (Err err, tr) /\ isRetryable err = false)
  /\ (http_NewRequest_error "POST" (baseURL c +:+ "/challenge") = None ->
      (forall msg,
         server (requests_sent tr) (challenge_request c) = http.DoError msg ->
         exists err,
           fst (RequestChallenge server c tr) = Err err
           /\ Is err ErrNetworkError = true /\ isRetryable err = true)
      /\ (forall StatusCode msg,
            server (requests_sent tr) (challenge_request c)
            = http.DoResponse StatusCode (http.ReadError msg) ->
            exists err,
              fst (RequestChallenge server c tr) = Err err /\ isRetryable err = false)
      /\ (forall body msg,
            server (requests_sent tr) (challenge_request c)
            = http.DoResponse http.StatusOK (http.Bytes body) ->
            json_Unmarshal_ChallengeResponse body = inl msg ->
            exists err,
              fst (RequestChallenge server c tr) = Err err /\ isRetryable err = false)).
Proof.
  unfold RequestChallenge. split.
  - intros msg ->. eexists. split; reflexivity.
  - intros ->. unfold bind, Do, ret. fold (challenge_request c). cbn [fst].
    split; [| split].
    + intros msg ->. eexists. split; [reflexivity |]. split; reflexivity.
    + intros StatusCode msg ->. eexists. split; reflexivity.
    + intros body msg -> Hj. cbn [negb Z.eqb http.StatusOK Pos.eqb]. rewrite Hj.
      eexists. split; reflexivity.
Qed.

End Requests.

Section Health.
Context `{GoNet} (json_Unmarshal_HealthResponse : string -> string + HealthResponse.t)
        (server : nat -> http.Request -> http.RoundTrip).
Implicit Types (c : Client) (tr : list Event).

(** X8. [Health] sends at most one request, a GET of the base URL
    followed by [/health], and never sleeps.  It returns a status
    exactly when that request can be built and is answered with 200 and
    a body that decodes.  When the request cannot be built nothing is
    sent, and the error is nevertheless [ErrNetworkError]. *)
Theorem Health_contract c tr :
  let req := http.mkRequest "GET" (baseURL c +:+ "/health") "" [] in
  (snd (Health json_Unmarshal_HealthResponse server c tr) = tr
   \/ snd (Health json_Unmarshal_HealthResponse server c tr)
      = (tr ++ [EvRoundTrip req (server (requests_sent tr) req)])%list)
  /\ (forall healthResp,
        fst (Health json_Unmarshal_HealthResponse server c tr) = Ok healthResp
        <-> http_NewRequest_error "GET" (baseURL c +:+ "/health") = None
            /\ exists body,
                 server (requests_sent tr) req
                 = http.DoResponse http.StatusOK (http.Bytes body)
                 /\ json_Unmarshal_HealthResponse body = inr healthResp)
  /\ (forall msg,
        http_NewRequest_error "GET" (baseURL c +:+ "/health") = Some msg ->
        exists err,
          Health json_Unmarshal_HealthResponse server c tr = (Err err, tr)
          /\ Is err ErrNetworkError = true).
Proof.
  intros req. unfold Health, Get, bind.
  destruct (http_NewRequest_error "GET" (baseURL c +:+ "/health")) as [err |] eqn:Hn.
  - cbn. split; [now left |]. split.
    + intros h. split; [discriminate | intros [[=] _]].
    + intros msg [= <-]. eexists. split; reflexivity.
  - unfold Do, ret. fold req. cbn [fst snd].
    split; [now right |]. split; [| discriminate].
    intros h.
    destruct (server (requests_sent tr) req) as [msg | StatusCode [msg | body]].
    + split; [discriminate | intros [_ (b & [=] & _)]].
    + split; [discriminate | intros [_ (b & [=] & _)]].
    + destruct (Z.eqb_spec StatusCode http.StatusOK) as [-> | Hne]; cbn [negb].
      * destruct (json_Unmarshal_HealthResponse body) as [msg | h'] eqn:Hj.
        -- split; [discriminate | intros [_ (b & [= <-] & Hb)]; congruence].
        -- split.
           ++ intros [= <-]. split; [reflexivity |]. now exists body.
           ++ intros [_ (b & [= <-] & Hb)]. congruence.
      * split; [discriminate | intros [_ (b & [= -> _] & _)]; contradiction].
Qed.

End Health.

(** Witness of X5: a 429 answer to the challenge request. *)
Lemma retried_by_status_alone_witness :
  exists err,
    fst (RequestChallenge (H := mock.net)
           (fun _ _ => http.DoResponse 429 (http.Bytes "slow down"))
           (mock.client 1 []) []) = Err err
    /\ isRetryable err = true.
Proof.
  destruct (retried_by_status_alone (H := mock.net)
              (fun _ _ => http.DoResponse 429 (http.Bytes "slow down"))
              (mock.client 1 []) [] "nonce" "AZw=" "slow down" 429
              (mock_requests_can_be_built _) ltac:(discriminate)) as [Hc _].
  exact (Hc eq_refl).
Defined.

(** Witness of X4: the 401 of the test server, and a 502 whose body is
    a page of a proxy. *)
Lemma http_error_classes_witness :
  Is (handleHTTPError (H := mock.net) 401 "error:Invalid signature") ErrUnauthorized = true
  /\ As_HTTPError (handleHTTPError (H := mock.net) 502 "<html>") = Some (502, "<html>").
Proof.
  destruct (http_error_classes (H := mock.net) 401 "error:Invalid signature") as [Hjson _].
  destruct (Hjson _ eq_refl) as (_ & _ & Hu & _).
  destruct (http_error_classes (H := mock.net) 502 "<html>") as [_ Hraw].
  destruct (Hraw _ eq_refl) as [Has _].
  split; [exact Hu | exact Has].
Defined.

(** Witness of X6: the verifier that grants. *)
Lemma RequestChallenge_ok_iff_witness :
  fst (RequestChallenge (H := mock.net) mock.granting (mock.client 0 []) [])
  = Ok (ChallengeResponse.mk "nonce" 1893456000).
Proof.
  destruct (RequestChallenge_ok_iff (H := mock.net) mock.granting (mock.client 0 []) []
              (ChallengeResponse.mk "nonce" 1893456000)) as (Hiff & _).
  apply Hiff. split; [reflexivity |]. exists "challenge:nonce". split; reflexivity.
Defined.

(** Witness of X7: the verifier that cannot be reached. *)
Lemma RequestChallenge_failures_witness :
  exists err,
    fst (RequestChallenge (H := mock.net) mock.unreachable (mock.client 0 []) []) = Err err
    /\ Is err ErrNetworkError = true /\ isRetryable err = true.
Proof.
  destruct (RequestChallenge_failures (H := mock.net) mock.unreachable (mock.client 0 []) [])
    as [_ Hbuilt].
  destruct (Hbuilt eq_refl) as [Hnet _].
  exact (Hnet _ eq_refl).
Defined.

(** Witness of X8: the verifier that is healthy. *)
Lemma Health_contract_witness :
  fst (Health (H := mock.net) mock.unmarshal_health mock.healthy (mock.client 0 []) [])
  = Ok (HealthResponse.mk "ok").
Proof.
  destruct (Health_contract (H := mock.net) mock.unmarshal_health mock.healthy
              (mock.client 0 []) []) as (_ & Hiff & _).
  apply Hiff. split; [reflexivity |]. exists "status:ok". split; reflexivity.
Defined.

End request_facts.

(** ** More on the client: whole runs *)
Module run_more.
Import strings strings_facts errors authclient run_facts verify_facts.

Lemma slept_app (a b : list Event) : slept (a ++ b) = slept a + slept b.
Proof.
  induction a as [| [req resp | d] a IH]; simpl; [reflexivity | exact IH |].
  rewrite IH. lia.
Qed.

Lemma isRetryable_wrap (pre post : string) (err : error) :
  isRetryable (Errorf pre err post) = isRetryable err.
Proof. reflexivity. Qed.

Section Run.
Context `{GoNet} `{GoCrypto} (server : nat -> http.Request -> http.RoundTrip).
Implicit Types (c : Client) (tr : list Event) (n : Z).

Lemma attempt_events_counts c (evs : list Event) :
  attempt_events c evs ->
  List.filter is_sleep evs = [] /\ (requests_sent evs <= 2)%nat /\ slept evs = 0.
Proof. intros []; repeat split; unfold requests_sent; simpl; lia. Qed.

Lemma run_events_counts c (budget : nat) (evs : list Event) :
  run_events c budget evs ->
  (length (List.filter is_sleep evs) <= budget)%nat
  /\ (requests_sent evs <= 2 * (length (List.filter is_sleep evs) + 1))%nat
  /\ slept evs = Z.of_nat (length (List.filter is_sleep evs)) * retryBackoff c.
Proof.
  induction 1 as [budget evs Ha | budget evs rest Ha Hrun (IH1 & IH2 & IH3)].
  - destruct (attempt_events_counts c evs Ha) as (Hs & Hr & Hz).
    rewrite Hs, Hz. simpl. repeat split; lia.
  - destruct (attempt_events_counts c evs Ha) as (Hs & Hr & Hz).
    unfold requests_sent in *.
    rewrite !List.filter_app, slept_app, Hs, Hz. simpl.
    rewrite List.length_app. repeat split; lia.
Qed.

Lemma authenticateWithRetry_bounded c n tr :
  exists evs,
    snd (authenticateWithRetry server c n tr) = (tr ++ evs)%list
    /\ (length (List.filter is_sleep evs) <= Z.to_nat n)%nat
    /\ (requests_sent evs <= 2 * (length (List.filter is_sleep evs) + 1))%nat
    /\ slept evs = Z.of_nat (length (List.filter is_sleep evs)) * retryBackoff c.
Proof.
  destruct (authenticateWithRetry_events server c n tr) as (evs & Htr & Hrun).
  exists evs. split; [exact Htr |]. exact (run_events_counts c _ _ Hrun).
Qed.


(** X10. A client as [NewClient] returns it does not retry:
    [Authenticate] sends at most two requests and never sleeps. *)
Theorem new_client_does_not_retry config heap c heap' tr :
  NewClient config heap = (Ok c, heap') ->
  exists evs,
    snd (Authenticate server c tr) = (tr ++ evs)%list
    /\ List.filter is_sleep evs = []
    /\ (requests_sent evs <= 2)%nat.
Proof.
  intros Hnew.
  assert (Hr : maxRetries c = 0).
  { unfold NewClient in Hnew.
    destruct (String.eqb (ClientConfig.BaseURL config) ""); [discriminate |].
    destruct (String.eqb (ClientConfig.ClientID config) ""); [discriminate |].
    destruct (ClientConfig.PrivateKey config); [| discriminate].
    destruct (ClientConfig.HTTPClient config); now injection Hnew as <- _. }
  unfold Authenticate. rewrite Hr.
  destruct (authenticateWithRetry_bounded c 0 tr) as (evs & Htr & Hs & Hq & _).
  exists evs. split; [exact Htr |].
  change (Z.to_nat 0) with 0%nat in Hs.
  destruct (List.filter is_sleep evs) as [| e l]; [| simpl in Hs; lia].
  split; [reflexivity |]. simpl in Hq. lia.
Qed.

Lemma nonpositive_count c n (backoff : Z) tr :
  n <= 0 ->
  Authenticate server (SetRetry c n backoff) tr = authenticateWithRetry server c 0 tr.
Proof.
  intros Hn. unfold Authenticate. cbn [maxRetries SetRetry].
  rewrite !authenticateWithRetry_eq.
  change (attempt server (SetRetry c n backoff) tr) with (attempt server c tr).
  destruct (attempt server c tr) as [[v | [s e]] tr1]; [reflexivity |].
  assert (H0n : (0 <? n) = false) by (apply Z.ltb_ge; lia).
  rewrite H0n, !andb_false_r. reflexivity.
Qed.

(** X11. A retry count that is zero or negative means no retry, and the
    backoff then plays no part: after [SetRetry] with such a count and
    any backoff, [Authenticate] does what it does after [SetRetry] with
    count 0 and any other backoff, and it takes no sleep. *)
Theorem nonpositive_retries c n (backoff backoff' : Z) tr :
  n <= 0 ->
  Authenticate server (SetRetry c n backoff) tr
  = Authenticate server (SetRetry c 0 backoff') tr
  /\ exists evs,
       snd (Authenticate server (SetRetry c n backoff) tr) = (tr ++ evs)%list
       /\ List.filter is_sleep evs = [].
Proof.
  intros Hn. rewrite (nonpositive_count c n backoff tr Hn).
  rewrite (nonpositive_count c 0 backoff' tr ltac:(lia)).
  split; [reflexivity |].
  destruct (authenticateWithRetry_bounded c 0 tr) as (evs & Htr & Hs & _).
  exists evs. split; [exact Htr |].
  change (Z.to_nat 0) with 0%nat in Hs.
  destruct (List.filter is_sleep evs) as [| e l]; [reflexivity | simpl in Hs; lia].
Qed.

Lemma VerifySignature_ok c tr (challenge signature : string) session :
  fst (VerifySignature server c challenge signature tr) = Ok session ->
  exists verifyResp,
    session = session_of c verifyResp /\ VerifyResponse.Success verifyResp = true.
Proof.
  unfold VerifySignature.
  destruct (http_NewRequest_error "POST" (baseURL c +:+ "/verify")); [discriminate |].
  unfold bind, Do, ret. cbn [fst].
  destruct (server _ _) as [msg | StatusCode [msg | body]]; try discriminate.
  destruct (negb (StatusCode =? http.StatusOK)); [discriminate |].
  destruct (json_Unmarshal_VerifyResponse body) as [msg | vr]; [discriminate |].
  destruct (VerifyResponse.Success vr) eqn:Hok; cbn [negb]; [| discriminate].
  intros Heq. exists vr. split; [| exact Hok].
  unfold session_of. rewrite Hok.
  destruct (0 <? length (secretKeys c))%nat; now injection Heq.
Qed.

Lemma attempt_ok c tr session :
  fst (attempt server c tr) = inl session ->
  exists verifyResp,
    session = session_of c verifyResp /\ VerifyResponse.Success verifyResp = true.
Proof.
  unfold attempt, bind.
  destruct (RequestChallenge server c tr) as [[cr | e] tr1]; [| discriminate].
  destruct (signChallenge c _) as [signature | e]; [| discriminate].
  pose proof (VerifySignature_ok c tr1 (ChallengeResponse.Challenge cr) signature) as Hv.
  destruct (VerifySignature server c _ signature tr1) as [[v | e] tr2]; [| discriminate].
  cbn [fst ret]. intros [= <-]. now apply Hv.
Qed.

(** X12. A session that [Authenticate] returns, after any number of
    retries, has [Success] set; and with a non-empty key filter every
    key of its secret map is a key of the filter. *)
Theorem session_invariant c tr session :
  fst (Authenticate server c tr) = Ok session ->
  VerifyResponse.Success session = true
  /\ (secretKeys c <> [] ->
      forall k, is_Some (VerifyResponse.SecretData session !! k) -> k ∈ secretKeys c).
Proof.
  unfold Authenticate. generalize (maxRetries c). intros n.
  remember (Z.to_nat n) as budget eqn:Hb.
  revert n tr Hb; induction budget as [| budget IH]; intros n tr Hb;
    rewrite authenticateWithRetry_eq;
    pose proof (attempt_ok c tr) as Hok;
    destruct (attempt server c tr) as [[v | [s e]] tr1]; cbn [fst] in *.
  1, 3: intros [= <-]; destruct (Hok v eq_refl) as (vr & -> & Hs);
    unfold session_of;
    (destruct (secretKeys c) as [| key rest] eqn:Hkeys;
     [ change (0 <? length (@nil string))%nat with false; cbv iota;
       split; [exact Hs | intros Hne; now destruct Hne]
     | change (0 <? length (key :: rest))%nat with true; cbv iota;
       cbn [VerifyResponse.Success VerifyResponse.SecretData];
       split; [exact Hs |]; intros _ k [v' Hk];
       rewrite filter_loop_lookup, lookup_empty in Hk;
       destruct (decide (k ∈ key :: rest)); [assumption | discriminate] ]).
  - assert (H0n : (0 <? n) = false) by (apply Z.ltb_ge; lia).
    rewrite H0n, andb_false_r. discriminate.
  - destruct (retried_step s && (0 <? n) && isRetryable e); [| discriminate].
    apply IH. lia.
Qed.

Lemma signChallenge_not_retryable c (challenge : string) err :
  signChallenge c challenge = Err err -> isRetryable err = false.
Proof.
  unfold signChallenge, crypto.SignChallenge.
  destruct (privateKey c) as [key |]; [| now intros [= <-]].
  destruct (String.eqb challenge ""); [now intros [= <-] |].
  destruct (rsa_SignPKCS1v15 key _); [now intros [= <-] | discriminate].
Qed.

Lemma attempt_sign_error c tr err :
  fst (attempt server c tr) = inr (SignStep, err) -> isRetryable err = false.
Proof.
  unfold attempt, bind.
  destruct (RequestChallenge server c tr) as [[cr | e] tr1]; [| discriminate].
  pose proof (signChallenge_not_retryable c (ChallengeResponse.Challenge cr)) as Hs.
  destruct (signChallenge c _) as [signature | e]; [| intros [= <-]; now apply Hs].
  destruct (VerifySignature server c _ signature tr1) as [[v | e] tr2]; discriminate.
Qed.

(** X13. When [Authenticate] returns an error, either that error is
    not retryable or every retry was used: the number of sleeps is the
    configured count. *)
Theorem gives_up_only_when_exhausted c tr err :
  fst (Authenticate server c tr) = Err err ->
  exists evs,
    snd (Authenticate server c tr) = (tr ++ evs)%list
    /\ (isRetryable err = false
        \/ length (List.filter is_sleep evs) = Z.to_nat (maxRetries c)).
Proof.
  unfold Authenticate. generalize (maxRetries c). intros n.
  remember (Z.to_nat n) as budget eqn:Hb.
  revert n tr Hb; induction budget as [| budget IH]; intros n tr Hb;
    rewrite authenticateWithRetry_eq;
    destruct (attempt_run server c tr) as (evs & Htr & Hevs);
    pose proof (attempt_sign_error c tr) as Hsign;
    destruct (attempt_events_counts c evs Hevs) as (Hnosleep & _ & _);
    destruct (attempt server c tr) as [[v | [s e]] tr1]; cbn [fst snd] in *;
    subst tr1; try discriminate.
  - assert (H0n : (0 <? n) = false) by (apply Z.ltb_ge; lia).
    rewrite H0n, andb_false_r. cbn [fst snd]. intros _.
    exists evs. split; [reflexivity |]. right. now rewrite Hnosleep.
  - destruct (retried_step s && (0 <? n) && isRetryable e) eqn:Hretry.
    + intros Herr.
      destruct (IH (n - 1) ((tr ++ evs) ++ [EvSleep (retryBackoff c)])%list
                  ltac:(lia) Herr) as (rest & Hrest & Hor).
      exists (evs ++ EvSleep (retryBackoff c) :: rest)%list. split.
      * rewrite Hrest, <- !List.app_assoc. reflexivity.
      * destruct Hor as [Hno | Hcount]; [now left | right].
        rewrite List.filter_app, Hnosleep. simpl. lia.
    + cbn [fst snd]. intros [= <-]. exists evs. split; [reflexivity |].
      rewrite isRetryable_wrap.
      destruct s; cbn [retried_step andb] in Hretry.
      * destruct (0 <? n) eqn:H0n; [now left |].
        right. rewrite Hnosleep. simpl. apply Z.ltb_ge in H0n. lia.
      * left. now apply Hsign.
      * destruct (0 <? n) eqn:H0n; [now left |].
        right. rewrite Hnosleep. simpl. apply Z.ltb_ge in H0n. lia.
Qed.


End Run.

(** Witness of X10: the client built from the configuration of the
    examples, against the verifier that cannot be reached. *)
Lemma new_client_does_not_retry_witness :
  exists c heap' evs,
    NewClient mock.config mock.caller_heap = (Ok c, heap')
    /\ snd (Authenticate (H := mock.net) (H0 := mock.small_rsa) mock.unreachable c [])
       = evs
    /\ List.filter is_sleep evs = [].
Proof.
  destruct (NewClient mock.config mock.caller_heap) as [[c | e] heap'] eqn:Hnew;
    [| discriminate Hnew].
  destruct (new_client_does_not_retry (H := mock.net) (H0 := mock.small_rsa)
              mock.unreachable mock.config mock.caller_heap c heap' [] Hnew)
    as (evs & Htr & Hs & _).
  exists c, heap', evs. split; [reflexivity |]. split; [exact Htr | exact Hs].
Defined.

(** Witness of X11: a count of -1. *)
Lemma nonpositive_retries_witness :
  Authenticate (H := mock.net) (H0 := mock.small_rsa) mock.unreachable
    (SetRetry (mock.client 0 []) (-1) 5) []
  = Authenticate (H := mock.net) (H0 := mock.small_rsa) mock.unreachable
      (SetRetry (mock.client 0 []) 0 7) [].
Proof.
  apply (nonpositive_retries (H := mock.net) (H0 := mock.small_rsa) mock.unreachable
           (mock.client 0 []) (-1) 5 7 []).
  lia.
Defined.

(** Witness of X12: the session of the verifier that grants. *)
Lemma session_invariant_witness :
  exists session,
    fst (Authenticate (H := mock.net) (H0 := mock.small_rsa) mock.granting
           (mock.client 1 ["API_KEY"]) []) = Ok session
    /\ VerifyResponse.Success session = true.
Proof.
  destruct (Authenticate (H := mock.net) (H0 := mock.small_rsa) mock.granting
              (mock.client 1 ["API_KEY"]) []) as [[session | e] tr'] eqn:Hrun;
    [| discriminate Hrun].
  exists session. split; [reflexivity |].
  apply (session_invariant (H := mock.net) (H0 := mock.small_rsa) mock.granting
           (mock.client 1 ["API_KEY"]) []).
  now rewrite Hrun.
Defined.

(** Witness of X13: the verifier that cannot be reached, two retries. *)
Lemma gives_up_only_when_exhausted_witness :
  exists err evs,
    Authenticate (H := mock.net) (H0 := mock.small_rsa) mock.unreachable
      (mock.client 2 []) [] = (Err err, evs)
    /\ (isRetryable err = false \/ length (List.filter is_sleep evs) = 2%nat).
Proof.
  destruct (Authenticate (H := mock.net) (H0 := mock.small_rsa) mock.unreachable
              (mock.client 2 []) []) as [[session | err] tr'] eqn:Hrun;
    [discriminate Hrun |].
  destruct (gives_up_only_when_exhausted (H := mock.net) (H0 := mock.small_rsa)
              mock.unreachable (mock.client 2 []) [] err)
    as (evs & Htr & Hor); [now rewrite Hrun |].
  rewrite Hrun in Htr. cbn [snd app] in Htr. subst tr'.
  exists err, evs. split; [reflexivity | exact Hor].
Defined.


End run_more.

(** ** More on construction and on the secret filter *)
Module construct_more.
Import strings strings_facts errors authclient verify_facts.

Implicit Types (config : ClientConfig.t) (heap : gmap positive http.Client).

(** X15. The map the key filter leaves is a part of the server's map:
    it never holds a key or a value the server did not send.  It
    depends on the filter as a set only (order and repeated keys make
    no difference), and filtering it again changes nothing. *)
Theorem filter_keeps_a_submap (keys : list string) (data : gmap string string) :
  filter_loop keys data ∅ ⊆ data
  /\ (forall keys', (forall k, k ∈ keys <-> k ∈ keys') ->
                    filter_loop keys' data ∅ = filter_loop keys data ∅)
  /\ filter_loop keys (filter_loop keys data ∅) ∅ = filter_loop keys data ∅.
Proof.
  split; [| split].
  - rewrite filter_loop_restrict. apply map_filter_subseteq.
  - intros keys' Hsame. apply map_eq; intros k.
    rewrite !filter_loop_lookup, !lookup_empty.
    destruct (decide (k ∈ keys)) as [Hin | Hnin], (decide (k ∈ keys')) as [Hin' | Hnin'];
      try reflexivity.
    + exfalso. apply Hnin'. now apply Hsame.
    + exfalso. apply Hnin. now apply Hsame.
  - apply map_eq; intros k.
    rewrite !filter_loop_lookup, !lookup_empty.
    destruct (decide (k ∈ keys)); [| reflexivity].
    now destruct (data !! k).
Qed.

(** X16. When the configuration is valid and names no [http.Client],
    [NewClient] makes one at an address that held nothing: a zero
    [http.Client] but for the timeout; every object that existed stays
    as it was. *)
Theorem NewClient_allocates config heap key :
  ClientConfig.BaseURL config <> "" -> ClientConfig.ClientID config <> "" ->
  ClientConfig.PrivateKey config = Some key ->
  ClientConfig.HTTPClient config = None ->
  exists c heap',
    NewClient config heap = (Ok c, heap')
    /\ heap !! httpClient c = None
    /\ heap' !! httpClient c
       = Some (http.mkClient None None None (effective_timeout config))
    /\ (forall q, q <> httpClient c -> heap' !! q = heap !! q).
Proof.
  intros Hb Hc Hk Hp. unfold NewClient.
  apply String.eqb_neq in Hb, Hc. rewrite Hb, Hc, Hk, Hp.
  eexists; eexists. split; [reflexivity |]. cbn [httpClient].
  assert (Hfresh : heap !! fresh (dom heap) = None)
    by (apply not_elem_of_dom, is_fresh).
  split; [exact Hfresh |]. split.
  - now rewrite lookup_alter_eq, lookup_insert_eq.
  - intros q Hq. rewrite lookup_alter_ne by congruence.
    now rewrite lookup_insert_ne by congruence.
Qed.

(** X18. One final slash of the base URL is dropped, and only one: a
    base URL and the same with a slash added give the same client when
    the base URL is not empty and does not itself end with a slash; a
    base URL that ends with two slashes keeps one. *)
Theorem one_trailing_slash config heap (url : string) :
  (url <> "" -> HasSuffix url "/" = false ->
   NewClient (with_BaseURL config (url +:+ "/")) heap
   = NewClient (with_BaseURL config url) heap)
  /\ (forall c,
        fst (NewClient (with_BaseURL config (url +:+ "//")) heap) = Ok c ->
        baseURL c = url +:+ "/").
Proof.
  assert (Htrim : forall u, TrimSuffix (u +:+ "/") "/" = u).
  { intros u. destruct (TrimSuffix_spec (u +:+ "/") "/") as [(p & Hp & ->) | [Hno _]].
    - revert p Hp. induction u as [| a u IH]; intros [| b p]; simpl; intros E;
        try reflexivity; try discriminate.
      + injection E as <- E. destruct p; discriminate.
      + injection E as -> E. destruct u; discriminate.
      + injection E as <- E. f_equal. now apply IH.
    - assert (Hyes : HasSuffix (u +:+ "/") "/" = true)
        by (apply HasSuffix_spec; now exists u).
      congruence. }
  assert (Hne : forall u, String.eqb (u +:+ "/") "" = false)
    by (intros u; apply String.eqb_neq; destruct u; discriminate).
  split.
  - intros Hurl Hsuf. unfold NewClient, with_BaseURL.
    cbn [ClientConfig.BaseURL ClientConfig.ClientID ClientConfig.PrivateKey
         ClientConfig.HTTPClient ClientConfig.Timeout ClientConfig.SecretKeys
         ClientConfig.RepoUrl ClientConfig.GrpcEndpoint].
    apply String.eqb_neq in Hurl. rewrite Hne, Hurl.
    destruct (String.eqb (ClientConfig.ClientID config) ""); [reflexivity |].
    destruct (ClientConfig.PrivateKey config); [| reflexivity].
    rewrite Htrim.
    assert (Hsame : TrimSuffix url "/" = url) by (unfold TrimSuffix; now rewrite Hsuf).
    rewrite Hsame.
    destruct (ClientConfig.HTTPClient config); reflexivity.
  - intros c. unfold NewClient, with_BaseURL.
    cbn [ClientConfig.BaseURL ClientConfig.ClientID ClientConfig.PrivateKey
         ClientConfig.HTTPClient ClientConfig.Timeout ClientConfig.SecretKeys
         ClientConfig.RepoUrl ClientConfig.GrpcEndpoint].
    replace (url +:+ "//") with ((url +:+ "/") +:+ "/")
      by (clear; induction url; simpl; congruence).
    rewrite Hne.
    destruct (String.eqb (ClientConfig.ClientID config) ""); [discriminate |].
    destruct (ClientConfig.PrivateKey config); [| discriminate].
    rewrite Htrim.
    destruct (ClientConfig.HTTPClient config); now intros [= <-].
Qed.

(** Witness of X16: the configuration of the examples without its
    [http.Client]. *)
Lemma NewClient_allocates_witness :
  exists c heap',
    NewClient (ClientConfig.mk "https://verifier.example" "client-1"
                 (Some mock.privateKey) None 0 [] "" "" false "") mock.caller_heap
    = (Ok c, heap')
    /\ mock.caller_heap !! httpClient c = None
    /\ heap' !! 1%positive = mock.caller_heap !! 1%positive.
Proof.
  destruct (NewClient_allocates
              (ClientConfig.mk "https://verifier.example" "client-1"
                 (Some mock.privateKey) None 0 [] "" "" false "")
              mock.caller_heap mock.privateKey)
    as (c & heap' & Heq & Hfresh & _ & Hframe);
    [discriminate | discriminate | reflexivity | reflexivity |].
  exists c, heap'. split; [exact Heq |]. split; [exact Hfresh |].
  apply Hframe. intros E. rewrite <- E in Hfresh. discriminate Hfresh.
Defined.

(** X17. A configuration that is refused has no effect: the caller's
    [http.Client], when there is one, keeps its timeout, and no object
    is made. *)
Theorem refused_configuration_writes_nothing config heap :
  ClientConfig.BaseURL config = "" \/ ClientConfig.ClientID config = ""
  \/ ClientConfig.PrivateKey config = None ->
  snd (NewClient config heap) = heap.
Proof.
  intros Hbad. unfold NewClient.
  destruct (String.eqb_spec (ClientConfig.BaseURL config) ""); [reflexivity |].
  destruct (String.eqb_spec (ClientConfig.ClientID config) ""); [reflexivity |].
  destruct (ClientConfig.PrivateKey config); [| reflexivity].
  destruct Hbad as [? | [? | ?]]; congruence.
Qed.

(** Witness of X17: a configuration without client identifier, with
    the caller's [http.Client]. *)
Lemma refused_configuration_writes_nothing_witness :
  snd (NewClient (ClientConfig.mk "https://verifier.example" ""
                    (Some mock.privateKey) (Some 1%positive) 0 [] "" "" false "")
         mock.caller_heap)
  = mock.caller_heap.
Proof.
  apply refused_configuration_writes_nothing. right; left. reflexivity.
Defined.

(** Witness of X18: the base URL of the examples. *)
Lemma one_trailing_slash_witness :
  NewClient (with_BaseURL mock.config "https://verifier.example/") mock.caller_heap
  = NewClient (with_BaseURL mock.config "https://verifier.example") mock.caller_heap.
Proof.
  destruct (one_trailing_slash mock.config mock.caller_heap "https://verifier.example")
    as [Hone _].
  apply Hone; [discriminate | reflexivity].
Defined.

End construct_more.

(** ** More on signing and verifying *)
Module crypto_more.
Import errors crypto base64_facts.

Lemma EncodeToString_length (src : list byte) :
  (String.length (base64.EncodeToString src) mod 4 = 0)%nat.
Proof.
  induction src as [| b0 | b0 b1 | b0 b1 b2 rest IH] using list_ind3;
    cbn [base64.EncodeToString String.length]; try reflexivity.
  change (S (S (S (S (String.length (base64.EncodeToString rest))))))
    with (4 + String.length (base64.EncodeToString rest))%nat.
  rewrite <- Nat.Div0.add_mod_idemp_r, IH. reflexivity.
Qed.

Section WithLibrary.
Context `{GoCrypto}.

(** X19. What [SignChallenge] returns is always base64: it decodes, to
    the very bytes of the library's signature over the SHA-256 digest
    of the challenge, and its length is a multiple of four. *)
Theorem signature_is_base64 (privateKey : option rsa.PrivateKey)
    (challenge signatureBase64 : string) :
  SignChallenge privateKey challenge = Ok signatureBase64 ->
  exists key signature,
    privateKey = Some key
    /\ rsa_SignPKCS1v15 key (sha256_Sum256 challenge) = inr signature
    /\ base64.DecodeString signatureBase64 = Some signature
    /\ (String.length signatureBase64 mod 4 = 0)%nat.
Proof.
  unfold SignChallenge. destruct privateKey as [key |]; [| discriminate].
  destruct (String.eqb challenge ""); [discriminate |].
  destruct (rsa_SignPKCS1v15 key (sha256_Sum256 challenge)) as [err | signature] eqn:Hs;
    [discriminate |].
  intros [= <-]. exists key, signature. split; [reflexivity |]. split; [exact Hs |].
  split; [apply DecodeString_EncodeToString | apply EncodeToString_length].
Qed.

(** X20. [VerifySignature] returns nil exactly when the key is present,
    the challenge and the signature are not empty, the signature decodes
    as base64, and the library accepts the decoded bytes for the SHA-256
    digest of the challenge. *)
Theorem verify_accepts_iff (publicKey : option rsa.PublicKey)
    (challenge signatureBase64 : string) :
  VerifySignature publicKey challenge signatureBase64 = None
  <-> exists key signature,
        publicKey = Some key
        /\ challenge <> "" /\ signatureBase64 <> ""
        /\ base64.DecodeString signatureBase64 = Some signature
        /\ rsa_VerifyPKCS1v15 key (sha256_Sum256 challenge) signature = None.
Proof.
  unfold VerifySignature. split.
  - destruct publicKey as [key |]; [| discriminate].
    destruct (String.eqb_spec challenge "") as [| Hc]; [discriminate |].
    destruct (String.eqb_spec signatureBase64 "") as [| Hs]; [discriminate |].
    destruct (base64.DecodeString signatureBase64) as [signature |]; [| discriminate].
    destruct (rsa_VerifyPKCS1v15 key (sha256_Sum256 challenge) signature) eqn:Hv;
      [discriminate |].
    intros _. exists key, signature. auto.
  - intros (key & signature & -> & Hc & Hs & Hd & Hv).
    apply String.eqb_neq in Hc, Hs. now rewrite Hc, Hs, Hd, Hv.
Qed.

End WithLibrary.

(** Witness of X19: the signature of the examples. *)
Lemma signature_is_base64_witness :
  exists key signature,
    Some mock.privateKey = Some key
    /\ rsa_SignPKCS1v15 (GoCrypto := mock.small_rsa) key
         (sha256_Sum256 (GoCrypto := mock.small_rsa) "nonce") = inr signature
    /\ base64.DecodeString "AZw=" = Some signature
    /\ (String.length "AZw=" mod 4 = 0)%nat.
Proof.
  exact (signature_is_base64 (H := mock.small_rsa) (Some mock.privateKey) "nonce" "AZw="
           eq_refl).
Defined.

End crypto_more.

(** ** Key files *)
Module keygen_facts.
Import errors keygen.

Section WithLibrary.
Context `{GoKeys}.
Context (os_WriteFile_error : nat -> string -> list byte -> Z -> option string)
        (os_ReadFile : string -> string + list byte).

(** X21. [GeneratePrivateKey] returns a key only for 2048 or 4096 bits,
    and then the key the library generated; for any other size it
    fails with [ErrInvalidKeySize], whatever the library would do. *)
Theorem key_sizes (bits : Z) :
  (forall key, GeneratePrivateKey bits = Ok key ->
               (bits = 2048 \/ bits = 4096) /\ rsa_GenerateKey bits = inr key)
  /\ (bits <> 2048 -> bits <> 4096 ->
      exists err, GeneratePrivateKey bits = Err err /\ Is err ErrInvalidKeySize = true).
Proof.
  unfold GeneratePrivateKey. split.
  - intros key.
    destruct (Z.eqb_spec bits 2048) as [-> | H1];
      [| destruct (Z.eqb_spec bits 4096) as [-> | H2]]; cbn [negb andb];
      try discriminate.
    + destruct (rsa_GenerateKey 2048); [discriminate | intros [= <-]; auto].
    + destruct (rsa_GenerateKey 4096); [discriminate | intros [= <-]; auto].
  - intros H1 H2. apply Z.eqb_neq in H1, H2. rewrite H1, H2.
    eexists. split; reflexivity.
Qed.

(** X22. [GenerateAndSaveKeyPair] writes nothing for a key size it
    refuses.  When it returns nil it has made exactly two writes: the
    private key file first, with mode 0600, then the public key file,
    with mode 0644, holding the PEM of the public half of the same
    key.  When the write of the private key fails, the public key file
    is not written. *)
Theorem key_pair_writes (privateKeyFile publicKeyFile : string) (bits : Z)
    (log : list WriteFile) :
  (bits <> 2048 -> bits <> 4096 ->
   snd (GenerateAndSaveKeyPair os_WriteFile_error privateKeyFile publicKeyFile bits log)
   = log)
  /\ (fst (GenerateAndSaveKeyPair os_WriteFile_error privateKeyFile publicKeyFile bits log)
      = None ->
      exists key privatePEM publicPEM,
        GeneratePrivateKey bits = Ok key
        /\ EncodePrivateKeyToPEM (Some key) = Ok privatePEM
        /\ EncodePublicKeyToPEM (Some (rsa.Public key)) = Ok publicPEM
        /\ snd (GenerateAndSaveKeyPair os_WriteFile_error privateKeyFile publicKeyFile
                  bits log)
           = (log ++ [EvWriteFile privateKeyFile privatePEM 384 None;
                      EvWriteFile publicKeyFile publicPEM 420 None])%list)
  /\ (forall key privatePEM msg,
        GeneratePrivateKey bits = Ok key ->
        EncodePrivateKeyToPEM (Some key) = Ok privatePEM ->
        os_WriteFile_error (length log) privateKeyFile privatePEM 384 = Some msg ->
        snd (GenerateAndSaveKeyPair os_WriteFile_error privateKeyFile publicKeyFile
               bits log)
        = (log ++ [EvWriteFile privateKeyFile privatePEM 384 (Some msg)])%list).
Proof.
  unfold GenerateAndSaveKeyPair. split; [| split].
  - intros H1 H2. unfold GeneratePrivateKey.
    apply Z.eqb_neq in H1, H2. rewrite H1, H2. reflexivity.
  - destruct (GeneratePrivateKey bits) as [key | err]; [| discriminate].
    unfold SavePrivateKey, SavePublicKey, os_WriteFile.
    destruct (EncodePrivateKeyToPEM (Some key)) as [privatePEM | err] eqn:Hpriv;
      [| discriminate].
    destruct (os_WriteFile_error (length log) privateKeyFile privatePEM 384) eqn:Hw1;
      [discriminate |].
    destruct (EncodePublicKeyToPEM (Some (rsa.Public key))) as [publicPEM | err] eqn:Hpub;
      [| discriminate].
    destruct (os_WriteFile_error _ publicKeyFile publicPEM 420) eqn:Hw2;
      [discriminate |].
    intros _. exists key, privatePEM, publicPEM.
    split; [reflexivity |]. split; [exact Hpriv |]. split; [exact Hpub |].
    cbn [snd]. now rewrite <- List.app_assoc.
  - intros key privatePEM msg -> Hpem Hw.
    unfold SavePrivateKey, os_WriteFile. rewrite Hpem, Hw. reflexivity.
Qed.

(** X23. Under the round trips of the libraries, what
    [EncodePrivateKeyToPEM] writes, [ParsePrivateKeyPEM] reads back as
    the same key, and so for the public key. *)
Theorem pem_round_trip :
  codecs_round_trip ->
  (forall key pemData,
     EncodePrivateKeyToPEM (Some key) = Ok pemData ->
     ParsePrivateKeyPEM pemData = Ok key)
  /\ (forall key pemData,
        EncodePublicKeyToPEM (Some key) = Ok pemData ->
        ParsePublicKeyPEM pemData = Ok key).
Proof.
  intros (Hpriv & Hpub & Hpem). split; intros key pemData.
  - unfold EncodePrivateKeyToPEM, ParsePrivateKeyPEM.
    destruct (x509_MarshalPKCS8PrivateKey key) as [err | der] eqn:Hm; [discriminate |].
    intros [= <-]. rewrite Hpem by now left. cbn [pem.Bytes].
    now rewrite (Hpriv key der Hm).
  - unfold EncodePublicKeyToPEM, ParsePublicKeyPEM.
    destruct (x509_MarshalPKIXPublicKey key) as [err | der] eqn:Hm; [discriminate |].
    intros [= <-]. rewrite Hpem by now right. cbn [pem.Bytes].
    now rewrite (Hpub key der Hm).
Qed.

(** X24. The parsers fail with [ErrInvalidPEMBlock] exactly when the
    data holds no PEM block, and with [ErrInvalidKeyType] exactly when
    the block parses (as PKCS #8, as PKIX) to a key that is not an RSA
    key. The type of the block is not looked at. *)
Theorem parse_error_classes (pemData : list byte) :
  ((exists err, ParsePrivateKeyPEM pemData = Err err /\ Is err ErrInvalidPEMBlock = true)
   <-> pem_Decode pemData = None)
  /\ ((exists err, ParsePublicKeyPEM pemData = Err err /\ Is err ErrInvalidPEMBlock = true)
      <-> pem_Decode pemData = None)
  /\ ((exists err, ParsePrivateKeyPEM pemData = Err err /\ Is err ErrInvalidKeyType = true)
      <-> exists block go_type,
            pem_Decode pemData = Some block
            /\ x509_ParsePKCS8PrivateKey (pem.Bytes block)
               = inr (x509.OtherPrivateKey go_type))
  /\ ((exists err, ParsePublicKeyPEM pemData = Err err /\ Is err ErrInvalidKeyType = true)
      <-> exists block go_type,
            pem_Decode pemData = Some block
            /\ x509_ParsePKIXPublicKey (pem.Bytes block)
               = inr (x509.OtherPublicKey go_type)).
Proof.
  unfold ParsePrivateKeyPEM, ParsePublicKeyPEM.
  destruct (pem_Decode pemData) as [block |].
  - destruct (x509_ParsePKCS8PrivateKey (pem.Bytes block))
      as [e8 | [rsaKey | go_type]] eqn:E8;
      destruct (x509_ParsePKIXPublicKey (pem.Bytes block))
        as [ep | [rsaPub | go_type']] eqn:EP;
      try destruct (x509_ParsePKCS1PrivateKey (pem.Bytes block)) as [e1 | key1];
      (split; [| split; [| split]]); split;
      try discriminate;
      try (intros (err & Herr & His); injection Herr as <-; discriminate His);
      try (intros (err & Herr & _); discriminate Herr);
      try (intros (b & t & Hb & Ht); injection Hb as <-; congruence);
      try (intros _; eexists; split; reflexivity);
      try (intros _; eexists; eexists; split; [reflexivity | eassumption]).
  - (split; [| split; [| split]]); split;
      try reflexivity;
      try (intros _; eexists; split; reflexivity);
      try (intros (err & Herr & His); injection Herr as <-; discriminate His);
      try (intros (b & t & Hb & _); discriminate Hb).
Qed.


End WithLibrary.

(** The doubles of the libraries keep the round trips. *)
Lemma mock_codecs_round_trip : codecs_round_trip (H := mock.keys).
Proof.
  split; [| split].
  - intros key der. cbn [x509_MarshalPKCS8PrivateKey x509_ParsePKCS8PrivateKey mock.keys].
    destruct (mock.privateKey_eqb key mock.privateKey) eqn:E; [| discriminate].
    intros [= <-]. f_equal. f_equal.
    destruct key as [[n e] d primes].
    unfold mock.privateKey_eqb, mock.publicKey_eqb, mock.privateKey in E.
    cbn [rsa.Public rsa.D rsa.Primes rsa.N rsa.E] in E.
    apply andb_true_iff in E as [E Hlen].
    apply andb_true_iff in E as [E Hprimes].
    apply andb_true_iff in E as [E Hd].
    apply andb_true_iff in E as [Hn He].
    apply Z.eqb_eq in Hn, He, Hd. subst n e d.
    destruct primes as [| p [| q [| x primes]]]; try discriminate Hlen.
    cbn [combine forallb fst snd] in Hprimes.
    apply andb_true_iff in Hprimes as [Hp Hq].
    apply andb_true_iff in Hq as [Hq _].
    apply Z.eqb_eq in Hp, Hq. subst p q. reflexivity.
  - intros key der. cbn [x509_MarshalPKIXPublicKey x509_ParsePKIXPublicKey mock.keys].
    destruct (mock.publicKey_eqb key mock.publicKey) eqn:E; [| discriminate].
    intros [= <-]. f_equal. f_equal.
    destruct key as [n e]. unfold mock.publicKey_eqb in E. cbn in E.
    apply andb_true_iff in E as [?%Z.eqb_eq ?%Z.eqb_eq]. now subst.
  - intros type_ bytes [-> | ->]; reflexivity.
Qed.

(** Witness of X23: the key pair of the examples. *)
Lemma pem_round_trip_witness :
  ParsePrivateKeyPEM (H := mock.keys) [Byte.x01; Byte.x30; Byte.x82] = Ok mock.privateKey
  /\ ParsePublicKeyPEM (H := mock.keys) [Byte.x02; Byte.x30; Byte.x59] = Ok mock.publicKey.
Proof.
  destruct (pem_round_trip (H := mock.keys) mock_codecs_round_trip) as [Hpriv Hpub].
  split; [apply Hpriv | apply Hpub]; reflexivity.
Defined.

(** Witness of X22: 2048 bits on a file system that takes every
    write, and 1024 bits. *)
Lemma key_pair_writes_witness :
  snd (GenerateAndSaveKeyPair (H := mock.keys) mock.writable "private.pem" "public.pem"
         2048 [])
  = [EvWriteFile "private.pem" [Byte.x01; Byte.x30; Byte.x82] 384 None;
     EvWriteFile "public.pem" [Byte.x02; Byte.x30; Byte.x59] 420 None]
  /\ snd (GenerateAndSaveKeyPair (H := mock.keys) mock.writable "private.pem" "public.pem"
            1024 []) = [].
Proof.
  destruct (key_pair_writes (H := mock.keys) mock.writable "private.pem" "public.pem"
              2048 []) as (_ & Hok & _).
  destruct (Hok eq_refl) as (key & privatePEM & publicPEM & Hk & Hpriv & Hpub & Heq).
  injection Hk as <-. injection Hpriv as <-. injection Hpub as <-.
  split; [exact Heq |].
  apply (key_pair_writes (H := mock.keys) mock.writable "private.pem" "public.pem"
           1024 []); discriminate.
Defined.

(** Witness of X21: 2048 bits and 1024 bits. *)
Lemma key_sizes_witness :
  ((2048 = 2048 \/ 2048 = 4096)
   /\ rsa_GenerateKey (GoKeys := mock.keys) 2048 = inr mock.privateKey)
  /\ exists err,
       GeneratePrivateKey (H := mock.keys) 1024 = Err err
       /\ Is err ErrInvalidKeySize = true.
Proof.
  split.
  - destruct (key_sizes (H := mock.keys) 2048) as [Hok _]. exact (Hok _ eq_refl).
  - destruct (key_sizes (H := mock.keys) 1024) as [_ Hbad]. apply Hbad; discriminate.
Defined.


End keygen_facts.
